(** * The zkLogin session class of [src/zklogin.js]

    A shallow embedding of the [ZkLogin] class: its configuration, the
    mutable instance fields, and the methods that drive one login attempt
    ([generateEphemeralKeyPair], [prepareForJWT], [buildOAuthUrl],
    [processJWT], [getState] and the JWT helpers), the two signing
    methods ([generateZkLoginSignature], [createAndSignTransaction]), the
    accessors and the maintenance of the salt database.

    Conventions.
    - A JavaScript string is a [string], the bytes of its UTF-8 text.  Where
      a method counts code units ([substring]) the bytes are the units for
      ASCII text, and the engine is asked for every other text.
    - [null] and [undefined] fields are [None].
    - An epoch is what [parseInt] returns, [NaN], an infinity or a double
      with an integer value, and the epoch window is a number of the same
      kind; [+] on them rounds as doubles do ([Double]).  Randomness is a
      [BigInt], in [Z], as the fallback of [prepareForJWT] produces it (an
      SDK that hands out the decimal text instead differs only in the
      truthiness of zero).
    - A thrown [Error] is identified with its [message]; a method is a
      function from the instance to the (possibly mutated) instance and
      either a returned value or a thrown message, so that writes made
      before a [throw] stay visible.
    - Whatever the class obtains from Node, the Sui SDK or the network is a
      field of [Sdk] (deterministic library functions) or an explicit oracle
      argument of the method that draws it (fresh keys, random numbers, the
      epoch reported by the network).
    - The salt database is the class [UserSaltDatabase], whose module is
      the second document of [src/test-movecall.js]: its table is the list
      of its rows, and the errors of the [sqlite3] driver and the random
      salt are an oracle argument. *)

From Stdlib Require Import String Ascii List ZArith Bool Lia.
From Stdlib Require Import DecimalString DecimalZ DecimalPos.
Import ListNotations.
Local Open Scope string_scope.

Set Warnings "-register-all".

(** ** Strings *)

Module Str.

(** [s.split(sep)] for a one-character separator: never empty, the empty
    string yields one empty segment. *)
Fixpoint split (sep : ascii) (s : string) : list string :=
  match s with
  | EmptyString => [EmptyString]
  | String c rest =>
      if Ascii.eqb c sep then EmptyString :: split sep rest
      else match split sep rest with
           | seg :: segs => String c seg :: segs
           | [] => [String c EmptyString]
           end
  end.

(** [segs.join(sep)]. *)
Definition join (sep : ascii) (segs : list string) : string :=
  String.concat (String sep EmptyString) segs.

(** No occurrence of [sep] in [s]. *)
Fixpoint free_of (sep : ascii) (s : string) : bool :=
  match s with
  | EmptyString => true
  | String c rest => negb (Ascii.eqb c sep) && free_of sep rest
  end.

(** [BigInt.prototype.toString()] and [String(n)] for an integer number. *)
Definition decimal (z : Z) : string := NilZero.string_of_int (Z.to_int z).

(** [/^[0-9a-fA-F]+$/.test(s)] *)
Definition hex_value (c : ascii) : option Z :=
  let n := Z.of_nat (nat_of_ascii c) in
  if (48 <=? n)%Z && (n <=? 57)%Z then Some (n - 48)%Z
  else if (65 <=? n)%Z && (n <=? 70)%Z then Some (n - 55)%Z
  else if (97 <=? n)%Z && (n <=? 102)%Z then Some (n - 87)%Z
  else None.

Fixpoint all_hex (s : string) : bool :=
  match s with
  | EmptyString => true
  | String c rest =>
      match hex_value c with Some _ => all_hex rest | None => false end
  end.

Definition is_hex (s : string) : bool :=
  match s with EmptyString => false | _ => all_hex s end.

(** [BigInt('0x' + s)] for a string of hexadecimal digits. *)
Fixpoint hex_acc (acc : Z) (s : string) : Z :=
  match s with
  | EmptyString => acc
  | String c rest =>
      hex_acc (16 * acc + match hex_value c with Some d => d | None => 0 end)%Z rest
  end.

Definition of_hex (s : string) : Z := hex_acc 0 s.

(** Truthiness of a string: [!!s]. *)
Definition truthy (s : string) : bool :=
  match s with EmptyString => false | _ => true end.

(** Every byte is an ASCII character, so that the UTF-16 code units of
    the string are its bytes. *)
Fixpoint is_ascii (s : string) : bool :=
  match s with
  | EmptyString => true
  | String c rest => Nat.ltb (nat_of_ascii c) 128 && is_ascii rest
  end.

End Str.

(** ** Numbers *)

Module Double.

(** The numbers that an epoch or the epoch window can be: [NaN], an
    infinity, or a double whose value is the integer [z].  [-0] is
    identified with [0]; the class adds a truthy window to it and hands
    it on, which does not tell the two apart. *)
Inductive t : Type :=
| NaN
| Infinity (negative : bool)
| Int (z : Z).

(** The double nearest to the integer [z], ties to the even mantissa, and
    an infinity from the middle between the largest double and [2^1024]
    on: what the exact result of an operation is rounded to. *)
Definition round (z : Z) : t :=
  let a := Z.abs z in
  if (a <? 2 ^ 53)%Z then Int z
  else
    let u := (2 ^ (Z.log2 a - 52))%Z in
    let q := (a / u)%Z in
    let r := (a mod u)%Z in
    let q' := if (2 * r <? u)%Z then q
              else if (u <? 2 * r)%Z then (q + 1)%Z
              else if Z.even q then q else (q + 1)%Z in
    let m := (q' * u)%Z in
    if (2 ^ 1024 <=? m)%Z then Infinity (z <? 0)%Z
    else Int (Z.sgn z * m).

(** [a + b] *)
Definition add (a b : t) : t :=
  match a, b with
  | NaN, _ => NaN
  | _, NaN => NaN
  | Infinity n, Infinity m => if Bool.eqb n m then Infinity n else NaN
  | Infinity n, Int _ => Infinity n
  | Int _, Infinity m => Infinity m
  | Int x, Int y => round (x + y)
  end.

(** [!!a] *)
Definition truthy (a : t) : bool :=
  match a with
  | NaN => false
  | Infinity _ => true
  | Int z => negb (z =? 0)%Z
  end.

(** The safe integers, up to [Number.MAX_SAFE_INTEGER]. *)
Definition safe (z : Z) : Prop := (Z.abs z <= 9007199254740991)%Z.

End Double.

Arguments Double.round : simpl never.
Arguments Double.add : simpl never.

(** ** JavaScript values read out of a token *)

(** The result of [JSON.parse].  A number is kept as its canonical
    rendering ([Number.prototype.toString]); both zeros render as ["0"].
    An object keeps its own properties, one entry per key. *)
Inductive json : Type :=
| JNull
| JBool (b : bool)
| JNum (repr : string)
| JStr (s : string)
| JArr (items : list json)
| JObj (props : list (string * json)).

(** What a property read can produce: nothing, a parsed value, or a
    built-in method found on the prototype chain. *)
Inductive jsval : Type :=
| VUndefined
| VJson (j : json)
| VNative (name : string).

(** The property names that the class reads from a decoded header or
    payload. *)
Inductive Claim : Type :=
| c_alg | c_typ | c_kid
| c_iss | c_aud | c_sub | c_exp | c_iat | c_nonce
| c_email | c_email_verified | c_name | c_picture.

Definition claim_key (c : Claim) : string :=
  match c with
  | c_alg => "alg" | c_typ => "typ" | c_kid => "kid"
  | c_iss => "iss" | c_aud => "aud" | c_sub => "sub"
  | c_exp => "exp" | c_iat => "iat" | c_nonce => "nonce"
  | c_email => "email" | c_email_verified => "email_verified"
  | c_name => "name" | c_picture => "picture"
  end.

Module Js.

Fixpoint own (props : list (string * json)) (k : string) : option json :=
  match props with
  | [] => None
  | (k', v) :: rest => if String.eqb k' k then Some v else own rest k
  end.

(** [v.c] for a parsed value [v].  Reading from [null] throws a
    [TypeError]; an object answers with its own property; of the names in
    [Claim] only [sub] is inherited, by strings ([String.prototype.sub]);
    every other read is [undefined]. *)
Definition get (v : json) (c : Claim) : string + jsval :=
  match v with
  | JNull =>
      inl ("Cannot read properties of null (reading '" ++ claim_key c ++ "')")
  | JObj props =>
      inr (match own props (claim_key c) with
           | Some j => VJson j
           | None => VUndefined
           end)
  | JStr _ =>
      inr (match c with c_sub => VNative "sub" | _ => VUndefined end)
  | _ => inr VUndefined
  end.

(** [!!v] *)
Definition truthy (v : jsval) : bool :=
  match v with
  | VUndefined => false
  | VNative _ => true
  | VJson JNull => false
  | VJson (JBool b) => b
  | VJson (JNum r) => negb (String.eqb r "0")
  | VJson (JStr s) => Str.truthy s
  | VJson (JArr _) => true
  | VJson (JObj _) => true
  end.

(** [v === s] for a string [s]. *)
Definition strict_eq_string (v : jsval) (s : string) : bool :=
  match v with
  | VJson (JStr t) => String.eqb t s
  | _ => false
  end.

(** [String(v)], as a template literal renders it, or the message of the
    [TypeError] that the conversion throws.  An object is converted by
    its [toString]: the one of [Object.prototype], unless the object has
    an own [toString] key, whose value, coming from JSON, cannot be
    called; the conversion then tries [valueOf], gets no primitive and
    throws.  An array joins the conversions of its items, of which [null]
    is the empty text, and throws with the first item that throws. *)
Fixpoint json_to_string (j : json) : string + string :=
  match j with
  | JNull => inr "null"
  | JBool true => inr "true"
  | JBool false => inr "false"
  | JNum r => inr r
  | JStr s => inr s
  | JArr items =>
      let fix join (l : list json) : string + list string :=
        match l with
        | [] => inr []
        | x :: rest =>
            match (match x with JNull => inr "" | _ => json_to_string x end) with
            | inl msg => inl msg
            | inr text =>
                match join rest with
                | inl msg => inl msg
                | inr texts => inr (text :: texts)
                end
            end
        end in
      match join items with
      | inl msg => inl msg
      | inr texts => inr (String.concat "," texts)
      end
  | JObj props =>
      match own props "toString" with
      | Some _ => inl "Cannot convert object to primitive value"
      | None => inr "[object Object]"
      end
  end.

Definition to_string (v : jsval) : string + string :=
  match v with
  | VUndefined => inr "undefined"
  | VJson j => json_to_string j
  | VNative name => inr ("function " ++ name ++ "() { [native code] }")
  end.

End Js.

(** ** Provider table, configuration and instance fields *)

Record Provider : Type := {
  name : string;
  authUrl : string;
  scope : string;
  responseType : string
}.

(** What [PROVIDERS[key]] evaluates to: one of the four own entries, a
    member of [Object.prototype] (truthy, without an [authUrl]), or
    [undefined]. *)
Inductive ProviderLookup : Type :=
| Own (p : Provider)
| Inherited
| Missing.

Definition object_prototype_keys : list string :=
  [ "constructor"; "__proto__"; "hasOwnProperty"; "isPrototypeOf";
    "propertyIsEnumerable"; "toLocaleString"; "toString"; "valueOf";
    "__defineGetter__"; "__defineSetter__"; "__lookupGetter__";
    "__lookupSetter__" ].

Definition PROVIDERS (key : string) : ProviderLookup :=
  if String.eqb key "google" then
    Own {| name := "Google";
           authUrl := "https://accounts.google.com/o/oauth2/v2/auth";
           scope := "openid email profile";
           responseType := "id_token" |}
  else if String.eqb key "facebook" then
    Own {| name := "Facebook";
           authUrl := "https://www.facebook.com/v18.0/dialog/oauth";
           scope := "openid email";
           responseType := "id_token" |}
  else if String.eqb key "twitch" then
    Own {| name := "Twitch";
           authUrl := "https://id.twitch.tv/oauth2/authorize";
           scope := "openid user:read:email";
           responseType := "id_token" |}
  else if String.eqb key "apple" then
    Own {| name := "Apple";
           authUrl := "https://appleid.apple.com/auth/authorize";
           scope := "openid email name";
           responseType := "id_token" |}
  else if existsb (String.eqb key) object_prototype_keys then Inherited
  else Missing.

Module Config.

(** [this.config], after the constructor has filled in the defaults. *)
Record t : Type := {
  suiRpcUrl : string;
  provider : string;
  clientId : string;
  redirectUrl : string;
  keyScheme : string;
  oauthFlow : string;
  maxEpoch : Double.t;
  userSalt : string;
  useDatabase : bool;
  dbPath : string
}.

(** The object handed to [new ZkLogin(config)]; an absent key is [None].
    The two keys without a default, [clientId] and [redirectUrl], are only
    tested for truthiness, so that an absent one is read as the empty
    string. *)
Record raw : Type := {
  r_suiRpcUrl : option string;
  r_provider : option string;
  r_clientId : option string;
  r_redirectUrl : option string;
  r_keyScheme : option string;
  r_oauthFlow : option string;
  r_maxEpoch : option Double.t;
  r_userSalt : option string;
  r_useDatabase : option bool;
  r_dbPath : option string
}.

Definition with_provider (v : string) (c : t) : t :=
  {| suiRpcUrl := suiRpcUrl c; provider := v; clientId := clientId c;
     redirectUrl := redirectUrl c; keyScheme := keyScheme c;
     oauthFlow := oauthFlow c; maxEpoch := maxEpoch c;
     userSalt := userSalt c; useDatabase := useDatabase c;
     dbPath := dbPath c |}.

Definition with_clientId (v : string) (c : t) : t :=
  {| suiRpcUrl := suiRpcUrl c; provider := provider c; clientId := v;
     redirectUrl := redirectUrl c; keyScheme := keyScheme c;
     oauthFlow := oauthFlow c; maxEpoch := maxEpoch c;
     userSalt := userSalt c; useDatabase := useDatabase c;
     dbPath := dbPath c |}.

Definition with_redirectUrl (v : string) (c : t) : t :=
  {| suiRpcUrl := suiRpcUrl c; provider := provider c;
     clientId := clientId c; redirectUrl := v; keyScheme := keyScheme c;
     oauthFlow := oauthFlow c; maxEpoch := maxEpoch c;
     userSalt := userSalt c; useDatabase := useDatabase c;
     dbPath := dbPath c |}.

End Config.

(** [a || b] on an optional string: the default is taken for a missing or
    empty value. *)
Definition or_string (a : option string) (b : string) : string :=
  match a with
  | Some s => if Str.truthy s then s else b
  | None => b
  end.

(** [a || b] on an optional number. *)
Definition or_number (a : option Double.t) (b : Double.t) : Double.t :=
  match a with
  | Some n => if Double.truthy n then n else b
  | None => b
  end.

Definition or_bool (a : option bool) (b : bool) : bool :=
  match a with
  | Some true => true
  | _ => b
  end.

(** An [Ed25519Keypair] or [Secp256k1Keypair] object. *)
Inductive KeyClass : Type := Ed25519 | Secp256k1.

Record PublicKey : Type := {
  pk_class : KeyClass;
  pk_bytes : string
}.

Record KeyPair : Type := {
  secretKey : string;
  getPublicKey : PublicKey
}.

(** The object returned by [decodeJWT]. *)
Record RawJWT : Type := {
  raw_header : string;
  raw_payload : string;
  raw_signature : string
}.

Record DecodedJWT : Type := {
  header : json;
  payload : json;
  signature : string;
  raw : RawJWT
}.

(** ** The salt store *)

(** The class [UserSaltDatabase] of the module [./database], whose text
    is the second document of [src/test-movecall.js]: a table
    [user_salts] in an SQLite file, read and written through the
    [sqlite3] driver. *)
Module SaltStore.

(** The rows of [user_salts], oldest first: [user_identifier],
    [provider] and [custom_salt], three [TEXT NOT NULL] columns, of which
    [user_identifier] is declared [UNIQUE]. *)
Definition t : Type := list ((string * string) * string).

(** What a call draws from outside: the error, if any, with which the
    driver answers the first statement of the call (the file cannot be
    opened, the table cannot be read), the error with which it answers
    the [INSERT] for a reason other than a constraint, and the 32 random
    bytes of [generateSalt], in hexadecimal. *)
Record Oracle : Type := {
  unavailable : option string;
  write_error : option string;
  fresh : string
}.

(** The row of a pair, as [WHERE user_identifier = ? AND provider = ?]
    selects it. *)
Fixpoint find (db : t) (subject provider : string) : option string :=
  match db with
  | [] => None
  | ((s, p), salt) :: rest =>
      if String.eqb s subject && String.eqb p provider then Some salt
      else find rest subject provider
  end.

Definition remove (db : t) (subject provider : string) : t :=
  filter (fun e => negb (String.eqb (fst (fst e)) subject
                         && String.eqb (snd (fst e)) provider)) db.

(** Some row has this [user_identifier], under whatever provider. *)
Definition known (db : t) (subject : string) : bool :=
  existsb (fun e => String.eqb (fst (fst e)) subject) db.

(** The parameter that the driver binds for a value, as the [TEXT] column
    compares and stores it: a string is itself, a boolean the integer 1
    or 0, a number its SQLite text ([number_text] of its JavaScript
    rendering), [null] and [undefined] are [NULL] ([None]), and any other
    object is bound as its conversion to a string, which can throw. *)
Definition bind (number_text : string -> string) (v : jsval)
  : string + option string :=
  match v with
  | VUndefined => inr None
  | VJson JNull => inr None
  | VJson (JStr s) => inr (Some s)
  | VJson (JBool b) => inr (Some (if b then "1" else "0"))
  | VJson (JNum r) => inr (Some (number_text r))
  | _ =>
      match Js.to_string v with
      | inl msg => inl msg
      | inr text => inr (Some text)
      end
  end.

Definition not_null_violation : string :=
  "SQLITE_CONSTRAINT: NOT NULL constraint failed: user_salts.user_identifier".

Definition unique_violation : string :=
  "SQLITE_CONSTRAINT: UNIQUE constraint failed: user_salts.user_identifier".

(** [getOrCreateUserSalt(userIdentifier, provider)]: the salt of the row
    of the pair, or else a fresh salt, inserted as a new row.  The
    [INSERT] is rejected for an identifier that is [NULL] and, the column
    being [UNIQUE], for an identifier that has a row under another
    provider. *)
Definition getOrCreateUserSalt (number_text : string -> string)
    (db : t) (userIdentifier : jsval) (provider : string) (o : Oracle)
  : string + (string * t) :=
  match unavailable o with
  | Some msg => inl msg
  | None =>
      match bind number_text userIdentifier with
      | inl msg => inl msg
      | inr key =>
          match (match key with
                 | Some k => find db k provider
                 | None => None
                 end) with
          | Some salt => inr (salt, db)
          | None =>
              let newSalt := fresh o in
              match write_error o with
              | Some msg => inl msg
              | None =>
                  match key with
                  | None => inl not_null_violation
                  | Some k =>
                      if known db k then inl unique_violation
                      else inr (newSalt, (db ++ [((k, provider), newSalt)])%list)
                  end
              end
          end
      end
  end.

(** [updateUserSalt(userIdentifier, provider, newSalt)]: the [UPDATE] of
    the row of the pair; the answer is whether a row changed. *)
Definition updateUserSalt
    (db : t) (subject provider newSalt : string) (o : Oracle) : string + (bool * t) :=
  match unavailable o with
  | Some msg => inl msg
  | None =>
      match find db subject provider with
      | Some _ =>
          inr (true,
               map (fun e =>
                      if String.eqb (fst (fst e)) subject
                         && String.eqb (snd (fst e)) provider
                      then (fst e, newSalt) else e) db)
      | None => inr (false, db)
      end
  end.

(** [deleteUserSalt(userIdentifier, provider)]: the [DELETE] of the row
    of the pair; the answer is whether a row changed. *)
Definition deleteUserSalt
    (db : t) (subject provider : string) (o : Oracle) : string + (bool * t) :=
  match unavailable o with
  | Some msg => inl msg
  | None =>
      match find db subject provider with
      | Some _ => inr (true, remove db subject provider)
      | None => inr (false, db)
      end
  end.

End SaltStore.

(** ** The instance *)

(** The fields of [this].  [decodedJWT] and [userSalt] are not assigned by
    [reset]; they are [undefined] until [processJWT] writes them. *)
Record ZkLogin : Type := {
  config : Config.t;
  saltDatabase : option SaltStore.t;
  ephemeralKeyPair : option KeyPair;
  randomness : option Z;
  nonce : option string;
  maxEpoch : option Double.t;
  currentEpoch : option Double.t;
  jwt : option string;
  userAddress : option string;
  zkLoginSignature : option string;
  decodedJWT : option DecodedJWT;
  userSalt : option string
}.

(** Assignments to single fields. *)

Definition set_config (v : Config.t) (s : ZkLogin) : ZkLogin :=
  {| config := v; saltDatabase := saltDatabase s;
     ephemeralKeyPair := ephemeralKeyPair s; randomness := randomness s;
     nonce := nonce s; maxEpoch := maxEpoch s;
     currentEpoch := currentEpoch s; jwt := jwt s;
     userAddress := userAddress s; zkLoginSignature := zkLoginSignature s;
     decodedJWT := decodedJWT s; userSalt := userSalt s |}.

Definition set_saltDatabase (v : option SaltStore.t) (s : ZkLogin) : ZkLogin :=
  {| config := config s; saltDatabase := v;
     ephemeralKeyPair := ephemeralKeyPair s; randomness := randomness s;
     nonce := nonce s; maxEpoch := maxEpoch s;
     currentEpoch := currentEpoch s; jwt := jwt s;
     userAddress := userAddress s; zkLoginSignature := zkLoginSignature s;
     decodedJWT := decodedJWT s; userSalt := userSalt s |}.

Definition set_ephemeralKeyPair (v : option KeyPair) (s : ZkLogin) : ZkLogin :=
  {| config := config s; saltDatabase := saltDatabase s;
     ephemeralKeyPair := v; randomness := randomness s; nonce := nonce s;
     maxEpoch := maxEpoch s; currentEpoch := currentEpoch s; jwt := jwt s;
     userAddress := userAddress s; zkLoginSignature := zkLoginSignature s;
     decodedJWT := decodedJWT s; userSalt := userSalt s |}.

Definition set_randomness (v : option Z) (s : ZkLogin) : ZkLogin :=
  {| config := config s; saltDatabase := saltDatabase s;
     ephemeralKeyPair := ephemeralKeyPair s; randomness := v;
     nonce := nonce s; maxEpoch := maxEpoch s;
     currentEpoch := currentEpoch s; jwt := jwt s;
     userAddress := userAddress s; zkLoginSignature := zkLoginSignature s;
     decodedJWT := decodedJWT s; userSalt := userSalt s |}.

Definition set_nonce (v : option string) (s : ZkLogin) : ZkLogin :=
  {| config := config s; saltDatabase := saltDatabase s;
     ephemeralKeyPair := ephemeralKeyPair s; randomness := randomness s;
     nonce := v; maxEpoch := maxEpoch s; currentEpoch := currentEpoch s;
     jwt := jwt s; userAddress := userAddress s;
     zkLoginSignature := zkLoginSignature s; decodedJWT := decodedJWT s;
     userSalt := userSalt s |}.

Definition set_maxEpoch (v : option Double.t) (s : ZkLogin) : ZkLogin :=
  {| config := config s; saltDatabase := saltDatabase s;
     ephemeralKeyPair := ephemeralKeyPair s; randomness := randomness s;
     nonce := nonce s; maxEpoch := v; currentEpoch := currentEpoch s;
     jwt := jwt s; userAddress := userAddress s;
     zkLoginSignature := zkLoginSignature s; decodedJWT := decodedJWT s;
     userSalt := userSalt s |}.

Definition set_currentEpoch (v : option Double.t) (s : ZkLogin) : ZkLogin :=
  {| config := config s; saltDatabase := saltDatabase s;
     ephemeralKeyPair := ephemeralKeyPair s; randomness := randomness s;
     nonce := nonce s; maxEpoch := maxEpoch s; currentEpoch := v;
     jwt := jwt s; userAddress := userAddress s;
     zkLoginSignature := zkLoginSignature s; decodedJWT := decodedJWT s;
     userSalt := userSalt s |}.

Definition set_jwt (v : option string) (s : ZkLogin) : ZkLogin :=
  {| config := config s; saltDatabase := saltDatabase s;
     ephemeralKeyPair := ephemeralKeyPair s; randomness := randomness s;
     nonce := nonce s; maxEpoch := maxEpoch s;
     currentEpoch := currentEpoch s; jwt := v;
     userAddress := userAddress s; zkLoginSignature := zkLoginSignature s;
     decodedJWT := decodedJWT s; userSalt := userSalt s |}.

Definition set_userAddress (v : option string) (s : ZkLogin) : ZkLogin :=
  {| config := config s; saltDatabase := saltDatabase s;
     ephemeralKeyPair := ephemeralKeyPair s; randomness := randomness s;
     nonce := nonce s; maxEpoch := maxEpoch s;
     currentEpoch := currentEpoch s; jwt := jwt s; userAddress := v;
     zkLoginSignature := zkLoginSignature s; decodedJWT := decodedJWT s;
     userSalt := userSalt s |}.

Definition set_zkLoginSignature (v : option string) (s : ZkLogin) : ZkLogin :=
  {| config := config s; saltDatabase := saltDatabase s;
     ephemeralKeyPair := ephemeralKeyPair s; randomness := randomness s;
     nonce := nonce s; maxEpoch := maxEpoch s;
     currentEpoch := currentEpoch s; jwt := jwt s;
     userAddress := userAddress s; zkLoginSignature := v;
     decodedJWT := decodedJWT s; userSalt := userSalt s |}.

Definition set_decodedJWT (v : option DecodedJWT) (s : ZkLogin) : ZkLogin :=
  {| config := config s; saltDatabase := saltDatabase s;
     ephemeralKeyPair := ephemeralKeyPair s; randomness := randomness s;
     nonce := nonce s; maxEpoch := maxEpoch s;
     currentEpoch := currentEpoch s; jwt := jwt s;
     userAddress := userAddress s; zkLoginSignature := zkLoginSignature s;
     decodedJWT := v; userSalt := userSalt s |}.

Definition set_userSalt (v : option string) (s : ZkLogin) : ZkLogin :=
  {| config := config s; saltDatabase := saltDatabase s;
     ephemeralKeyPair := ephemeralKeyPair s; randomness := randomness s;
     nonce := nonce s; maxEpoch := maxEpoch s;
     currentEpoch := currentEpoch s; jwt := jwt s;
     userAddress := userAddress s; zkLoginSignature := zkLoginSignature s;
     decodedJWT := decodedJWT s; userSalt := v |}.

(** ** Methods as state transformers that may throw *)

Definition M (A : Type) : Type := ZkLogin -> ZkLogin * (string + A).

Definition ret {A} (a : A) : M A := fun s => (s, inr a).

Definition throw {A} (msg : string) : M A := fun s => (s, inl msg).

Definition bind {A B} (m : M A) (k : A -> M B) : M B :=
  fun s =>
    match m s with
    | (s', inr a) => k a s'
    | (s', inl msg) => (s', inl msg)
    end.

(** [try { body } catch (error) { handler(error.message) }] *)
Definition try_catch {A} (body : M A) (handler : string -> M A) : M A :=
  fun s =>
    match body s with
    | (s', inl msg) => handler msg s'
    | r => r
    end.

Definition this : M ZkLogin := fun s => (s, inr s).

Definition assign (f : ZkLogin -> ZkLogin) : M unit := fun s => (f s, inr tt).

(** A call into a library that either throws or returns. *)
Definition call {A} (r : string + A) : M A := fun s => (s, r).

(** [if (c) throw new Error(msg)] *)
Definition throw_if (c : bool) (msg : string) : M unit :=
  if c then throw msg else ret tt.

Declare Scope js_scope.
Delimit Scope js_scope with js.
Notation "x <- m ;; k" := (bind m (fun x => k))
  (at level 61, m at next level, right associativity) : js_scope.
Notation "m ;; k" := (bind m (fun _ => k))
  (at level 61, right associativity) : js_scope.
Local Open Scope js_scope.

(** ** What the class takes from Node and the Sui SDK *)

(** The key handed to [generateNonce]: the extended key computed by the
    SDK, or the public key object when that call is not available. *)
Inductive EphemeralKey : Type :=
| ExtendedKey (e : string)
| PlainKey (pk : PublicKey).

(** The first argument of [computeZkLoginAddressFromSeed] in the fallback
    of [processJWT]: a [BigInt] when the salt is a hexadecimal string, the
    salt itself otherwise. *)
Inductive Seed : Type :=
| SeedBigInt (z : Z)
| SeedString (s : string).

(** Library calls.  A call that can throw returns [None], or [inl] of the
    message where the class reads the message. *)
Record Sdk : Type := {
  toSuiAddress : PublicKey -> string;
  getExtendedEphemeralPublicKey : PublicKey -> option string;
  generateNonce : EphemeralKey -> Double.t -> Z -> option string;
  key_toBase64 : EphemeralKey -> option string;
  key_toSuiAddress : EphemeralKey -> option string;
  key_bytes_base64 : EphemeralKey -> string;
  sha256_base64url : string -> string;
  (** [JSON.parse(Buffer.from(segment, 'base64').toString())] *)
  parse_base64_json : string -> string + json;
  jwtToAddress : string -> string -> option string;
  computeZkLoginAddressFromSeed :
    Seed -> string -> jsval -> jsval -> string + string;
  signTransaction : KeyPair -> string -> string + string;
  getZkLoginSignature : string -> option Double.t -> string -> string + string;
  (** [String(x)] for a double [x] of magnitude [1e21] or more, which is
      written with an exponent *)
  exponential : Z -> string;
  (** [s.substring(0, n)] for a text [s] that is not ASCII *)
  substring_units : nat -> string -> string;
  (** the text that SQLite makes of a bound number, which is given by its
      JavaScript rendering *)
  sqlite_number_text : string -> string
}.

(** The bytes drawn by [new Ed25519Keypair()] or [new Secp256k1Keypair()]. *)
Record KeyMaterial : Type := {
  km_secret : string;
  km_public : string
}.

Definition new_keypair (c : KeyClass) (m : KeyMaterial) : KeyPair :=
  {| secretKey := km_secret m;
     getPublicKey := {| pk_class := c; pk_bytes := km_public m |} |}.

(** What [prepareForJWT] draws: the SDK's randomness ([None] when
    [generateRandomness] throws), the 32 bytes of [crypto.randomBytes]
    read as a [BigInt], and the outcome of the body of [getCurrentEpoch]:
    [inr e] when the request returned and [parseInt] made [e] of the
    epoch of the answer ([NaN] when it has none), [inl] of the message
    when it threw. *)
Record PrepareOracle : Type := {
  sdk_randomness : option Z;
  crypto_randomness : Z;
  latest_epoch : string + Double.t
}.

(** ** Values returned by the methods *)

Record KeyPairResult : Type := {
  kp_success : bool;
  kp_publicKey : string;
  kp_keyScheme : string
}.

Record PrepareResult : Type := {
  pr_success : bool;
  pr_randomness : string;
  pr_nonce : string;
  pr_currentEpoch : Double.t;
  pr_maxEpoch : Double.t
}.

Record ProcessResult : Type := {
  pj_success : bool;
  pj_jwt : string;
  pj_userAddress : option string;
  pj_subject : jsval;
  pj_userSalt : string;
  pj_decodedJWT : option DecodedJWT
}.

Record JWTClaims : Type := {
  alg : jsval; typ : jsval; kid : jsval;
  iss : jsval; aud : jsval; sub : jsval; exp : jsval; iat : jsval;
  claim_nonce : jsval;
  email : jsval; email_verified : jsval; claim_name : jsval;
  picture : jsval;
  rawHeader : string; rawPayload : string; rawSignature : string
}.

Module State.

Record config_view : Type := {
  provider : string;
  keyScheme : string;
  suiRpcUrl : string;
  clientId : option string;
  redirectUrl : string
}.

(** The object returned by [getState]. *)
Record t : Type := {
  hasEphemeralKeyPair : bool;
  hasRandomness : bool;
  hasNonce : bool;
  hasJWT : bool;
  hasDecodedJWT : bool;
  hasUserAddress : bool;
  hasZkLoginSignature : bool;
  ephemeralPublicKey : option string;
  randomness : option string;
  nonce : option string;
  currentEpoch : option Double.t;
  maxEpoch : option Double.t;
  jwtClaims : option JWTClaims;
  config : config_view
}.

End State.

(** ** Truthiness of the instance fields *)

Definition truthy_bigint (r : option Z) : bool :=
  match r with Some z => negb (z =? 0)%Z | None => false end.

Definition truthy_string (o : option string) : bool :=
  match o with Some s => Str.truthy s | None => false end.

Definition truthy_object {A} (o : option A) : bool :=
  match o with Some _ => true | None => false end.

(** [payload.nonce !== this.nonce] is the negation of this test; a [null]
    field is only equal to a JSON [null]. *)
Definition strict_eq_field (v : jsval) (f : option string) : bool :=
  match f with
  | Some s => Js.strict_eq_string v s
  | None => match v with VJson JNull => true | _ => false end
  end.

(** [`${f}`] for a field holding a string or [null]. *)
Definition render_field (f : option string) : string :=
  match f with Some s => s | None => "null" end.

(** ** Query strings *)

Module URLSearchParams.

Definition t : Type := list (string * string).

Definition hex_digit (n : nat) : ascii :=
  if Nat.ltb n 10 then ascii_of_nat (48 + n) else ascii_of_nat (55 + n).

(** Bytes that the [application/x-www-form-urlencoded] serializer leaves
    as they are: [*], [-], [.], [_], digits and ASCII letters. *)
Definition unreserved (c : ascii) : bool :=
  let n := nat_of_ascii c in
  Nat.eqb n 42 || Nat.eqb n 45 || Nat.eqb n 46 || Nat.eqb n 95
  || (Nat.leb 48 n && Nat.leb n 57)
  || (Nat.leb 65 n && Nat.leb n 90)
  || (Nat.leb 97 n && Nat.leb n 122).

Fixpoint encode (s : string) : string :=
  match s with
  | EmptyString => EmptyString
  | String c rest =>
      if Ascii.eqb c " " then String "+" (encode rest)
      else if unreserved c then String c (encode rest)
      else
        let n := nat_of_ascii c in
        String "%" (String (hex_digit (n / 16))
                      (String (hex_digit (n mod 16)) (encode rest)))
  end.

Definition entry (kv : string * string) : string :=
  encode (fst kv) ++ "=" ++ encode (snd kv).

(** [params.toString()] *)
Definition toString (p : t) : string := String.concat "&" (map entry p).

Definition has (key : string) (p : t) : bool :=
  existsb (fun kv => String.eqb (fst kv) key) p.

(** [params.get(key)] *)
Fixpoint get (key : string) (p : t) : option string :=
  match p with
  | [] => None
  | (k, v) :: rest => if String.eqb k key then Some v else get key rest
  end.

(** [params.set(key, value)]: the first entry named [key] takes the value
    and the later ones are dropped; without such an entry the pair is
    appended. *)
Definition set (key value : string) (p : t) : t :=
  (fix go (p : t) : t :=
     match p with
     | [] => [(key, value)]
     | (k, v) :: rest =>
         if String.eqb k key
         then (k, value) :: filter (fun kv => negb (String.eqb (fst kv) key)) rest
         else (k, v) :: go rest
     end) p.

(** The parser applied to a query string by [new URLSearchParams(query)]. *)
Definition hex_val (c : ascii) : option nat :=
  let n := nat_of_ascii c in
  if Nat.leb 48 n && Nat.leb n 57 then Some (n - 48)
  else if Nat.leb 65 n && Nat.leb n 70 then Some (n - 55)
  else if Nat.leb 97 n && Nat.leb n 102 then Some (n - 87)
  else None.

Fixpoint decode (s : string) : string :=
  match s with
  | EmptyString => EmptyString
  | String c rest =>
      if Ascii.eqb c "+" then String " " (decode rest)
      else if Ascii.eqb c "%" then
        match rest with
        | String h (String l rest') =>
            match hex_val h, hex_val l with
            | Some a, Some b => String (ascii_of_nat (16 * a + b)) (decode rest')
            | _, _ => String c (decode rest)
            end
        | _ => String c (decode rest)
        end
      else String c (decode rest)
  end.

(** The part before the first [sep] and the part after it. *)
Fixpoint cut (sep : ascii) (s : string) : string * string :=
  match s with
  | EmptyString => (EmptyString, EmptyString)
  | String c rest =>
      if Ascii.eqb c sep then (EmptyString, rest)
      else let (a, b) := cut sep rest in (String c a, b)
  end.

Definition parse_entry (e : string) : string * string :=
  let (k, v) := cut "=" e in (decode k, decode v).

Definition parse (query : string) : t :=
  map parse_entry
      (filter (fun e => Str.truthy e) (Str.split "&" query)).

End URLSearchParams.

(** ** [JSON.stringify] of the nonce data *)

Module Json.

Definition dquote : ascii := "034"%char.

Definition lower_hex (n : nat) : ascii :=
  if Nat.ltb n 10 then ascii_of_nat (48 + n) else ascii_of_nat (87 + n).

Definition backslash : ascii := "092"%char.

Definition escape (c : ascii) : string :=
  let n := nat_of_ascii c in
  if Nat.eqb n 34 then String backslash (String dquote EmptyString)
  else if Nat.eqb n 92 then String backslash (String backslash EmptyString)
  else if Nat.eqb n 8 then String backslash "b"
  else if Nat.eqb n 12 then String backslash "f"
  else if Nat.eqb n 10 then String backslash "n"
  else if Nat.eqb n 13 then String backslash "r"
  else if Nat.eqb n 9 then String backslash "t"
  else if Nat.ltb n 32 then
    String backslash
      ("u00" ++ String (lower_hex (n / 16))
                  (String (lower_hex (n mod 16)) EmptyString))
  else String c EmptyString.

Fixpoint escape_all (s : string) : string :=
  match s with
  | EmptyString => EmptyString
  | String c rest => escape c ++ escape_all rest
  end.

Definition quote (s : string) : string :=
  String dquote (escape_all s ++ String dquote EmptyString).

(** [JSON.stringify(n)] for a number: [null] for [NaN] and the
    infinities, the decimal digits of an integer below [1e21], and the
    rendering with an exponent from there on. *)
Definition number (exponential : Z -> string) (n : Double.t) : string :=
  match n with
  | Double.NaN => "null"
  | Double.Infinity _ => "null"
  | Double.Int z =>
      if (Z.abs z <? 10 ^ 21)%Z then Str.decimal z else exponential z
  end.

(** [JSON.stringify({ ephemeralPublicKey, maxEpoch, randomness })] with a
    string, a number and a string. *)
Definition nonceData (exponential : Z -> string) (ephemeralPublicKey : string)
    (maxEpoch : Double.t) (randomness : string) : string :=
  "{" ++ quote "ephemeralPublicKey" ++ ":" ++ quote ephemeralPublicKey
  ++ "," ++ quote "maxEpoch" ++ ":" ++ number exponential maxEpoch
  ++ "," ++ quote "randomness" ++ ":" ++ quote randomness ++ "}".

End Json.

(** ** The methods of [ZkLogin] *)

Section Methods.

Variable sdk : Sdk.

(** *** Construction *)

Definition reset : M unit :=
  assign (set_ephemeralKeyPair None) ;;
  assign (set_randomness None) ;;
  assign (set_nonce None) ;;
  assign (set_maxEpoch None) ;;
  assign (set_currentEpoch None) ;;
  assign (set_jwt None) ;;
  assign (set_userAddress None) ;;
  assign (set_zkLoginSignature None).

(** The instance as the constructor has it just before it calls [reset]:
    no field has been assigned yet. *)
Definition allocated (cfg : Config.t) (db : option SaltStore.t) : ZkLogin :=
  {| config := cfg; saltDatabase := db; ephemeralKeyPair := None;
     randomness := None; nonce := None; maxEpoch := None;
     currentEpoch := None; jwt := None; userAddress := None;
     zkLoginSignature := None; decodedJWT := None; userSalt := None |}.

(** [new ZkLogin(config)]; [disk] is the content of the salt database
    file that the instance opens when [useDatabase] is set. *)
Definition constructor (config : Config.raw) (disk : SaltStore.t)
  : string + ZkLogin :=
  let cfg :=
    {| Config.suiRpcUrl :=
         or_string (Config.r_suiRpcUrl config) "https://fullnode.devnet.sui.io:443";
       Config.provider := or_string (Config.r_provider config) "google";
       Config.clientId := or_string (Config.r_clientId config) "";
       Config.redirectUrl := or_string (Config.r_redirectUrl config) "";
       Config.keyScheme := or_string (Config.r_keyScheme config) "ED25519";
       Config.oauthFlow := or_string (Config.r_oauthFlow config) "implicit";
       Config.maxEpoch := or_number (Config.r_maxEpoch config) (Double.Int 10);
       Config.userSalt := or_string (Config.r_userSalt config) "0";
       Config.useDatabase := or_bool (Config.r_useDatabase config) false;
       Config.dbPath := or_string (Config.r_dbPath config) "./zklogin_salts.db" |} in
  if negb (Str.truthy (Config.clientId cfg)) then inl "clientId is required"
  else if negb (Str.truthy (Config.redirectUrl cfg)) then
    inl "redirectUrl is required"
  else
    match PROVIDERS (Config.provider cfg) with
    | Missing => inl ("Unsupported provider: " ++ Config.provider cfg)
    | _ =>
        let db := if Config.useDatabase cfg then Some disk else None in
        inr (fst (reset (allocated cfg db)))
    end.

(** *** Step 1 *)

Definition generateEphemeralKeyPair (fresh : KeyMaterial) : M KeyPairResult :=
  try_catch
    (s <- this ;;
     (if String.eqb (Config.keyScheme (config s)) "ED25519" then
        assign (set_ephemeralKeyPair (Some (new_keypair Ed25519 fresh)))
      else if String.eqb (Config.keyScheme (config s)) "Secp256k1" then
        assign (set_ephemeralKeyPair (Some (new_keypair Secp256k1 fresh)))
      else
        throw ("Unsupported key scheme: " ++ Config.keyScheme (config s))) ;;
     s <- this ;;
     match ephemeralKeyPair s with
     | Some kp =>
         ret {| kp_success := true;
                kp_publicKey := toSuiAddress sdk (getPublicKey kp);
                kp_keyScheme := Config.keyScheme (config s) |}
     | None => throw "Cannot read properties of null (reading 'getPublicKey')"
     end)
    (fun msg => throw ("Failed to generate ephemeral key pair: " ++ msg)).

(** *** Step 2 *)

Definition getCurrentEpoch (latest : string + Double.t) : M Double.t :=
  try_catch (call latest) (fun _ => ret (Double.Int 100)).

(** [if (v) this.config.f = v] *)
Definition override (v : option string) (f : string -> Config.t -> Config.t)
  : M unit :=
  match v with
  | Some x =>
      if Str.truthy x then assign (fun s => set_config (f x (config s)) s)
      else ret tt
  | None => ret tt
  end.

(** The SHA-256 fallback of the nonce. *)
Definition fallback_nonce (key : EphemeralKey) (maxEpoch : Double.t)
    (randomness : Z) : string :=
  let ephemeralPublicKeyBase64 :=
    match key_toBase64 sdk key with
    | Some b => b
    | None =>
        match key_toSuiAddress sdk key with
        | Some a => a
        | None => key_bytes_base64 sdk key
        end
    end in
  sha256_base64url sdk
    (Json.nonceData (exponential sdk) ephemeralPublicKeyBase64 maxEpoch
       (Str.decimal randomness)).

Definition prepareForJWT (provider clientId redirectUrl : option string)
    (o : PrepareOracle) : M PrepareResult :=
  try_catch
    (s <- this ;;
     match ephemeralKeyPair s with
     | None =>
         throw "Ephemeral key pair not generated. Call generateEphemeralKeyPair() first."
     | Some kp =>
         override provider Config.with_provider ;;
         override clientId Config.with_clientId ;;
         override redirectUrl Config.with_redirectUrl ;;
         s <- this ;;
         throw_if (negb (Str.truthy (Config.clientId (config s))))
                  "clientId is required" ;;
         throw_if (negb (Str.truthy (Config.provider (config s))))
                  "provider is required" ;;
         throw_if (negb (Str.truthy (Config.redirectUrl (config s))))
                  "redirectUrl is required" ;;
         let r :=
           match sdk_randomness o with
           | Some r => r
           | None => crypto_randomness o
           end in
         assign (set_randomness (Some r)) ;;
         epoch <- getCurrentEpoch (latest_epoch o) ;;
         assign (set_currentEpoch (Some epoch)) ;;
         let max := Double.add epoch (Config.maxEpoch (config s)) in
         assign (set_maxEpoch (Some max)) ;;
         let extendedEphemeralPublicKey :=
           match getExtendedEphemeralPublicKey sdk (getPublicKey kp) with
           | Some e => ExtendedKey e
           | None => PlainKey (getPublicKey kp)
           end in
         let n :=
           match generateNonce sdk extendedEphemeralPublicKey max r with
           | Some n => n
           | None => fallback_nonce extendedEphemeralPublicKey max r
           end in
         assign (set_nonce (Some n)) ;;
         ret {| pr_success := true;
                pr_randomness := Str.decimal r;
                pr_nonce := n;
                pr_currentEpoch := epoch;
                pr_maxEpoch := max |}
     end)
    (fun msg => throw ("Failed to prepare for JWT: " ++ msg)).

(** *** The JWT helpers *)

Definition isValidJWT (jwt : string) : bool :=
  Nat.eqb (List.length (Str.split "." jwt)) 3.

Definition decodeJWT (jwt : string) : string + DecodedJWT :=
  let body : string + DecodedJWT :=
    let parts := Str.split "." jwt in
    if negb (Nat.eqb (List.length parts) 3) then inl "Invalid JWT format"
    else
      match parse_base64_json sdk (nth 0 parts "") with
      | inl msg => inl msg
      | inr header =>
          match parse_base64_json sdk (nth 1 parts "") with
          | inl msg => inl msg
          | inr payload =>
              inr {| header := header;
                     payload := payload;
                     signature := nth 2 parts "";
                     raw := {| raw_header := nth 0 parts "";
                               raw_payload := nth 1 parts "";
                               raw_signature := nth 2 parts "" |} |}
          end
      end in
  match body with
  | inl msg => inl ("Failed to decode JWT: " ++ msg)
  | inr d => inr d
  end.

Definition extractSubFromJWT (jwt : string) : string + jsval :=
  let body : string + jsval :=
    match nth_error (Str.split "." jwt) 1 with
    | None =>
        inl "The first argument must be of type string or an instance of Buffer, ArrayBuffer, or Array or an Array-like Object. Received undefined"
    | Some segment =>
        match parse_base64_json sdk segment with
        | inl msg => inl msg
        | inr payload =>
            match Js.get payload c_sub with
            | inl msg => inl msg
            | inr sub =>
                if negb (Js.truthy sub)
                then inl "JWT token missing subject (sub) claim"
                else inr sub
            end
        end
    end in
  match body with
  | inl msg => inl ("Failed to extract subject from JWT: " ++ msg)
  | inr sub => inr sub
  end.

(** *** The authorization URL *)

(** [generated] is the default state,
    [`zklogin_${Date.now()}_${Math.random().toString(36).substr(2, 9)}`]. *)
Definition buildOAuthUrl (sessionId : option string) (generated : string)
  : M string :=
  s <- this ;;
  let provider := PROVIDERS (Config.provider (config s)) in
  let state := or_string sessionId generated in
  let isCodeFlow :=
    String.eqb (or_string (Some (Config.oauthFlow (config s))) "implicit") "code" in
  let params : URLSearchParams.t :=
    [ ("client_id", Config.clientId (config s));
      ("redirect_uri", Config.redirectUrl (config s));
      ("response_type", if isCodeFlow then "code" else "id_token");
      ("scope", "openid email profile");
      ("state", state);
      ("response_mode", if isCodeFlow then "query" else "fragment") ] in
  let params :=
    if negb isCodeFlow
    then URLSearchParams.set "nonce" (render_field (nonce s)) params
    else params in
  match provider with
  | Own p => ret (authUrl p ++ "?" ++ URLSearchParams.toString params)
  | Inherited => ret ("undefined" ++ "?" ++ URLSearchParams.toString params)
  | Missing => throw "Cannot read properties of undefined (reading 'authUrl')"
  end.

(** *** Step 3 *)

(** The salt of the subject: from the salt database when the instance has
    one, the configured salt otherwise.  After the database has answered,
    the subject is rendered for the log line, which can throw. *)
Definition resolve_salt (subject : jsval) (o : SaltStore.Oracle) : M string :=
  s <- this ;;
  if Config.useDatabase (config s) then
    match saltDatabase s with
    | Some db =>
        r <- call (SaltStore.getOrCreateUserSalt
                     (sqlite_number_text sdk) db subject
                     (Config.provider (config s)) o) ;;
        assign (set_saltDatabase (Some (snd r))) ;;
        call (Js.to_string subject) ;;
        ret (fst r)
    | None => ret (Config.userSalt (config s))
    end
  else ret (Config.userSalt (config s)).

(** The address of the token: [jwtToAddress], and when it throws
    [computeZkLoginAddressFromSeed] on the decoded claims. *)
Definition derive_address (jwtToken userSalt : string) : M string :=
  match jwtToAddress sdk jwtToken userSalt with
  | Some address => ret address
  | None =>
      decoded <- call (decodeJWT jwtToken) ;;
      let saltForFallback :=
        if Str.is_hex userSalt then SeedBigInt (Str.of_hex userSalt)
        else SeedString userSalt in
      sub <- call (Js.get (payload decoded) c_sub) ;;
      aud <- call (Js.get (payload decoded) c_aud) ;;
      call (computeZkLoginAddressFromSeed sdk saltForFallback "sub" sub aud)
  end.

Definition processJWT (jwtToken : string) (o : SaltStore.Oracle)
  : M ProcessResult :=
  try_catch
    (s <- this ;;
     throw_if (negb (truthy_bigint (randomness s))
               || negb (truthy_string (nonce s)))
              "JWT preparation not completed. Call prepareForJWT() first." ;;
     throw_if (negb (isValidJWT jwtToken)) "Invalid JWT token format" ;;
     assign (set_jwt (Some jwtToken)) ;;
     decoded <- call (decodeJWT jwtToken) ;;
     assign (set_decodedJWT (Some decoded)) ;;
     got <- call (Js.get (payload decoded) c_nonce) ;;
     (if negb (strict_eq_field got (nonce s)) then
        text <- call (Js.to_string got) ;;
        throw ("Nonce mismatch: expected " ++ render_field (nonce s)
               ++ ", got " ++ text)
      else ret tt) ;;
     subject <- call (extractSubFromJWT jwtToken) ;;
     userSalt <- resolve_salt subject o ;;
     assign (set_userSalt (Some userSalt)) ;;
     address <- derive_address jwtToken userSalt ;;
     assign (set_userAddress (Some address)) ;;
     s <- this ;;
     ret {| pj_success := true;
            pj_jwt := jwtToken;
            pj_userAddress := userAddress s;
            pj_subject := subject;
            pj_userSalt := userSalt;
            pj_decodedJWT := decodedJWT s |})
    (fun msg => throw ("Failed to process JWT: " ++ msg)).

Definition getJWTClaims : M JWTClaims :=
  s <- this ;;
  throw_if (negb (truthy_string (jwt s))) "No JWT token available" ;;
  decoded <- call (decodeJWT (render_field (jwt s))) ;;
  alg <- call (Js.get (header decoded) c_alg) ;;
  typ <- call (Js.get (header decoded) c_typ) ;;
  kid <- call (Js.get (header decoded) c_kid) ;;
  iss <- call (Js.get (payload decoded) c_iss) ;;
  aud <- call (Js.get (payload decoded) c_aud) ;;
  sub <- call (Js.get (payload decoded) c_sub) ;;
  exp <- call (Js.get (payload decoded) c_exp) ;;
  iat <- call (Js.get (payload decoded) c_iat) ;;
  nonce <- call (Js.get (payload decoded) c_nonce) ;;
  email <- call (Js.get (payload decoded) c_email) ;;
  email_verified <- call (Js.get (payload decoded) c_email_verified) ;;
  name <- call (Js.get (payload decoded) c_name) ;;
  picture <- call (Js.get (payload decoded) c_picture) ;;
  ret {| alg := alg; typ := typ; kid := kid;
         iss := iss; aud := aud; sub := sub; exp := exp; iat := iat;
         claim_nonce := nonce;
         email := email; email_verified := email_verified;
         claim_name := name; picture := picture;
         rawHeader := raw_header (raw decoded);
         rawPayload := raw_payload (raw decoded);
         rawSignature := raw_signature (raw decoded) |}.

(** *** Step 4 *)

Definition generateZkLoginSignature (transactionBytes zkProof : string)
  : M string :=
  try_catch
    (s <- this ;;
     match ephemeralKeyPair s with
     | Some kp =>
         throw_if (negb (truthy_string (jwt s))) "zkLogin setup not completed" ;;
         userSignature <- call (signTransaction sdk kp transactionBytes) ;;
         zk <- call (getZkLoginSignature sdk zkProof (maxEpoch s) userSignature) ;;
         assign (set_zkLoginSignature (Some zk)) ;;
         ret zk
     | None => throw "zkLogin setup not completed"
     end)
    (fun msg => throw ("Failed to generate zkLogin signature: " ++ msg)).

(** *** The snapshot *)

(** [s.substring(0, n)] *)
Definition substring (n : nat) (s : string) : string :=
  if Str.is_ascii s then String.substring 0 n s else substring_units sdk n s.

Definition getState : M State.t :=
  s <- this ;;
  claims <- (if truthy_string (jwt s)
             then c <- getJWTClaims ;; ret (Some c)
             else ret None) ;;
  ret {| State.hasEphemeralKeyPair := truthy_object (ephemeralKeyPair s);
         State.hasRandomness := truthy_bigint (randomness s);
         State.hasNonce := truthy_string (nonce s);
         State.hasJWT := truthy_string (jwt s);
         State.hasDecodedJWT := truthy_object (decodedJWT s);
         State.hasUserAddress := truthy_string (userAddress s);
         State.hasZkLoginSignature := truthy_string (zkLoginSignature s);
         State.ephemeralPublicKey :=
           match ephemeralKeyPair s with
           | Some kp => Some (toSuiAddress sdk (getPublicKey kp))
           | None => None
           end;
         State.randomness :=
           match randomness s with
           | Some r => if truthy_bigint (Some r) then Some (Str.decimal r) else None
           | None => None
           end;
         State.nonce := nonce s;
         State.currentEpoch := currentEpoch s;
         State.maxEpoch := maxEpoch s;
         State.jwtClaims := claims;
         State.config :=
           {| State.provider := Config.provider (config s);
              State.keyScheme := Config.keyScheme (config s);
              State.suiRpcUrl := Config.suiRpcUrl (config s);
              State.clientId :=
                if Str.truthy (Config.clientId (config s))
                then Some (substring 20 (Config.clientId (config s)) ++ "...")
                else None;
              State.redirectUrl := Config.redirectUrl (config s) |} |}.

(** *** Accessors *)

Definition getUserAddress : M (option string) :=
  s <- this ;; ret (userAddress s).

Definition getEphemeralPublicKey : M (option string) :=
  s <- this ;;
  ret (match ephemeralKeyPair s with
       | Some kp => Some (toSuiAddress sdk (getPublicKey kp))
       | None => None
       end).

Definition getNonce : M (option string) :=
  s <- this ;; ret (nonce s).

Definition getOAuthUrl (generated : string) : M (option string) :=
  s <- this ;;
  if truthy_string (nonce s)
  then url <- buildOAuthUrl None generated ;; ret (Some url)
  else ret None.

Definition getUserSalt : M (option string) :=
  s <- this ;; ret (userSalt s).

(** *** Maintenance of the salt database *)

Definition updateUserSalt (userIdentifier provider newSalt : string)
    (o : SaltStore.Oracle) : M bool :=
  s <- this ;;
  if Config.useDatabase (config s) then
    match saltDatabase s with
    | Some db =>
        r <- call (SaltStore.updateUserSalt db userIdentifier provider newSalt o) ;;
        assign (set_saltDatabase (Some (snd r))) ;;
        ret (fst r)
    | None => throw "Database not enabled"
    end
  else throw "Database not enabled".

Definition deleteUserSalt (userIdentifier provider : string)
    (o : SaltStore.Oracle) : M bool :=
  s <- this ;;
  if Config.useDatabase (config s) then
    match saltDatabase s with
    | Some db =>
        r <- call (SaltStore.deleteUserSalt db userIdentifier provider o) ;;
        assign (set_saltDatabase (Some (snd r))) ;;
        ret (fst r)
    | None => throw "Database not enabled"
    end
  else throw "Database not enabled".

End Methods.

(** ** A sample environment and run

    The segments below are real base64url texts; [Sample.parse] answers
    with what [JSON.parse(Buffer.from(segment, 'base64').toString())]
    yields on each of them and throws on any other segment.  The other
    library calls are stand-ins that return fixed, recognisable values. *)

Module Sample.

(** [{"alg":"RS256","typ":"JWT"}] *)
Definition header_segment : string := "eyJhbGciOiJSUzI1NiIsInR5cCI6IkpXVCJ9".

(** [null] *)
Definition null_segment : string := "bnVsbA".

(** [{"iss":"idp","aud":"app","sub":"user123","nonce":"hTPpgF7X"}] *)
Definition user123_segment : string :=
  "eyJpc3MiOiJpZHAiLCJhdWQiOiJhcHAiLCJzdWIiOiJ1c2VyMTIzIiwibm9uY2UiOiJoVFBwZ0Y3WCJ9".

(** [{"iss":"idp","aud":"app","sub":"user456","nonce":"hTPpgF7X"}] *)
Definition user456_segment : string :=
  "eyJpc3MiOiJpZHAiLCJhdWQiOiJhcHAiLCJzdWIiOiJ1c2VyNDU2Iiwibm9uY2UiOiJoVFBwZ0Y3WCJ9".

(** [{"iss":"idp","aud":"app","sub":"user123","nonce":"other"}] *)
Definition other_nonce_segment : string :=
  "eyJpc3MiOiJpZHAiLCJhdWQiOiJhcHAiLCJzdWIiOiJ1c2VyMTIzIiwibm9uY2UiOiJvdGhlciJ9".

(** [{"iss":"idp","aud":"app","sub":"user123","nonce":{"toString":1}}] *)
Definition object_nonce_segment : string :=
  "eyJpc3MiOiJpZHAiLCJhdWQiOiJhcHAiLCJzdWIiOiJ1c2VyMTIzIiwibm9uY2UiOnsidG9TdHJpbmciOjF9fQ".

Definition object_nonce_claims : json :=
  JObj [ ("iss", JStr "idp"); ("aud", JStr "app"); ("sub", JStr "user123");
         ("nonce", JObj [ ("toString", JNum "1") ]) ].

Definition claims (sub nonce : string) : json :=
  JObj [ ("iss", JStr "idp"); ("aud", JStr "app");
         ("sub", JStr sub); ("nonce", JStr nonce) ].

Definition segments : list (string * json) :=
  [ (header_segment, JObj [ ("alg", JStr "RS256"); ("typ", JStr "JWT") ]);
    (null_segment, JNull);
    (user123_segment, claims "user123" "hTPpgF7X");
    (user456_segment, claims "user456" "hTPpgF7X");
    (other_nonce_segment, claims "user123" "other");
    (object_nonce_segment, object_nonce_claims) ].

Definition parse (segment : string) : string + json :=
  match Js.own segments segment with
  | Some j => inr j
  | None => inl "Unexpected end of JSON input"
  end.

(** The three conversions of the engine at the end are not consulted on
    the samples, whose epochs are small, whose texts are ASCII and whose
    subjects are strings. *)
Definition sdk : Sdk :=
  {| toSuiAddress := fun pk => "0x" ++ pk_bytes pk;
     getExtendedEphemeralPublicKey := fun pk => Some ("AA" ++ pk_bytes pk);
     generateNonce := fun _ _ _ => Some "hTPpgF7X";
     key_toBase64 := fun _ => None;
     key_toSuiAddress := fun _ => None;
     key_bytes_base64 := fun _ => "AA==";
     sha256_base64url := fun _ => "47DEQpj8HBSa-_TImW-5JCeuQeRkm5NMpJWZG3hSuFU";
     parse_base64_json := parse;
     jwtToAddress := fun token salt => Some ("0x" ++ salt ++ "5a17");
     computeZkLoginAddressFromSeed := fun _ _ _ _ => inr "0x5eed";
     signTransaction := fun _ _ => inr "sig";
     getZkLoginSignature := fun _ _ _ => inr "zk";
     exponential := fun _ => "1e+21";
     substring_units := fun n s => String.substring 0 n s;
     sqlite_number_text := fun r => r |}.

Definition material : KeyMaterial :=
  {| km_secret := "secret-bytes"; km_public := "cafe" |}.

Definition raw_config : Config.raw :=
  {| Config.r_suiRpcUrl := None;
     Config.r_provider := Some "google";
     Config.r_clientId := Some "test-client";
     Config.r_redirectUrl := Some "http://localhost:3000/callback";
     Config.r_keyScheme := Some "ED25519";
     Config.r_oauthFlow := None;
     Config.r_maxEpoch := None;
     Config.r_userSalt := None;
     Config.r_useDatabase := None;
     Config.r_dbPath := None |}.

(** The network is unreachable and the SDK draws the randomness. *)
Definition offline : PrepareOracle :=
  {| sdk_randomness := Some 1234567890123456789%Z;
     crypto_randomness := 42%Z;
     latest_epoch := inl "fetch failed" |}.

(** The network reports epoch 100. *)
Definition online : PrepareOracle :=
  {| sdk_randomness := Some 1234567890123456789%Z;
     crypto_randomness := 42%Z;
     latest_epoch := inr (Double.Int 100) |}.

Definition store : SaltStore.Oracle :=
  {| SaltStore.unavailable := None;
     SaltStore.write_error := None;
     SaltStore.fresh := "a3f1" |}.

(** The configuration that the constructor derives from [raw_config], and
    the instance it returns. *)
Definition config : Config.t :=
  {| Config.suiRpcUrl := "https://fullnode.devnet.sui.io:443";
     Config.provider := "google";
     Config.clientId := "test-client";
     Config.redirectUrl := "http://localhost:3000/callback";
     Config.keyScheme := "ED25519";
     Config.oauthFlow := "implicit";
     Config.maxEpoch := Double.Int 10;
     Config.userSalt := "0";
     Config.useDatabase := false;
     Config.dbPath := "./zklogin_salts.db" |}.

Definition created : ZkLogin := allocated config None.

(** ... after [generateEphemeralKeyPair()] *)
Definition keyed : ZkLogin := fst (generateEphemeralKeyPair sdk material created).

(** ... after [await prepareForJWT()] *)
Definition prepared : ZkLogin := fst (prepareForJWT sdk None None None offline keyed).

Definition token (header payload : string) : string :=
  header ++ "." ++ payload ++ ".c2ln".

Definition good_token : string := token header_segment user123_segment.
Definition second_token : string := token header_segment user456_segment.
Definition stale_token : string := token header_segment other_nonce_segment.

(** The network reports epoch 250. *)
Definition later : PrepareOracle :=
  {| sdk_randomness := Some 1234567890123456789%Z;
     crypto_randomness := 42%Z;
     latest_epoch := inr (Double.Int 250) |}.

(** The instance of [new ZkLogin({ ..., useDatabase: true })] on a
    database in which [user123] has a salt under [twitch], after the
    first two steps. *)
Definition database_config : Config.t :=
  {| Config.suiRpcUrl := "https://fullnode.devnet.sui.io:443";
     Config.provider := "google";
     Config.clientId := "test-client";
     Config.redirectUrl := "http://localhost:3000/callback";
     Config.keyScheme := "ED25519";
     Config.oauthFlow := "implicit";
     Config.maxEpoch := Double.Int 10;
     Config.userSalt := "0";
     Config.useDatabase := true;
     Config.dbPath := "./zklogin_salts.db" |}.

Definition twitch_rows : SaltStore.t := [ (("user123", "twitch"), "b7c2") ].

Definition prepared_with_database : ZkLogin :=
  fst (prepareForJWT sdk None None None offline
         (fst (generateEphemeralKeyPair sdk material
                 (allocated database_config (Some twitch_rows))))).

End Sample.

(** ** States of the instance *)

(** The state in which the constructor leaves the instance: none of the
    fields written by the steps is set. *)
Definition Created (s : ZkLogin) : Prop :=
  ephemeralKeyPair s = None /\ randomness s = None /\ nonce s = None /\
  maxEpoch s = None /\ currentEpoch s = None /\ jwt s = None /\
  userAddress s = None /\ zkLoginSignature s = None /\
  decodedJWT s = None /\ userSalt s = None.

(** The configuration that the constructor validates: a client id, a
    redirect URL and a provider name are present. *)
Definition configured (s : ZkLogin) : Prop :=
  Str.truthy (Config.clientId (config s)) = true /\
  Str.truthy (Config.redirectUrl (config s)) = true /\
  Str.truthy (Config.provider (config s)) = true.

(** The argument and the instance of
    [new ZkLogin({ keyScheme: 'RSA', clientId: ..., redirectUrl: ... })]. *)
Definition rsa_config : Config.raw :=
  {| Config.r_suiRpcUrl := None;
     Config.r_provider := None;
     Config.r_clientId := Some "test-client";
     Config.r_redirectUrl := Some "http://localhost:3000/callback";
     Config.r_keyScheme := Some "RSA";
     Config.r_oauthFlow := None;
     Config.r_maxEpoch := None;
     Config.r_userSalt := None;
     Config.r_useDatabase := None;
     Config.r_dbPath := None |}.

Definition rsa_instance : ZkLogin :=
  allocated
    {| Config.suiRpcUrl := "https://fullnode.devnet.sui.io:443";
       Config.provider := "google";
       Config.clientId := "test-client";
       Config.redirectUrl := "http://localhost:3000/callback";
       Config.keyScheme := "RSA";
       Config.oauthFlow := "implicit";
       Config.maxEpoch := Double.Int 10;
       Config.userSalt := "0";
       Config.useDatabase := false;
       Config.dbPath := "./zklogin_salts.db" |}
    None.

(** The instance with the secret half of its key pair replaced. *)
Definition replace_secret (sk : string) (s : ZkLogin) : ZkLogin :=
  set_ephemeralKeyPair
    (match ephemeralKeyPair s with
     | Some kp => Some {| secretKey := sk; getPublicKey := getPublicKey kp |}
     | None => None
     end)
    s.

(** The oracle with another answer of the network. *)
Definition with_latest_epoch (latest : string + Double.t) (o : PrepareOracle)
  : PrepareOracle :=
  {| sdk_randomness := sdk_randomness o;
     crypto_randomness := crypto_randomness o;
     latest_epoch := latest |}.

(** One call of a method that writes to the instance, whatever it
    returns or throws.  [createAndSignTransaction] writes nothing of its
    own: it either throws before signing or calls
    [generateZkLoginSignature]. *)
Inductive step (sdk : Sdk) : ZkLogin -> ZkLogin -> Prop :=
| step_reset (s : ZkLogin) :
    step sdk s (fst (reset s))
| step_generate (fresh : KeyMaterial) (s : ZkLogin) :
    step sdk s (fst (generateEphemeralKeyPair sdk fresh s))
| step_prepare (provider clientId redirectUrl : option string)
    (o : PrepareOracle) (s : ZkLogin) :
    step sdk s (fst (prepareForJWT sdk provider clientId redirectUrl o s))
| step_process (token : string) (o : SaltStore.Oracle) (s : ZkLogin) :
    step sdk s (fst (processJWT sdk token o s))
| step_sign (transactionBytes zkProof : string) (s : ZkLogin) :
    step sdk s (fst (generateZkLoginSignature sdk transactionBytes zkProof s))
| step_update (userIdentifier provider newSalt : string)
    (o : SaltStore.Oracle) (s : ZkLogin) :
    step sdk s (fst (updateUserSalt userIdentifier provider newSalt o s))
| step_delete (userIdentifier provider : string)
    (o : SaltStore.Oracle) (s : ZkLogin) :
    step sdk s (fst (deleteUserSalt userIdentifier provider o s)).

(** The instances that a program can hold: built by the constructor and
    then driven through any sequence of calls. *)
Inductive reachable (sdk : Sdk) : ZkLogin -> Prop :=
| reachable_new (raw : Config.raw) (disk : SaltStore.t) (s : ZkLogin) :
    constructor raw disk = inr s -> reachable sdk s
| reachable_step (s s' : ZkLogin) :
    reachable sdk s -> step sdk s s' -> reachable sdk s'.

(** The configuration after the three optional arguments have been
    written over it. *)
Definition merged (provider clientId redirectUrl : option string)
    (c : Config.t) : Config.t :=
  let c := match provider with
           | Some x => if Str.truthy x then Config.with_provider x c else c
           | None => c
           end in
  let c := match clientId with
           | Some x => if Str.truthy x then Config.with_clientId x c else c
           | None => c
           end in
  match redirectUrl with
  | Some x => if Str.truthy x then Config.with_redirectUrl x c else c
  | None => c
  end.

(** The message of the guard that stops [prepareForJWT], if one does. *)
Definition prepare_guard (provider clientId redirectUrl : option string)
    (s : ZkLogin) : option string :=
  match ephemeralKeyPair s with
  | None =>
      Some "Ephemeral key pair not generated. Call generateEphemeralKeyPair() first."
  | Some _ =>
      let c := merged provider clientId redirectUrl (config s) in
      if negb (Str.truthy (Config.clientId c)) then Some "clientId is required"
      else if negb (Str.truthy (Config.provider c)) then Some "provider is required"
      else if negb (Str.truthy (Config.redirectUrl c)) then Some "redirectUrl is required"
      else None
  end.

(** ** Building and signing a transaction *)

Section Transactions.

(** The [Transaction] builder of the SDK, the descriptor of a Move call
    and the descriptor of a transfer are opaque to the class. *)
Variables Tx Call Transfer : Type.

(** The argument of [createAndSignTransaction].  The class tests its two
    properties for truthiness and hands them to the builder; [None] is an
    absent or falsy property. *)
Record TransactionData : Type := {
  moveCall : option Call;
  transferObjects : option Transfer
}.

(** The builder as the class drives it.  A call updates the builder or
    throws; [Transaction_build] is [transaction.build({ client })] and
    gives the bytes. *)
Record Builder : Type := {
  Transaction_new : Tx;
  Transaction_setSender : string -> Tx -> string + Tx;
  Transaction_moveCall : Call -> Tx -> string + Tx;
  Transaction_transferObjects : Transfer -> Tx -> string + Tx;
  Transaction_build : Tx -> string + Tx * string
}.

Record SignedTransaction : Type := {
  st_success : bool;
  st_transaction : Tx;
  st_transactionBytes : string;
  st_signature : string
}.

Variable sdk : Sdk.
Variable api : Builder.

Definition createAndSignTransaction (transactionData : TransactionData)
    (zkProof : string) : M SignedTransaction :=
  try_catch
    (s <- this ;;
     throw_if (negb (truthy_string (userAddress s)))
              "User address not available. Process JWT first." ;;
     let transaction := Transaction_new api in
     transaction <- call (Transaction_setSender
                            api (render_field (userAddress s)) transaction) ;;
     transaction <- match moveCall transactionData with
                    | Some m => call (Transaction_moveCall api m transaction)
                    | None => ret transaction
                    end ;;
     transaction <- match transferObjects transactionData with
                    | Some t => call (Transaction_transferObjects api t transaction)
                    | None => ret transaction
                    end ;;
     built <- call (Transaction_build api transaction) ;;
     let transactionBytes := snd built in
     signature <- generateZkLoginSignature sdk transactionBytes zkProof ;;
     ret {| st_success := true;
            st_transaction := fst built;
            st_transactionBytes := transactionBytes;
            st_signature := signature |})
    (fun msg => throw ("Failed to create and sign transaction: " ++ msg)).

(** The calls on the builder, in the order in which the method makes
    them. *)
Definition assemble (address : string) (data : TransactionData)
  : string + Tx * string :=
  match Transaction_setSender api address (Transaction_new api) with
  | inl m => inl m
  | inr t1 =>
      match (match moveCall data with
             | Some m => Transaction_moveCall api m t1
             | None => inr t1
             end) with
      | inl m => inl m
      | inr t2 =>
          match (match transferObjects data with
                 | Some x => Transaction_transferObjects api x t2
                 | None => inr t2
                 end) with
          | inl m => inl m
          | inr t3 => Transaction_build api t3
          end
      end
  end.

End Transactions.

Arguments moveCall {Call Transfer} _.
Arguments transferObjects {Call Transfer} _.
Arguments Transaction_new {Tx Call Transfer} _.
Arguments Transaction_setSender {Tx Call Transfer} _ _ _.
Arguments Transaction_moveCall {Tx Call Transfer} _ _ _.
Arguments Transaction_transferObjects {Tx Call Transfer} _ _ _.
Arguments Transaction_build {Tx Call Transfer} _ _.
Arguments st_success {Tx} _.
Arguments st_transaction {Tx} _.
Arguments st_transactionBytes {Tx} _.
Arguments st_signature {Tx} _.
Arguments createAndSignTransaction {Tx Call Transfer} sdk api transactionData zkProof _.
Arguments assemble {Tx Call Transfer} api address data.

(** ** The nonce of a key, a validity bound and a randomness *)


(** ** The order in which the fields are written *)

(** What the fields of an instance tell about each other.  The four
    fields that [prepareForJWT] writes are set together, on an instance
    that holds a key pair, and the validity bound is the current epoch
    plus the window; a stored token has three segments and was taken by
    a prepared session; the salt, the address and the signature are
    written after the fields they need.  The sum is the sum of the
    code, in doubles. *)
Definition coherent (s : ZkLogin) : Prop :=
  ((randomness s = None /\ nonce s = None /\
    currentEpoch s = None /\ maxEpoch s = None)
   \/ (exists r n c,
         randomness s = Some r /\ nonce s = Some n /\
         currentEpoch s = Some c /\
         maxEpoch s = Some (Double.add c (Config.maxEpoch (config s))) /\
         ephemeralKeyPair s <> None))
  /\ (forall t, jwt s = Some t -> isValidJWT t = true /\ nonce s <> None)
  /\ (userAddress s <> None -> jwt s <> None /\ userSalt s <> None)
  /\ (userSalt s <> None -> decodedJWT s <> None)
  /\ (zkLoginSignature s <> None -> jwt s <> None /\ ephemeralKeyPair s <> None)
  /\ (saltDatabase s <> None <-> Config.useDatabase (config s) = true).

(** ** More sample data *)

Module Cases.

Definition config_of (provider clientId redirectUrl : option string)
    (useDatabase : option bool) : Config.raw :=
  {| Config.r_suiRpcUrl := None;
     Config.r_provider := provider;
     Config.r_clientId := clientId;
     Config.r_redirectUrl := redirectUrl;
     Config.r_keyScheme := None;
     Config.r_oauthFlow := None;
     Config.r_maxEpoch := None;
     Config.r_userSalt := None;
     Config.r_useDatabase := useDatabase;
     Config.r_dbPath := None |}.

(** [new ZkLogin({})] *)
Definition nothing : Config.raw := config_of None None None None.

(** [new ZkLogin({ clientId: 'id' })] *)
Definition no_redirect : Config.raw := config_of None (Some "id") None None.

(** [new ZkLogin({ provider: 'github', clientId: 'id', redirectUrl: 'http://cb' })] *)
Definition github : Config.raw :=
  config_of (Some "github") (Some "id") (Some "http://cb") None.

(** [new ZkLogin({ provider: 'twitch', ..., useDatabase: true })] *)
Definition twitch_with_database : Config.raw :=
  config_of (Some "twitch") (Some "id") (Some "http://cb") (Some true).

(** [new ZkLogin({ provider: 'toString', ... })] *)
Definition inherited : Config.raw :=
  config_of (Some "toString") (Some "id") (Some "http://cb") None.

Definition disk : SaltStore.t := [(("user123", "twitch"), "a3f1")].

(** A builder that records the calls made on it and whose bytes are the
    sender followed by the commands. *)
Definition recorder : Builder (list string) string (list string * string) :=
  {| Transaction_new := [];
     Transaction_setSender := fun a t => inr (app t ["sender " ++ a]);
     Transaction_moveCall := fun m t => inr (app t ["call " ++ m]);
     Transaction_transferObjects :=
       fun x t => inr (app t ["transfer to " ++ snd x]);
     Transaction_build := fun t => inr (t, String.concat ";" t) |}.

(** [{ moveCall: 'pkg::nft::mint' }] *)
Definition mint : TransactionData string (list string * string) :=
  {| moveCall := Some "pkg::nft::mint"; transferObjects := None |}.

End Cases.

(** * Properties *)

(** ** Splitting and joining *)

Section SplitJoin.

Variable sep : ascii.

Lemma split_not_nil (s : string) : Str.split sep s <> [].
Proof.
  destruct s as [|c s]; simpl; [discriminate|].
  destruct (Ascii.eqb c sep); [discriminate|].
  destruct (Str.split sep s); discriminate.
Qed.

Lemma split_free (a : string) :
  Str.free_of sep a = true -> Str.split sep a = [a].
Proof.
  induction a as [|c a IH]; simpl; intros H; [reflexivity|].
  apply andb_true_iff in H as [Hc Ha].
  apply negb_true_iff in Hc. rewrite Hc, (IH Ha). reflexivity.
Qed.

Lemma split_app (a b : string) :
  Str.free_of sep a = true ->
  Str.split sep (a ++ String sep b) = a :: Str.split sep b.
Proof.
  induction a as [|c a IH]; simpl; intros H.
  - rewrite Ascii.eqb_refl. reflexivity.
  - apply andb_true_iff in H as [Hc Ha].
    apply negb_true_iff in Hc. rewrite Hc, (IH Ha). reflexivity.
Qed.

Lemma split_join (segs : list string) :
  segs <> [] ->
  Forall (fun x => Str.free_of sep x = true) segs ->
  Str.split sep (Str.join sep segs) = segs.
Proof.
  unfold Str.join.
  induction segs as [|a rest IH]; intros Hne Hall; [congruence|].
  inversion Hall as [|? ? Ha Hrest]; subst.
  destruct rest as [|b rest].
  - simpl. now apply split_free.
  - change (String.concat (String sep "") (a :: b :: rest))
      with (a ++ String sep (String.concat (String sep "") (b :: rest))).
    rewrite split_app by assumption.
    f_equal. apply IH; [discriminate|assumption].
Qed.

Lemma split_segments_free (s : string) :
  Forall (fun x => Str.free_of sep x = true) (Str.split sep s).
Proof.
  induction s as [|c s IH]; simpl.
  - repeat constructor.
  - destruct (Ascii.eqb c sep) eqn:Hc.
    + constructor; [reflexivity|assumption].
    + destruct (Str.split sep s) as [|seg segs].
      * repeat constructor. simpl. now rewrite Hc.
      * inversion IH; subst. constructor; [|assumption].
        simpl. rewrite Hc. assumption.
Qed.

Lemma join_split (s : string) : Str.join sep (Str.split sep s) = s.
Proof.
  unfold Str.join.
  induction s as [|c s IH]; simpl; [reflexivity|].
  destruct (Ascii.eqb c sep) eqn:Hc.
  - apply Ascii.eqb_eq in Hc. subst c.
    pose proof (split_not_nil s) as Hne.
    destruct (Str.split sep s) as [|seg segs]; [congruence|].
    simpl in *. now rewrite IH.
  - pose proof (split_not_nil s) as Hne.
    destruct (Str.split sep s) as [|seg segs]; [congruence|].
    destruct segs; simpl in *; now rewrite <- IH.
Qed.

End SplitJoin.

(** Every token is the join of a unique non-empty list of dot-free
    segments, the one that [split] computes. *)
Lemma token_segments (token : string) :
  exists segs,
    segs <> [] /\
    Forall (fun x => Str.free_of "." x = true) segs /\
    token = Str.join "." segs /\
    forall segs',
      segs' <> [] ->
      Forall (fun x => Str.free_of "." x = true) segs' ->
      token = Str.join "." segs' -> segs' = segs.
Proof.
  exists (Str.split "." token). repeat split.
  - apply split_not_nil.
  - apply split_segments_free.
  - symmetry. apply join_split.
  - intros segs' Hne Hall ->. symmetry. now apply split_join.
Qed.

(** C7. [isValidJWT] answers [true] exactly for the tokens made of three
    dot-separated segments: on the join of any non-empty list of dot-free
    segments it is the test that the list has length three, so one, two,
    four or more segments are rejected and three are accepted. *)
Theorem isValidJWT_three_segments (token : string) (segs : list string) :
  segs <> [] ->
  Forall (fun x => Str.free_of "." x = true) segs ->
  token = Str.join "." segs ->
  isValidJWT token = Nat.eqb (List.length segs) 3.
Proof.
  intros Hne Hall ->. unfold isValidJWT.
  now rewrite split_join.
Qed.

Lemma isValidJWT_three_segments_witness :
  isValidJWT "eyJh.eyJz.c2ln" = true /\
  isValidJWT "eyJh.eyJz" = false /\
  isValidJWT "eyJh" = false /\
  isValidJWT "eyJh.eyJz.c2ln.x" = false.
Proof.
  split; [|split; [|split]].
  - apply (isValidJWT_three_segments "eyJh.eyJz.c2ln" ["eyJh"; "eyJz"; "c2ln"]);
      [discriminate | repeat constructor | reflexivity].
  - apply (isValidJWT_three_segments "eyJh.eyJz" ["eyJh"; "eyJz"]);
      [discriminate | repeat constructor | reflexivity].
  - apply (isValidJWT_three_segments "eyJh" ["eyJh"]);
      [discriminate | repeat constructor | reflexivity].
  - apply (isValidJWT_three_segments "eyJh.eyJz.c2ln.x" ["eyJh"; "eyJz"; "c2ln"; "x"]);
      [discriminate | repeat constructor | reflexivity].
Defined.

(** ** Running a method *)

Ltac run :=
  unfold try_catch, bind, this, assign, call, throw_if, ret, throw in *;
  simpl in *.

Lemma or_string_truthy (a : option string) (b : string) :
  Str.truthy b = true -> Str.truthy (or_string a b) = true.
Proof.
  intros Hb. destruct a as [x|]; simpl; [|assumption].
  destruct (Str.truthy x) eqn:Hx; assumption.
Qed.

Lemma constructor_created (raw : Config.raw) (disk : SaltStore.t) (s : ZkLogin) :
  constructor raw disk = inr s -> Created s /\ configured s.
Proof.
  unfold constructor. cbn.
  destruct (Str.truthy (or_string (Config.r_clientId raw) "")) eqn:Hc;
    simpl; [|discriminate].
  destruct (Str.truthy (or_string (Config.r_redirectUrl raw) "")) eqn:Hr;
    simpl; [|discriminate].
  assert (Hp : Str.truthy (or_string (Config.r_provider raw) "google") = true)
    by now apply or_string_truthy.
  destruct (PROVIDERS (or_string (Config.r_provider raw) "google"));
    intros H; inversion H; subst; clear H;
    (split; [repeat split | repeat split; assumption]).
Qed.

Lemma constructor_sample : constructor Sample.raw_config [] = inr Sample.created.
Proof. reflexivity. Qed.

Lemma constructor_rsa : constructor rsa_config [] = inr rsa_instance.
Proof. reflexivity. Qed.

(** The scheme of an instance is the one given to the constructor, and
    ['ED25519'] when none or an empty one is given. *)
Lemma constructor_keyScheme (raw : Config.raw) (disk : SaltStore.t) (s : ZkLogin) :
  constructor raw disk = inr s ->
  Config.keyScheme (config s) = or_string (Config.r_keyScheme raw) "ED25519".
Proof.
  unfold constructor. cbn.
  destruct (Str.truthy (or_string (Config.r_clientId raw) ""));
    simpl; [|discriminate].
  destruct (Str.truthy (or_string (Config.r_redirectUrl raw) ""));
    simpl; [|discriminate].
  destruct (PROVIDERS (or_string (Config.r_provider raw) "google"));
    intros H; inversion H; reflexivity.
Qed.

(** ** Step 1: key generation *)

(** C4. For every configured key scheme other than ['ED25519'] and
    ['Secp256k1'], [generateEphemeralKeyPair] throws the unsupported-scheme
    error and leaves the instance exactly as it was: an instance in the
    [Created] state stays there and no key pair is recorded. *)
Theorem generateEphemeralKeyPair_unsupported
    (sdk : Sdk) (fresh : KeyMaterial) (s : ZkLogin) :
  Config.keyScheme (config s) <> "ED25519" ->
  Config.keyScheme (config s) <> "Secp256k1" ->
  generateEphemeralKeyPair sdk fresh s =
    (s, inl ("Failed to generate ephemeral key pair: Unsupported key scheme: "
             ++ Config.keyScheme (config s)))
  /\ (Created s -> Created (fst (generateEphemeralKeyPair sdk fresh s)))
  /\ (ephemeralKeyPair s = None ->
      ephemeralKeyPair (fst (generateEphemeralKeyPair sdk fresh s)) = None).
Proof.
  intros H1 H2.
  apply String.eqb_neq in H1. apply String.eqb_neq in H2.
  assert (E : generateEphemeralKeyPair sdk fresh s =
    (s, inl ("Failed to generate ephemeral key pair: Unsupported key scheme: "
             ++ Config.keyScheme (config s)))).
  { unfold generateEphemeralKeyPair. run. rewrite H1, H2. reflexivity. }
  rewrite E. simpl. auto.
Qed.

Lemma generateEphemeralKeyPair_unsupported_witness :
  constructor rsa_config [] = inr rsa_instance
  /\ generateEphemeralKeyPair Sample.sdk Sample.material rsa_instance =
    (rsa_instance,
     inl "Failed to generate ephemeral key pair: Unsupported key scheme: RSA")
  /\ ephemeralKeyPair
       (fst (generateEphemeralKeyPair Sample.sdk Sample.material rsa_instance))
     = None.
Proof.
  destruct (generateEphemeralKeyPair_unsupported
              Sample.sdk Sample.material rsa_instance)
    as (E & _ & K); [discriminate | discriminate |].
  split; [reflexivity|]. split; [exact E | apply K; reflexivity].
Defined.

(** ** Step 2: preparation *)

(** The epoch that [prepareForJWT] works with. *)
Lemma getCurrentEpoch_total (latest : string + Double.t) (s : ZkLogin) :
  getCurrentEpoch latest s =
    (s, inr (match latest with inr e => e | inl _ => Double.Int 100 end)).
Proof. unfold getCurrentEpoch. run. destruct latest; reflexivity. Qed.

Lemma set_config_same (s : ZkLogin) : set_config (config s) s = s.
Proof. destruct s; reflexivity. Qed.

Lemma overrides_run (provider clientId redirectUrl : option string) (s : ZkLogin) :
  bind (override provider Config.with_provider)
    (fun _ => bind (override clientId Config.with_clientId)
       (fun _ => override redirectUrl Config.with_redirectUrl)) s
  = (set_config (merged provider clientId redirectUrl (config s)) s, inr tt).
Proof.
  unfold merged, override. run.
  destruct provider as [p|]; [destruct (Str.truthy p)|];
    (destruct clientId as [c|]; [destruct (Str.truthy c)|]);
    (destruct redirectUrl as [r|]; [destruct (Str.truthy r)|]);
    simpl; rewrite ?set_config_same; reflexivity.
Qed.

Lemma merged_configured (provider clientId redirectUrl : option string)
    (c : Config.t) :
  Str.truthy (Config.clientId c) = true ->
  Str.truthy (Config.redirectUrl c) = true ->
  Str.truthy (Config.provider c) = true ->
  let c' := merged provider clientId redirectUrl c in
  Str.truthy (Config.clientId c') = true /\
  Str.truthy (Config.redirectUrl c') = true /\
  Str.truthy (Config.provider c') = true /\
  Config.maxEpoch c' = Config.maxEpoch c /\
  Config.useDatabase c' = Config.useDatabase c /\
  Config.userSalt c' = Config.userSalt c /\
  Config.keyScheme c' = Config.keyScheme c.
Proof.
  intros Hc Hr Hp. unfold merged.
  destruct provider as [p|]; [destruct (Str.truthy p) eqn:?|];
    (destruct clientId as [x|]; [destruct (Str.truthy x) eqn:?|]);
    (destruct redirectUrl as [r|]; [destruct (Str.truthy r) eqn:?|]);
    simpl; repeat split; assumption.
Qed.

Lemma prepareForJWT_guarded (sdk : Sdk)
    (provider clientId redirectUrl : option string) (o : PrepareOracle)
    (s : ZkLogin) (m : string) :
  prepare_guard provider clientId redirectUrl s = Some m ->
  snd (prepareForJWT sdk provider clientId redirectUrl o s) =
    inl ("Failed to prepare for JWT: " ++ m).
Proof.
  unfold prepare_guard, prepareForJWT. intros H.
  unfold try_catch at 1. unfold bind at 1. unfold this at 1.
  destruct (ephemeralKeyPair s) as [kp|].
  - unfold bind at 1.
    pose proof (overrides_run provider clientId redirectUrl s) as Ho.
    unfold bind at 1 in Ho.
    destruct (override provider Config.with_provider s) as [s1 [e|[]]] eqn:E1.
    + discriminate.
    + unfold bind at 1.
      unfold bind at 1 in Ho.
      destruct (override clientId Config.with_clientId s1) as [s2 [e|[]]] eqn:E2;
        [discriminate|].
      unfold bind at 1. rewrite Ho. run.
      destruct (Str.truthy (Config.clientId _)); simpl in *;
        [|injection H as <-; reflexivity].
      destruct (Str.truthy (Config.provider _)); simpl in *;
        [|injection H as <-; reflexivity].
      destruct (Str.truthy (Config.redirectUrl _)); simpl in *;
        [discriminate|injection H as <-; reflexivity].
  - injection H as <-. reflexivity.
Qed.

Lemma prepareForJWT_runs (sdk : Sdk)
    (provider clientId redirectUrl : option string) (o : PrepareOracle)
    (s : ZkLogin) :
  prepare_guard provider clientId redirectUrl s = None ->
  exists kp,
    ephemeralKeyPair s = Some kp /\
    let c := merged provider clientId redirectUrl (config s) in
    let r := match sdk_randomness o with
             | Some r => r
             | None => crypto_randomness o
             end in
    let epoch := match latest_epoch o with
                 | inr e => e
                 | inl _ => Double.Int 100
                 end in
    let max := Double.add epoch (Config.maxEpoch c) in
    let key := match getExtendedEphemeralPublicKey sdk (getPublicKey kp) with
               | Some e => ExtendedKey e
               | None => PlainKey (getPublicKey kp)
               end in
    let n := match generateNonce sdk key max r with
             | Some n => n
             | None => fallback_nonce sdk key max r
             end in
    prepareForJWT sdk provider clientId redirectUrl o s =
      (set_nonce (Some n)
         (set_maxEpoch (Some max)
            (set_currentEpoch (Some epoch)
               (set_randomness (Some r) (set_config c s)))),
       inr {| pr_success := true; pr_randomness := Str.decimal r;
              pr_nonce := n; pr_currentEpoch := epoch; pr_maxEpoch := max |}).
Proof.
  unfold prepare_guard, prepareForJWT. intros H.
  destruct (ephemeralKeyPair s) as [kp|] eqn:Hk; [|discriminate].
  exists kp. split; [reflexivity|]. cbv zeta.
  unfold try_catch at 1. unfold bind at 1. unfold this at 1. rewrite Hk.
  unfold bind at 1.
  pose proof (overrides_run provider clientId redirectUrl s) as Ho.
  unfold bind at 1 in Ho.
  destruct (override provider Config.with_provider s) as [s1 [e|[]]] eqn:E1;
    [discriminate|].
  unfold bind at 1. unfold bind at 1 in Ho.
  destruct (override clientId Config.with_clientId s1) as [s2 [e|[]]] eqn:E2;
    [discriminate|].
  unfold bind at 1. rewrite Ho.
  unfold getCurrentEpoch. run.
  destruct (Str.truthy (Config.clientId _)); simpl in *; [|discriminate].
  destruct (Str.truthy (Config.provider _)); simpl in *; [|discriminate].
  destruct (Str.truthy (Config.redirectUrl _)); simpl in *; [|discriminate].
  destruct (latest_epoch o); reflexivity.
Qed.

Lemma prepare_guard_configured (provider clientId redirectUrl : option string)
    (s : ZkLogin) (kp : KeyPair) :
  ephemeralKeyPair s = Some kp -> configured s ->
  prepare_guard provider clientId redirectUrl s = None.
Proof.
  intros Hk (Hc & Hr & Hp). unfold prepare_guard. rewrite Hk.
  destruct (merged_configured provider clientId redirectUrl (config s) Hc Hr Hp)
    as (Hc' & Hr' & Hp' & _).
  cbv zeta. rewrite Hc', Hr', Hp'. reflexivity.
Qed.

(** ** Step 3: processing a token *)

Lemma resolve_salt_outcome (sdk : Sdk) (subject : jsval) (o : SaltStore.Oracle) (s1 s : ZkLogin) :
  config s1 = config s -> saltDatabase s1 = saltDatabase s ->
  snd (resolve_salt sdk subject o s1) = snd (resolve_salt sdk subject o s).
Proof.
  intros Hc Hd. unfold resolve_salt. run. rewrite Hc, Hd.
  destruct (Config.useDatabase (config s)); [|reflexivity].
  destruct (saltDatabase s) as [db|]; [|reflexivity].
  destruct (SaltStore.getOrCreateUserSalt _ _ _ _ _) as [m|[salt db']];
    [reflexivity|].
  simpl. destruct (Js.to_string subject); reflexivity.
Qed.

Lemma resolve_salt_frame (sdk : Sdk) (subject : jsval) (o : SaltStore.Oracle) (s : ZkLogin) :
  let s' := fst (resolve_salt sdk subject o s) in
  config s' = config s /\ jwt s' = jwt s /\ decodedJWT s' = decodedJWT s /\
  userAddress s' = userAddress s /\ userSalt s' = userSalt s /\
  randomness s' = randomness s /\ nonce s' = nonce s.
Proof.
  unfold resolve_salt. run.
  destruct (Config.useDatabase (config s)); [|simpl; repeat split].
  destruct (saltDatabase s) as [db|]; [|simpl; repeat split].
  destruct (SaltStore.getOrCreateUserSalt _ _ _ _ _) as [m|[salt db']];
    simpl; [repeat split|].
  destruct (Js.to_string subject); simpl; repeat split.
Qed.

Lemma processJWT_unprepared (sdk : Sdk) (token : string) (o : SaltStore.Oracle) (s : ZkLogin) :
  truthy_bigint (randomness s) && truthy_string (nonce s) = false ->
  processJWT sdk token o s =
    (s, inl "Failed to process JWT: JWT preparation not completed. Call prepareForJWT() first.").
Proof.
  intros H. unfold processJWT. run.
  rewrite <- negb_andb, H. reflexivity.
Qed.

Lemma processJWT_mismatch (sdk : Sdk) (token : string) (o : SaltStore.Oracle)
    (s : ZkLogin) (d : DecodedJWT) (got : jsval) :
  truthy_bigint (randomness s) = true ->
  truthy_string (nonce s) = true ->
  decodeJWT sdk token = inr d ->
  Js.get (payload d) c_nonce = inr got ->
  strict_eq_field got (nonce s) = false ->
  processJWT sdk token o s =
    (set_decodedJWT (Some d) (set_jwt (Some token) s),
     inl ("Failed to process JWT: "
          ++ match Js.to_string got with
             | inr text =>
                 "Nonce mismatch: expected " ++ render_field (nonce s)
                 ++ ", got " ++ text
             | inl msg => msg
             end)).
Proof.
  intros Hr Hn Hd Hg Hne. unfold processJWT. run.
  rewrite Hr, Hn. simpl.
  assert (Hv : isValidJWT token = true).
  { unfold decodeJWT in Hd. unfold isValidJWT.
    destruct (Nat.eqb (List.length (Str.split "." token)) 3); [reflexivity|].
    simpl in Hd. discriminate. }
  rewrite Hv. simpl. rewrite Hd. simpl. rewrite Hg. simpl. rewrite Hne. simpl.
  destruct (Js.to_string got); reflexivity.
Qed.

Lemma derive_address_pure (sdk : Sdk) (token salt : string) (s s0 : ZkLogin) :
  derive_address sdk token salt s = (s, snd (derive_address sdk token salt s0)).
Proof.
  unfold derive_address. run.
  destruct (jwtToAddress sdk token salt); [reflexivity|].
  destruct (decodeJWT sdk token) as [m|d]; [reflexivity|].
  destruct (Js.get (payload d) c_sub) as [m|sub]; [reflexivity|].
  destruct (Js.get (payload d) c_aud) as [m|aud]; reflexivity.
Qed.

Lemma decodeJWT_valid (sdk : Sdk) (token : string) (d : DecodedJWT) :
  decodeJWT sdk token = inr d -> isValidJWT token = true.
Proof.
  unfold decodeJWT, isValidJWT. intros Hd.
  destruct (Nat.eqb (List.length (Str.split "." token)) 3); [reflexivity|].
  simpl in Hd. discriminate.
Qed.

Lemma processJWT_success (sdk : Sdk) (token : string) (o : SaltStore.Oracle)
    (s : ZkLogin) (d : DecodedJWT) (got subject : jsval) (salt address : string) :
  truthy_bigint (randomness s) = true ->
  truthy_string (nonce s) = true ->
  decodeJWT sdk token = inr d ->
  Js.get (payload d) c_nonce = inr got ->
  strict_eq_field got (nonce s) = true ->
  extractSubFromJWT sdk token = inr subject ->
  snd (resolve_salt sdk subject o s) = inr salt ->
  snd (derive_address sdk token salt s) = inr address ->
  exists s',
    processJWT sdk token o s =
      (s', inr {| pj_success := true; pj_jwt := token;
                  pj_userAddress := Some address; pj_subject := subject;
                  pj_userSalt := salt; pj_decodedJWT := Some d |})
    /\ userAddress s' = Some address /\ userSalt s' = Some salt
    /\ jwt s' = Some token /\ decodedJWT s' = Some d
    /\ config s' = config s.
Proof.
  intros Hr Hn Hd Hg He Hs Hsalt Haddr.
  pose proof (decodeJWT_valid sdk token d Hd) as Hv.
  set (s1 := set_decodedJWT (Some d) (set_jwt (Some token) s)).
  assert (Hsalt1 : snd (resolve_salt sdk subject o s1) = inr salt).
  { rewrite <- Hsalt. apply resolve_salt_outcome; reflexivity. }
  destruct (resolve_salt_frame sdk subject o s1) as (Fc & Fj & Fd & _).
  destruct (resolve_salt sdk subject o s1) as [s2 r2] eqn:E2.
  simpl in Hsalt1, Fc, Fj, Fd. subst r2.
  exists (set_userAddress (Some address) (set_userSalt (Some salt) s2)).
  split.
  - unfold processJWT. run.
    rewrite Hr, Hn. simpl. rewrite Hv. simpl. rewrite Hd. simpl.
    rewrite Hg. simpl. rewrite He. simpl. rewrite Hs. simpl.
    fold s1. rewrite E2.
    rewrite (derive_address_pure sdk token salt _ s), Haddr. simpl.
    rewrite Fd. reflexivity.
  - simpl. repeat split; assumption.
Qed.

Lemma processJWT_returns (sdk : Sdk) (token : string) (o : SaltStore.Oracle)
    (s s' : ZkLogin) (r : ProcessResult) :
  processJWT sdk token o s = (s', inr r) ->
  exists d got subject salt address,
    truthy_bigint (randomness s) = true /\
    truthy_string (nonce s) = true /\
    decodeJWT sdk token = inr d /\
    Js.get (payload d) c_nonce = inr got /\
    strict_eq_field got (nonce s) = true /\
    extractSubFromJWT sdk token = inr subject /\
    snd (resolve_salt sdk subject o s) = inr salt /\
    snd (derive_address sdk token salt s) = inr address.
Proof.
  unfold processJWT. run.
  destruct (truthy_bigint (randomness s)) eqn:Hr; simpl; [|discriminate].
  destruct (truthy_string (nonce s)) eqn:Hn; simpl; [|discriminate].
  destruct (isValidJWT token) eqn:Hv; simpl; [|discriminate].
  destruct (decodeJWT sdk token) as [m|d] eqn:Hd; simpl; [discriminate|].
  destruct (Js.get (payload d) c_nonce) as [m|got] eqn:Hg; simpl; [discriminate|].
  destruct (strict_eq_field got (nonce s)) eqn:He; simpl;
    [|destruct (Js.to_string got); discriminate].
  destruct (extractSubFromJWT sdk token) as [m|subject] eqn:Hs; simpl; [discriminate|].
  set (s1 := set_decodedJWT (Some d) (set_jwt (Some token) s)).
  pose proof (resolve_salt_outcome sdk subject o s1 s eq_refl eq_refl) as Hsalt.
  destruct (resolve_salt sdk subject o s1) as [s2 [m|salt]] eqn:E2; simpl; [discriminate|].
  rewrite (derive_address_pure sdk token salt _ s).
  destruct (snd (derive_address sdk token salt s)) as [m|address] eqn:Ha;
    simpl; [discriminate|].
  intros _. exists d, got, subject, salt, address.
  simpl in Hsalt. repeat split; auto.
Qed.

(** The subject that [extractSubFromJWT] finds is the truthy [sub] of the
    decoded payload. *)
Lemma extractSubFromJWT_decoded (sdk : Sdk) (token : string) (d : DecodedJWT)
    (subject : jsval) :
  decodeJWT sdk token = inr d ->
  Js.get (payload d) c_sub = inr subject ->
  extractSubFromJWT sdk token =
    if Js.truthy subject then inr subject
    else inl "Failed to extract subject from JWT: JWT token missing subject (sub) claim".
Proof.
  unfold decodeJWT, extractSubFromJWT. intros Hd Hs.
  destruct (Str.split "." token) as [|h [|p [|sg [|x rest]]]]; simpl in Hd;
    try discriminate.
  simpl.
  destruct (parse_base64_json sdk h) as [m|hd]; [discriminate|].
  destruct (parse_base64_json sdk p) as [m|pl]; [discriminate|].
  injection Hd as <-. simpl in Hs. rewrite Hs.
  destruct (Js.truthy subject); reflexivity.
Qed.

Lemma isValidJWT_truthy (token : string) :
  isValidJWT token = true -> Str.truthy token = true.
Proof. destruct token; [discriminate|reflexivity]. Qed.


(** C2. On a session whose [prepareForJWT] has not completed, with
    [randomness] or [nonce] still unset, [processJWT] throws for every
    token the precondition error that names [prepareForJWT()], and the
    instance is left untouched: the token is neither stored nor decoded
    and no nonce is compared. *)
Theorem processJWT_before_prepare
    (sdk : Sdk) (token : string) (o : SaltStore.Oracle) (s : ZkLogin) :
  randomness s = None \/ nonce s = None ->
  processJWT sdk token o s =
    (s, inl "Failed to process JWT: JWT preparation not completed. Call prepareForJWT() first.").
Proof.
  intros H. apply processJWT_unprepared.
  destruct H as [H|H]; rewrite H; simpl;
    [reflexivity | apply andb_false_r].
Qed.

Lemma processJWT_before_prepare_witness :
  randomness Sample.keyed = None /\
  processJWT Sample.sdk Sample.good_token Sample.store Sample.keyed =
    (Sample.keyed,
     inl "Failed to process JWT: JWT preparation not completed. Call prepareForJWT() first.").
Proof.
  split; [reflexivity|].
  apply (processJWT_before_prepare
           Sample.sdk Sample.good_token Sample.store Sample.keyed).
  left. reflexivity.
Defined.









(** With a salt database the call can also fail after the nonces have
    matched: the column of the identifiers is [UNIQUE], so a subject that
    has a salt under one provider cannot get one under another. *)
Example processJWT_second_provider :
  SaltStore.find Sample.twitch_rows "user123" "google" = None
  /\ snd (processJWT Sample.sdk Sample.good_token Sample.store
            Sample.prepared_with_database) =
       inl ("Failed to process JWT: " ++ SaltStore.unique_violation)
  /\ userAddress (fst (processJWT Sample.sdk Sample.good_token Sample.store
                         Sample.prepared_with_database)) = None.
Proof. repeat split; vm_compute; reflexivity. Qed.



Lemma resolve_salt_configured (sdk : Sdk) (subject : jsval) (o : SaltStore.Oracle) (s : ZkLogin) :
  Config.useDatabase (config s) = false ->
  resolve_salt sdk subject o s = (s, inr (Config.userSalt (config s))).
Proof. intros H. unfold resolve_salt. run. rewrite H. reflexivity. Qed.

Lemma processJWT_configured_salt (sdk : Sdk) (token : string)
    (o : SaltStore.Oracle) (s s' : ZkLogin) (r : ProcessResult) :
  Config.useDatabase (config s) = false ->
  processJWT sdk token o s = (s', inr r) ->
  userSalt s' = Some (Config.userSalt (config s)) /\
  pj_userSalt r = Config.userSalt (config s) /\
  config s' = config s.
Proof.
  intros Hdb E.
  destruct (processJWT_returns sdk token o s s' r E)
    as (d & got & subject & salt & address & Hr & Hn & Hd & Hg & He & Hs & Hsalt & Ha).
  rewrite (resolve_salt_configured sdk subject o s Hdb) in Hsalt. simpl in Hsalt.
  injection Hsalt as <-.
  destruct (processJWT_success sdk token o s d got subject
              (Config.userSalt (config s)) address Hr Hn Hd Hg He Hs)
    as (s'' & E' & _ & Hu & _ & _ & Hc); [|assumption|].
  { rewrite (resolve_salt_configured sdk subject o s Hdb). reflexivity. }
  rewrite E in E'. injection E' as -> ->. auto.
Qed.

(** C10. Without the salt database ([useDatabase] false, which is what
    the constructor sets when the key is absent) [processJWT] gives every
    identity the configured salt ([config.userSalt], ['0'] when absent):
    any two successful runs on instances of one configuration, whatever
    the subjects of their tokens, store and return the same salt. *)
Theorem processJWT_same_salt_without_database (sdk : Sdk) :
  (forall (raw : Config.raw) (disk : SaltStore.t) (s : ZkLogin),
     constructor raw disk = inr s ->
     Config.r_useDatabase raw = None ->
     Config.useDatabase (config s) = false /\
     saltDatabase s = None /\
     (Config.r_userSalt raw = None -> Config.userSalt (config s) = "0"))
  /\
  (forall (s1 s2 s1' s2' : ZkLogin) (t1 t2 : string)
          (o1 o2 : SaltStore.Oracle) (r1 r2 : ProcessResult),
     Config.useDatabase (config s1) = false ->
     config s2 = config s1 ->
     processJWT sdk t1 o1 s1 = (s1', inr r1) ->
     processJWT sdk t2 o2 s2 = (s2', inr r2) ->
     userSalt s1' = Some (Config.userSalt (config s1)) /\
     userSalt s2' = Some (Config.userSalt (config s1)) /\
     pj_userSalt r1 = Config.userSalt (config s1) /\
     pj_userSalt r2 = Config.userSalt (config s1) /\
     config s1' = config s1).
Proof.
  split.
  - intros raw disk s E Hdb.
    unfold constructor in E. cbn in E. rewrite Hdb in E. cbn in E.
    destruct (Str.truthy (or_string (Config.r_clientId raw) ""));
      simpl in E; [|discriminate].
    destruct (Str.truthy (or_string (Config.r_redirectUrl raw) ""));
      simpl in E; [|discriminate].
    destruct (PROVIDERS (or_string (Config.r_provider raw) "google"));
      inversion E; subst; clear E; simpl;
      (repeat split; intros ->; reflexivity).
  - intros s1 s2 s1' s2' t1 t2 o1 o2 r1 r2 Hdb Hc E1 E2.
    destruct (processJWT_configured_salt sdk t1 o1 s1 s1' r1 Hdb E1)
      as (U1 & P1 & C1).
    rewrite <- Hc in Hdb.
    destruct (processJWT_configured_salt sdk t2 o2 s2 s2' r2 Hdb E2)
      as (U2 & P2 & _).
    rewrite Hc in U2, P2. auto.
Qed.

Lemma processJWT_same_salt_without_database_witness :
  exists s1 r1 s2 r2,
    processJWT Sample.sdk Sample.good_token Sample.store Sample.prepared =
      (s1, inr r1) /\
    processJWT Sample.sdk Sample.second_token Sample.store s1 = (s2, inr r2) /\
    pj_subject r1 = VJson (JStr "user123") /\
    pj_subject r2 = VJson (JStr "user456") /\
    userSalt s1 = Some "0" /\
    userSalt s2 = Some "0".
Proof.
  assert (D : Config.useDatabase (config Sample.prepared) = false)
    by (vm_compute; reflexivity).
  let first := eval vm_compute in
      (processJWT Sample.sdk Sample.good_token Sample.store Sample.prepared) in
  match first with
  | (?s1, inr ?r1) =>
      assert (E1 : processJWT Sample.sdk Sample.good_token Sample.store
                     Sample.prepared = (s1, inr r1))
        by (vm_compute; reflexivity);
      let second := eval vm_compute in
          (processJWT Sample.sdk Sample.second_token Sample.store s1) in
      match second with
      | (?s2, inr ?r2) =>
          assert (E2 : processJWT Sample.sdk Sample.second_token Sample.store s1
                       = (s2, inr r2))
            by (vm_compute; reflexivity);
          assert (C : config s1 = config Sample.prepared)
            by (vm_compute; reflexivity);
          destruct (proj2 (processJWT_same_salt_without_database Sample.sdk)
                      Sample.prepared s1 s1 s2
                      Sample.good_token Sample.second_token
                      Sample.store Sample.store r1 r2 D C E1 E2)
            as (U1 & U2 & _);
          exists s1, r1, s2, r2
      end
  end.
  split; [exact E1|]. split; [exact E2|].
  split; [reflexivity|]. split; [reflexivity|].
  split; [exact U1 | exact U2].
Defined.

(** ** The configuration stays valid *)

Lemma generateEphemeralKeyPair_config (sdk : Sdk) (fresh : KeyMaterial) (s : ZkLogin) :
  config (fst (generateEphemeralKeyPair sdk fresh s)) = config s.
Proof.
  unfold generateEphemeralKeyPair. run.
  destruct (String.eqb (Config.keyScheme (config s)) "ED25519"); [reflexivity|].
  destruct (String.eqb (Config.keyScheme (config s)) "Secp256k1"); reflexivity.
Qed.

Lemma prepareForJWT_configured (sdk : Sdk)
    (provider clientId redirectUrl : option string) (o : PrepareOracle)
    (s : ZkLogin) :
  configured s ->
  configured (fst (prepareForJWT sdk provider clientId redirectUrl o s)).
Proof.
  intros Hc.
  destruct (ephemeralKeyPair s) as [kp|] eqn:Hk.
  - pose proof (prepare_guard_configured provider clientId redirectUrl s kp Hk Hc) as G.
    destruct (prepareForJWT_runs sdk provider clientId redirectUrl o s G)
      as (kp' & _ & R).
    cbv zeta in R. rewrite R. simpl.
    destruct Hc as (H1 & H2 & H3).
    destruct (merged_configured provider clientId redirectUrl (config s) H1 H2 H3)
      as (H1' & H2' & H3' & _).
    repeat split; assumption.
  - unfold prepareForJWT. run. rewrite Hk. exact Hc.
Qed.

Lemma processJWT_config (sdk : Sdk) (token : string) (o : SaltStore.Oracle)
    (s : ZkLogin) :
  config (fst (processJWT sdk token o s)) = config s.
Proof.
  unfold processJWT. run.
  destruct (truthy_bigint (randomness s)); simpl; [|reflexivity].
  destruct (truthy_string (nonce s)); simpl; [|reflexivity].
  destruct (isValidJWT token); simpl; [|reflexivity].
  destruct (decodeJWT sdk token) as [m|d]; simpl; [reflexivity|].
  destruct (Js.get (payload d) c_nonce) as [m|got]; simpl; [reflexivity|].
  destruct (strict_eq_field got (nonce s)); simpl;
    [|destruct (Js.to_string got); reflexivity].
  destruct (extractSubFromJWT sdk token) as [m|subject]; simpl; [reflexivity|].
  set (s1 := set_decodedJWT (Some d) (set_jwt (Some token) s)).
  destruct (resolve_salt_frame sdk subject o s1) as (Fc & _).
  destruct (resolve_salt sdk subject o s1) as [s2 [m|salt]]; simpl in *;
    [exact Fc|].
  rewrite (derive_address_pure sdk token salt _ s).
  destruct (snd (derive_address sdk token salt s)); simpl; exact Fc.
Qed.

Lemma generateZkLoginSignature_config (sdk : Sdk)
    (transactionBytes zkProof : string) (s : ZkLogin) :
  config (fst (generateZkLoginSignature sdk transactionBytes zkProof s)) = config s.
Proof.
  unfold generateZkLoginSignature. run.
  destruct (ephemeralKeyPair s) as [kp|]; [|reflexivity].
  destruct (truthy_string (jwt s)); simpl; [|reflexivity].
  destruct (signTransaction sdk kp transactionBytes); simpl; [reflexivity|].
  destruct (getZkLoginSignature sdk zkProof (maxEpoch s) s0); reflexivity.
Qed.

Lemma updateUserSalt_config (userIdentifier provider newSalt : string)
    (o : SaltStore.Oracle) (s : ZkLogin) :
  config (fst (updateUserSalt userIdentifier provider newSalt o s)) = config s.
Proof.
  unfold updateUserSalt. run.
  destruct (Config.useDatabase (config s)); [|reflexivity].
  destruct (saltDatabase s) as [db|]; [|reflexivity].
  destruct (SaltStore.updateUserSalt db _ _ _ o) as [m|[c db']]; reflexivity.
Qed.

Lemma deleteUserSalt_config (userIdentifier provider : string)
    (o : SaltStore.Oracle) (s : ZkLogin) :
  config (fst (deleteUserSalt userIdentifier provider o s)) = config s.
Proof.
  unfold deleteUserSalt. run.
  destruct (Config.useDatabase (config s)); [|reflexivity].
  destruct (saltDatabase s) as [db|]; [|reflexivity].
  destruct (SaltStore.deleteUserSalt db _ _ o) as [m|[c db']]; reflexivity.
Qed.

Lemma step_configured (sdk : Sdk) (s s' : ZkLogin) :
  step sdk s s' -> configured s -> configured s'.
Proof.
  intros Hs Hc. destruct Hs.
  - exact Hc.
  - unfold configured. now rewrite generateEphemeralKeyPair_config.
  - now apply prepareForJWT_configured.
  - unfold configured. now rewrite processJWT_config.
  - unfold configured. now rewrite generateZkLoginSignature_config.
  - unfold configured. now rewrite updateUserSalt_config.
  - unfold configured. now rewrite deleteUserSalt_config.
Qed.

(** Every instance that a program can hold is configured. *)
Lemma reachable_configured (sdk : Sdk) (s : ZkLogin) :
  reachable sdk s -> configured s.
Proof.
  induction 1 as [raw disk s E | s s' _ IH Hs].
  - exact (proj2 (constructor_created raw disk s E)).
  - exact (step_configured sdk s s' Hs IH).
Qed.

(** ** The epoch window *)

(** Inside the safe integers the sum of two doubles is the sum of the
    integers. *)
Lemma Double_add_safe (x y : Z) :
  Double.safe (x + y) ->
  Double.add (Double.Int x) (Double.Int y) = Double.Int (x + y).
Proof.
  unfold Double.safe, Double.add, Double.round. intros H.
  change (2 ^ 53)%Z with 9007199254740992%Z.
  destruct (Z.ltb_spec (Z.abs (x + y)) 9007199254740992); [reflexivity|lia].
Qed.

(** C5. After a successful [prepareForJWT] the session's [currentEpoch]
    is the epoch that the network reported (100 when the request
    failed), its [maxEpoch] is that epoch plus the configured window
    [config.maxEpoch], and the returned numbers are the stored ones.  The
    sum is the [+] of the code, on doubles: for an epoch and a window
    whose sum is a safe integer it is the sum of the integers, and with a
    current epoch of 100 and a window of 10 it is 110. *)
Theorem prepareForJWT_maxEpoch (sdk : Sdk)
    (provider clientId redirectUrl : option string) (o : PrepareOracle)
    (s s' : ZkLogin) (res : PrepareResult) :
  prepareForJWT sdk provider clientId redirectUrl o s = (s', inr res) ->
  let epoch := match latest_epoch o with
               | inr e => e
               | inl _ => Double.Int 100
               end in
  let window := Config.maxEpoch (config s') in
  currentEpoch s' = Some epoch /\
  pr_currentEpoch res = epoch /\
  maxEpoch s' = Some (Double.add epoch window) /\
  pr_maxEpoch res = Double.add epoch window /\
  (forall e w : Z,
     epoch = Double.Int e -> window = Double.Int w -> Double.safe (e + w) ->
     maxEpoch s' = Some (Double.Int (e + w)) /\
     pr_maxEpoch res = Double.Int (e + w)) /\
  (epoch = Double.Int 100 -> window = Double.Int 10 ->
   maxEpoch s' = Some (Double.Int 110) /\ pr_maxEpoch res = Double.Int 110).
Proof.
  intros E.
  destruct (prepare_guard provider clientId redirectUrl s) as [m|] eqn:G.
  - apply (prepareForJWT_guarded sdk provider clientId redirectUrl o) in G.
    rewrite E in G. discriminate.
  - destruct (prepareForJWT_runs sdk provider clientId redirectUrl o s G)
      as (kp & _ & R).
    cbv zeta in R. rewrite E in R. injection R as -> ->.
    cbv zeta. simpl. do 4 (split; [reflexivity|]).
    split.
    + intros e w -> -> S. rewrite (Double_add_safe e w S). split; reflexivity.
    + intros -> ->. split; reflexivity.
Qed.

Lemma prepareForJWT_maxEpoch_witness :
  (exists s' res,
     prepareForJWT Sample.sdk None None None Sample.online Sample.keyed =
       (s', inr res)
     /\ currentEpoch s' = Some (Double.Int 100)
     /\ Config.maxEpoch (config s') = Double.Int 10
     /\ maxEpoch s' = Some (Double.Int 110)
     /\ pr_maxEpoch res = Double.Int 110)
  /\ (exists s' res,
        prepareForJWT Sample.sdk None None None Sample.later Sample.keyed =
          (s', inr res)
        /\ currentEpoch s' = Some (Double.Int 250)
        /\ maxEpoch s' = Some (Double.Int 260)).
Proof.
  split.
  - eexists. eexists. split; [reflexivity|].
    destruct (prepareForJWT_maxEpoch Sample.sdk None None None Sample.online
                Sample.keyed _ _ eq_refl)
      as (Hc & _ & _ & _ & _ & H110).
    destruct (H110 eq_refl eq_refl) as [Hm Hr].
    split; [exact Hc|]. split; [reflexivity|]. split; [exact Hm | exact Hr].
  - eexists. eexists. split; [reflexivity|].
    destruct (prepareForJWT_maxEpoch Sample.sdk None None None Sample.later
                Sample.keyed _ _ eq_refl)
      as (Hc & _ & _ & _ & Hs & _).
    split; [exact Hc|].
    exact (proj1 (Hs 250%Z 10%Z eq_refl eq_refl
                    ltac:(unfold Double.safe; simpl; lia))).
Defined.

(** C6. When the request for the current epoch fails, [getCurrentEpoch]
    answers with the fallback epoch 100 instead of throwing, so that
    [prepareForJWT] works with epoch 100: every successful call records
    [currentEpoch = 100]; on every reachable instance that holds a key
    pair the call does succeed; and whatever [prepareForJWT] throws with the
    failed request it throws with any other answer of the network too,
    so that no thrown error stems from the failed request. *)
Theorem prepareForJWT_epoch_fallback (sdk : Sdk)
    (provider clientId redirectUrl : option string) (o : PrepareOracle)
    (s : ZkLogin) (msg : string) :
  latest_epoch o = inl msg ->
  getCurrentEpoch (latest_epoch o) s = (s, inr (Double.Int 100))
  /\ (forall (s' : ZkLogin) (res : PrepareResult),
        prepareForJWT sdk provider clientId redirectUrl o s = (s', inr res) ->
        currentEpoch s' = Some (Double.Int 100) /\
        pr_currentEpoch res = Double.Int 100 /\
        maxEpoch s' =
          Some (Double.add (Double.Int 100) (Config.maxEpoch (config s'))))
  /\ (forall kp : KeyPair,
        ephemeralKeyPair s = Some kp -> reachable sdk s ->
        exists s' res,
          prepareForJWT sdk provider clientId redirectUrl o s = (s', inr res) /\
          pr_success res = true /\
          currentEpoch s' = Some (Double.Int 100))
  /\ (forall (m : string) (latest : string + Double.t),
        snd (prepareForJWT sdk provider clientId redirectUrl o s) = inl m ->
        snd (prepareForJWT sdk provider clientId redirectUrl
               (with_latest_epoch latest o) s) = inl m).
Proof.
  intros Hl. split; [|split; [|split]].
  - rewrite getCurrentEpoch_total, Hl. reflexivity.
  - intros s' res E.
    destruct (prepare_guard provider clientId redirectUrl s) as [m|] eqn:G.
    + apply (prepareForJWT_guarded sdk provider clientId redirectUrl o) in G.
      rewrite E in G. discriminate.
    + destruct (prepareForJWT_runs sdk provider clientId redirectUrl o s G)
        as (kp & _ & R).
      cbv zeta in R. rewrite E, Hl in R. injection R as -> ->.
      simpl. repeat split.
  - intros kp Hk Hreach.
    pose proof (prepare_guard_configured provider clientId redirectUrl s kp Hk
                  (reachable_configured sdk s Hreach)) as G.
    destruct (prepareForJWT_runs sdk provider clientId redirectUrl o s G)
      as (kp' & _ & R).
    cbv zeta in R. rewrite Hl in R.
    eexists. eexists. split; [exact R|]. split; reflexivity.
  - intros m latest E.
    destruct (prepare_guard provider clientId redirectUrl s) as [g|] eqn:G.
    + rewrite (prepareForJWT_guarded sdk provider clientId redirectUrl o s g G) in E.
      rewrite (prepareForJWT_guarded sdk provider clientId redirectUrl
                 (with_latest_epoch latest o) s g G).
      exact E.
    + destruct (prepareForJWT_runs sdk provider clientId redirectUrl o s G)
        as (kp & _ & R).
      cbv zeta in R. rewrite R in E. discriminate.
Qed.

Lemma prepareForJWT_epoch_fallback_witness :
  latest_epoch Sample.offline = inl "fetch failed"
  /\ getCurrentEpoch (latest_epoch Sample.offline) Sample.keyed =
       (Sample.keyed, inr (Double.Int 100))
  /\ exists s' res,
       prepareForJWT Sample.sdk None None None Sample.offline Sample.keyed =
         (s', inr res) /\
       pr_success res = true /\
       currentEpoch s' = Some (Double.Int 100).
Proof.
  destruct (prepareForJWT_epoch_fallback Sample.sdk None None None
              Sample.offline Sample.keyed "fetch failed" eq_refl)
    as (G & _ & R & _).
  split; [reflexivity|]. split; [exact G|].
  apply (R (new_keypair Ed25519 Sample.material)); [reflexivity|].
  apply (reachable_step Sample.sdk Sample.created).
  - apply (reachable_new Sample.sdk Sample.raw_config []). reflexivity.
  - apply (step_generate Sample.sdk Sample.material Sample.created).
Defined.

(** ** The snapshot *)

(** The decimal text determines the number. *)
Lemma decimal_inj (a b : Z) : Str.decimal a = Str.decimal b -> a = b.
Proof.
  unfold Str.decimal. intros H.
  assert (N : forall z, Z.to_int z <> Decimal.Pos Decimal.Nil /\
                        Z.to_int z <> Decimal.Neg Decimal.Nil).
  { intros [|p|p]; simpl; split; try discriminate;
      intros E; injection E as E; now apply Unsigned.to_uint_nonnil in E. }
  apply DecimalZ.to_int_inj.
  assert (E : Some (Z.to_int a) = Some (Z.to_int b)).
  { rewrite <- (NilZero.isi (Z.to_int a)) by apply N.
    rewrite <- (NilZero.isi (Z.to_int b)) by apply N.
    now rewrite H. }
  now injection E.
Qed.

Lemma getJWTClaims_reads_jwt (sdk : Sdk) (s1 s2 : ZkLogin) :
  jwt s1 = jwt s2 ->
  fst (getJWTClaims sdk s1) = s1 /\
  snd (getJWTClaims sdk s1) = snd (getJWTClaims sdk s2).
Proof.
  intros E. unfold getJWTClaims. run. rewrite <- E.
  destruct (truthy_string (jwt s1)); simpl; [|split; reflexivity].
  destruct (decodeJWT sdk (render_field (jwt s1))) as [m|d]; simpl;
    [split; reflexivity|].
  destruct (header d); simpl; try (split; reflexivity);
    destruct (payload d); simpl; split; reflexivity.
Qed.

Lemma getState_read_only (sdk : Sdk) (s : ZkLogin) : fst (getState sdk s) = s.
Proof.
  unfold getState. run.
  destruct (truthy_string (jwt s)); simpl; [|reflexivity].
  destruct (getJWTClaims_reads_jwt sdk s s eq_refl) as [F _].
  destruct (getJWTClaims sdk s) as [s' [m|c]]; simpl in *; now subst.
Qed.

(** C3, as amended.  [getState] is read-only and its snapshot never
    contains the ephemeral private key: the outcome is the same whatever
    the secret half of the key pair is.  The snapshot reports which fields
    are populated and, next to the address of the public key, the nonce
    and the epochs, the raw randomness itself, as the decimal text of the
    [BigInt], from which the number can be read back. *)
Theorem getState_snapshot (sdk : Sdk) (s : ZkLogin) :
  fst (getState sdk s) = s
  /\ (forall sk : string,
        snd (getState sdk (replace_secret sk s)) = snd (getState sdk s))
  /\ (forall snap : State.t,
        snd (getState sdk s) = inr snap ->
        State.hasEphemeralKeyPair snap = truthy_object (ephemeralKeyPair s) /\
        State.hasRandomness snap = truthy_bigint (randomness s) /\
        State.hasNonce snap = truthy_string (nonce s) /\
        State.hasJWT snap = truthy_string (jwt s) /\
        State.hasDecodedJWT snap = truthy_object (decodedJWT s) /\
        State.hasUserAddress snap = truthy_string (userAddress s) /\
        State.hasZkLoginSignature snap = truthy_string (zkLoginSignature s) /\
        State.ephemeralPublicKey snap =
          option_map (fun kp => toSuiAddress sdk (getPublicKey kp))
                     (ephemeralKeyPair s) /\
        State.nonce snap = nonce s /\
        State.currentEpoch snap = currentEpoch s /\
        State.maxEpoch snap = maxEpoch s /\
        (forall r : Z,
           randomness s = Some r -> r <> 0%Z ->
           State.randomness snap = Some (Str.decimal r) /\
           forall r' : Z, Str.decimal r' = Str.decimal r -> r' = r) /\
        (truthy_bigint (randomness s) = false -> State.randomness snap = None)).
Proof.
  split; [apply getState_read_only|]. split.
  - intros sk.
    assert (J : jwt (replace_secret sk s) = jwt s) by reflexivity.
    destruct (getJWTClaims_reads_jwt sdk (replace_secret sk s) s J) as [F C].
    unfold getState. run.
    destruct (truthy_string (jwt s)); simpl.
    + destruct (getJWTClaims sdk (replace_secret sk s)) as [s1 r1].
      destruct (getJWTClaims sdk s) as [s2 r2].
      simpl in C. subst r2.
      destruct r1; simpl; [reflexivity|].
      destruct (ephemeralKeyPair s); reflexivity.
    + destruct (ephemeralKeyPair s); reflexivity.
  - intros snap. unfold getState. run.
    assert (F : forall v : string + State.t,
              v = inr snap -> match v with inr x => x = snap | inl _ => False end)
      by (intros v ->; reflexivity).
    intros E. apply F in E. clear F.
    destruct (truthy_string (jwt s)) eqn:Hj; simpl in E;
      [destruct (getJWTClaims sdk s) as [s1 [m|c]]; simpl in E; [contradiction|]|];
      subst snap; simpl;
      (do 7 (split; [reflexivity|]);
       split; [destruct (ephemeralKeyPair s); reflexivity|];
       do 3 (split; [reflexivity|]);
       split;
       [ intros r Hr Hz; rewrite Hr; simpl;
         apply Z.eqb_neq in Hz; rewrite Hz; simpl;
         split; [reflexivity | intros r'; apply decimal_inj]
       | destruct (randomness s) as [r|]; [|reflexivity];
         simpl; intros H; rewrite H; reflexivity ]).
Qed.

(** C3 as stated fails: the snapshot of a prepared session holds the
    decimal text of the session's randomness, and two sessions that differ
    in nothing but their randomness have different snapshots. *)
Lemma getState_exposes_randomness :
  (exists snap,
     snd (getState Sample.sdk Sample.prepared) = inr snap /\
     randomness Sample.prepared = Some 1234567890123456789%Z /\
     State.randomness snap = Some "1234567890123456789")
  /\ snd (getState Sample.sdk (set_randomness (Some 7%Z) Sample.prepared))
     <> snd (getState Sample.sdk Sample.prepared).
Proof.
  split.
  - eexists. split; [reflexivity|]. split; reflexivity.
  - intros E. vm_compute in E. discriminate E.
Qed.

Lemma getState_snapshot_witness :
  exists snap,
    snd (getState Sample.sdk Sample.prepared) = inr snap /\
    snd (getState Sample.sdk (replace_secret "other-secret" Sample.prepared)) =
      inr snap /\
    State.hasRandomness snap = true /\
    State.randomness snap = Some "1234567890123456789".
Proof.
  destruct (getState_snapshot Sample.sdk Sample.prepared) as (_ & S & F).
  eexists. split; [reflexivity|].
  split; [rewrite (S "other-secret"); reflexivity|].
  destruct (F _ eq_refl) as (_ & HR & _ & _ & _ & _ & _ & _ & _ & _ & _ & R & _).
  split; [exact HR|].
  exact (proj1 (R 1234567890123456789%Z eq_refl ltac:(discriminate))).
Defined.

(** ** The authorization URL *)

Module QueryFacts.
Import URLSearchParams.

Lemma free_of_app (sep : ascii) (a b : string) :
  Str.free_of sep (a ++ b) = Str.free_of sep a && Str.free_of sep b.
Proof.
  induction a as [|c a IH]; simpl; [reflexivity|].
  rewrite IH. apply andb_assoc.
Qed.

Lemma encode_cons (c : ascii) (s : string) :
  encode (String c s) = encode (String c "") ++ encode s.
Proof.
  simpl. destruct (Ascii.eqb c " "); [reflexivity|].
  destruct (unreserved c); reflexivity.
Qed.

Ltac each_byte c :=
  destruct c as [[] [] [] [] [] [] [] []].

Lemma encode_byte_free (c : ascii) :
  Str.free_of "&" (encode (String c "")) = true /\
  Str.free_of "=" (encode (String c "")) = true.
Proof. each_byte c; split; reflexivity. Qed.

Lemma encode_free (s : string) :
  Str.free_of "&" (encode s) = true /\ Str.free_of "=" (encode s) = true.
Proof.
  induction s as [|c s [IH1 IH2]]; [split; reflexivity|].
  rewrite encode_cons, !free_of_app, IH1, IH2.
  destruct (encode_byte_free c) as [-> ->]. split; reflexivity.
Qed.

Lemma decode_encode_byte (c : ascii) (rest : string) :
  decode (encode (String c "") ++ rest) = String c (decode rest).
Proof. each_byte c; reflexivity. Qed.

Lemma decode_encode (s : string) : decode (encode s) = s.
Proof.
  induction s as [|c s IH]; [reflexivity|].
  rewrite encode_cons, decode_encode_byte, IH. reflexivity.
Qed.

Lemma cut_app (sep : ascii) (a b : string) :
  Str.free_of sep a = true -> cut sep (a ++ String sep b) = (a, b).
Proof.
  induction a as [|c a IH]; simpl; intros H.
  - now rewrite Ascii.eqb_refl.
  - apply andb_true_iff in H as [Hc Ha].
    apply negb_true_iff in Hc. now rewrite Hc, (IH Ha).
Qed.

Lemma parse_entry_entry (kv : string * string) : parse_entry (entry kv) = kv.
Proof.
  destruct kv as [k v]. unfold parse_entry, entry. simpl fst. simpl snd.
  change (encode k ++ "=" ++ encode v) with (encode k ++ String "=" (encode v)).
  rewrite cut_app by apply encode_free.
  now rewrite !decode_encode.
Qed.

Lemma entry_free (kv : string * string) : Str.free_of "&" (entry kv) = true.
Proof.
  unfold entry. rewrite !free_of_app.
  destruct (encode_free (fst kv)) as [-> _].
  destruct (encode_free (snd kv)) as [-> _]. reflexivity.
Qed.

Lemma entry_truthy (kv : string * string) : Str.truthy (entry kv) = true.
Proof. unfold entry. destruct (encode (fst kv)); reflexivity. Qed.

(** Parsing a serialized list of parameters gives the list back. *)
Lemma parse_toString (p : t) : parse (toString p) = p.
Proof.
  unfold parse, toString.
  destruct p as [|kv p]; [reflexivity|].
  change (String.concat "&" (map entry (kv :: p)))
    with (Str.join "&" (map entry (kv :: p))).
  rewrite split_join.
  - assert (F : forall l, filter (fun e => Str.truthy e) (map entry l) = map entry l).
    { induction l as [|x l IH]; [reflexivity|].
      simpl. rewrite entry_truthy. now f_equal. }
    rewrite F, map_map.
    rewrite (map_ext _ (fun x => x) parse_entry_entry). apply map_id.
  - discriminate.
  - apply Forall_forall. intros e He.
    apply in_map_iff in He as (x & <- & _). apply entry_free.
Qed.

End QueryFacts.

Lemma buildOAuthUrl_run (sessionId : option string) (generated : string)
    (s : ZkLogin) (p : Provider) :
  PROVIDERS (Config.provider (config s)) = Own p ->
  let isCodeFlow :=
    String.eqb (or_string (Some (Config.oauthFlow (config s))) "implicit") "code" in
  let base : URLSearchParams.t :=
    [ ("client_id", Config.clientId (config s));
      ("redirect_uri", Config.redirectUrl (config s));
      ("response_type", if isCodeFlow then "code" else "id_token");
      ("scope", "openid email profile");
      ("state", or_string sessionId generated);
      ("response_mode", if isCodeFlow then "query" else "fragment") ] in
  buildOAuthUrl sessionId generated s =
    (s, inr (authUrl p ++ "?"
             ++ URLSearchParams.toString
                  (if isCodeFlow then base
                   else (base ++ [("nonce", render_field (nonce s))])%list))).
Proof.
  intros Hp. unfold buildOAuthUrl. run. rewrite Hp. cbv zeta.
  destruct (String.eqb _ "code"); reflexivity.
Qed.

(** After [prepareForJWT] has been given a provider name that the table
    does not know, the URL cannot be built. *)
Lemma buildOAuthUrl_unknown_provider (sessionId : option string)
    (generated : string) (s : ZkLogin) :
  PROVIDERS (Config.provider (config s)) = Missing ->
  buildOAuthUrl sessionId generated s =
    (s, inl "Cannot read properties of undefined (reading 'authUrl')").
Proof.
  intros Hp. unfold buildOAuthUrl. run. rewrite Hp. reflexivity.
Qed.

(** The scope sent is the same for every provider; the [scope] entry of
    the table is not read. *)
Example buildOAuthUrl_facebook_scope :
  let s := set_config (Config.with_provider "facebook" Sample.config)
                      Sample.prepared in
  option_map scope
    (match PROVIDERS (Config.provider (config s)) with
     | Own p => Some p
     | _ => None
     end) = Some "openid email"
  /\ snd (buildOAuthUrl (Some "session-1") "zklogin_0_abc" s) =
     inr "https://www.facebook.com/v18.0/dialog/oauth?client_id=test-client&redirect_uri=http%3A%2F%2Flocalhost%3A3000%2Fcallback&response_type=id_token&scope=openid+email+profile&state=session-1&response_mode=fragment&nonce=hTPpgF7X".
Proof. cbv zeta. split; vm_compute; reflexivity. Qed.

(** C8. For a configured provider of the table, [buildOAuthUrl] returns
    the provider's endpoint followed by [?] and a query string whose
    parameters are the client id, the redirect URL, the response type, the
    requested scopes [openid email profile], the state and the response
    mode.  In the implicit flow the response type is [id_token] and the
    session's nonce is the [nonce] parameter; in the authorization-code
    flow the response type is [code] and there is no [nonce] parameter. *)
Theorem buildOAuthUrl_parameters (sessionId : option string)
    (generated : string) (s : ZkLogin) (p : Provider) :
  PROVIDERS (Config.provider (config s)) = Own p ->
  exists query,
    buildOAuthUrl sessionId generated s = (s, inr (authUrl p ++ "?" ++ query))
    /\ (Config.oauthFlow (config s) = "implicit" ->
        forall n : string,
          nonce s = Some n ->
          URLSearchParams.parse query =
            [ ("client_id", Config.clientId (config s));
              ("redirect_uri", Config.redirectUrl (config s));
              ("response_type", "id_token");
              ("scope", "openid email profile");
              ("state", or_string sessionId generated);
              ("response_mode", "fragment");
              ("nonce", n) ])
    /\ (Config.oauthFlow (config s) = "code" ->
        URLSearchParams.parse query =
          [ ("client_id", Config.clientId (config s));
            ("redirect_uri", Config.redirectUrl (config s));
            ("response_type", "code");
            ("scope", "openid email profile");
            ("state", or_string sessionId generated);
            ("response_mode", "query") ]
        /\ URLSearchParams.has "nonce" (URLSearchParams.parse query) = false).
Proof.
  intros Hp. eexists. split.
  - apply (buildOAuthUrl_run sessionId generated s p Hp).
  - rewrite QueryFacts.parse_toString. split.
    + intros -> n ->. reflexivity.
    + intros ->. split; reflexivity.
Qed.

Lemma buildOAuthUrl_parameters_witness :
  buildOAuthUrl (Some "session-1") "zklogin_0_abc" Sample.prepared =
    (Sample.prepared,
     inr "https://accounts.google.com/o/oauth2/v2/auth?client_id=test-client&redirect_uri=http%3A%2F%2Flocalhost%3A3000%2Fcallback&response_type=id_token&scope=openid+email+profile&state=session-1&response_mode=fragment&nonce=hTPpgF7X")
  /\ URLSearchParams.get "nonce"
       (URLSearchParams.parse
          "client_id=test-client&redirect_uri=http%3A%2F%2Flocalhost%3A3000%2Fcallback&response_type=id_token&scope=openid+email+profile&state=session-1&response_mode=fragment&nonce=hTPpgF7X")
     = Some "hTPpgF7X".
Proof.
  destruct (buildOAuthUrl_parameters (Some "session-1") "zklogin_0_abc"
              Sample.prepared
              {| name := "Google";
                 authUrl := "https://accounts.google.com/o/oauth2/v2/auth";
                 scope := "openid email profile";
                 responseType := "id_token" |}
              eq_refl)
    as (query & E & I & _).
  assert (Q : query =
    "client_id=test-client&redirect_uri=http%3A%2F%2Flocalhost%3A3000%2Fcallback&response_type=id_token&scope=openid+email+profile&state=session-1&response_mode=fragment&nonce=hTPpgF7X").
  { vm_compute in E. injection E as E. exact (eq_sym E). }
  subst query. split; [exact E|].
  rewrite (I eq_refl "hTPpgF7X" eq_refl). reflexivity.
Defined.

(** ** The whole flow on the sample *)

(** Keys, preparation against a network at epoch 100 with the default
    window, and a token that carries the generated nonce and the subject
    [user123]: the validity bound is 110 and the token is accepted. *)
Example complete_flow :
  let s3 := fst (prepareForJWT Sample.sdk None None None Sample.online Sample.keyed) in
  constructor Sample.raw_config [] = inr Sample.created /\
  option_map pr_maxEpoch
    (match snd (prepareForJWT Sample.sdk None None None Sample.online Sample.keyed)
     with inr prep => Some prep | inl _ => None end) = Some (Double.Int 110) /\
  nonce s3 = Some "hTPpgF7X" /\
  option_map (fun res => (pj_subject res, pj_userAddress res))
    (match snd (processJWT Sample.sdk Sample.good_token Sample.store s3)
     with inr res => Some res | inl _ => None end)
  = Some (VJson (JStr "user123"), Some "0x05a17").
Proof.
  cbv zeta.
  split; [vm_compute; reflexivity|]. split; [vm_compute; reflexivity|].
  split; vm_compute; reflexivity.
Qed.

(** * Further properties of the class *)

(** ** Construction and reset *)

(** X1. [new ZkLogin(config)] checks the client id first, then the
    redirect URL, then the provider (['google'] when none is given), and
    throws for the first one that is missing or, for the provider, not
    found under [PROVIDERS]; otherwise it returns an instance in the
    [Created] state, with the salt database opened exactly when
    [useDatabase] was given as true. *)
Theorem constructor_validation (raw : Config.raw) (disk : SaltStore.t) :
  let provider := or_string (Config.r_provider raw) "google" in
  (truthy_string (Config.r_clientId raw) = false ->
   constructor raw disk = inl "clientId is required")
  /\ (truthy_string (Config.r_clientId raw) = true ->
      truthy_string (Config.r_redirectUrl raw) = false ->
      constructor raw disk = inl "redirectUrl is required")
  /\ (truthy_string (Config.r_clientId raw) = true ->
      truthy_string (Config.r_redirectUrl raw) = true ->
      PROVIDERS provider = Missing ->
      constructor raw disk = inl ("Unsupported provider: " ++ provider))
  /\ (truthy_string (Config.r_clientId raw) = true ->
      truthy_string (Config.r_redirectUrl raw) = true ->
      PROVIDERS provider <> Missing ->
      exists s,
        constructor raw disk = inr s /\
        Created s /\
        Config.provider (config s) = provider /\
        saltDatabase s =
          (if or_bool (Config.r_useDatabase raw) false then Some disk else None)).
Proof.
  assert (T : forall o, Str.truthy (or_string o "") = truthy_string o).
  { intros [x|]; simpl; [|reflexivity]. destruct (Str.truthy x) eqn:E; [exact E|reflexivity]. }
  cbv zeta. unfold constructor. cbn.
  rewrite !T.
  split; [|split; [|split]].
  - intros ->. reflexivity.
  - intros -> ->. reflexivity.
  - intros -> -> ->. reflexivity.
  - intros -> -> Hp. simpl.
    destruct (PROVIDERS (or_string (Config.r_provider raw) "google"));
      try congruence;
      (eexists; split; [reflexivity|]; split; [repeat split|]; split; reflexivity).
Qed.

Lemma constructor_validation_witness :
  constructor Cases.nothing [] = inl "clientId is required"
  /\ constructor Cases.no_redirect [] = inl "redirectUrl is required"
  /\ constructor Cases.github [] = inl "Unsupported provider: github"
  /\ exists s,
       constructor Cases.twitch_with_database Cases.disk = inr s
       /\ Created s
       /\ saltDatabase s = Some Cases.disk.
Proof.
  split; [|split; [|split]].
  - apply (proj1 (constructor_validation Cases.nothing [])). reflexivity.
  - apply (proj1 (proj2 (constructor_validation Cases.no_redirect [])));
      reflexivity.
  - apply (proj1 (proj2 (proj2 (constructor_validation Cases.github []))));
      reflexivity.
  - destruct (proj2 (proj2 (proj2
               (constructor_validation Cases.twitch_with_database Cases.disk)))
               eq_refl eq_refl)
      as (s & E & C & _ & D); [discriminate|].
    exists s. split; [exact E|]. split; [exact C | exact D].
Defined.

Lemma PROVIDERS_inherited (k : string) :
  In k object_prototype_keys -> PROVIDERS k = Inherited /\ Str.truthy k = true.
Proof.
  unfold object_prototype_keys. simpl.
  intros H.
  repeat (destruct H as [<-|H]; [split; reflexivity|]).
  contradiction.
Qed.

(** X2. The provider check of the constructor is a property read on the
    [PROVIDERS] object, so the names that every object inherits
    ([constructor], [toString], [__proto__], ...) pass it although the
    table has no entry for them: the instance is built, and
    [buildOAuthUrl] then returns a URL whose endpoint is the text
    [undefined]. *)
Theorem constructor_accepts_inherited_names
    (raw : Config.raw) (disk : SaltStore.t) (k : string) :
  In k object_prototype_keys ->
  Config.r_provider raw = Some k ->
  truthy_string (Config.r_clientId raw) = true ->
  truthy_string (Config.r_redirectUrl raw) = true ->
  exists s,
    constructor raw disk = inr s /\
    Config.provider (config s) = k /\
    forall (sessionId : option string) (generated : string),
    exists query,
      buildOAuthUrl sessionId generated s = (s, inr ("undefined?" ++ query)).
Proof.
  intros Hk Hp Hc Hr.
  destruct (PROVIDERS_inherited k Hk) as [Hi Ht].
  assert (T : forall o, Str.truthy (or_string o "") = truthy_string o).
  { intros [x|]; simpl; [|reflexivity].
    destruct (Str.truthy x) eqn:E; [exact E|reflexivity]. }
  assert (P : or_string (Config.r_provider raw) "google" = k).
  { rewrite Hp. simpl. now rewrite Ht. }
  unfold constructor. cbn. rewrite !T, Hc, Hr, P, Hi. simpl.
  eexists. split; [reflexivity|]. split; [reflexivity|].
  intros sessionId generated. unfold buildOAuthUrl. run. rewrite Hi.
  eexists. reflexivity.
Qed.

Lemma constructor_accepts_inherited_names_witness :
  exists s,
    constructor Cases.inherited [] = inr s /\
    snd (buildOAuthUrl (Some "s1") "g" s) =
      inr "undefined?client_id=id&redirect_uri=http%3A%2F%2Fcb&response_type=id_token&scope=openid+email+profile&state=s1&response_mode=fragment&nonce=null".
Proof.
  destruct (constructor_accepts_inherited_names Cases.inherited [] "toString")
    as (s & E & _ & U);
    [ right; right; right; right; right; right; left; reflexivity
    | reflexivity | reflexivity | reflexivity | ].
  exists s. split; [exact E|].
  destruct (U (Some "s1") "g") as (q & Eq).
  vm_compute in E. injection E as <-.
  vm_compute in Eq. injection Eq as <-.
  vm_compute. reflexivity.
Defined.

(** X3. [reset] clears the eight fields that it names and nothing else:
    the configuration and the salt database stay, and so do [decodedJWT]
    and [userSalt], which it does not name.  After a reset [getState]
    returns (no token is left to decode) and reports [hasJWT] false with
    [hasDecodedJWT] as before the reset, [getUserSalt] still returns the
    old salt, and [processJWT] throws the precondition error. *)
Theorem reset_keeps_decoding_and_salt (sdk : Sdk) (s : ZkLogin) :
  let s' := fst (reset s) in
  snd (reset s) = inr tt
  /\ (ephemeralKeyPair s' = None /\ randomness s' = None /\ nonce s' = None /\
      maxEpoch s' = None /\ currentEpoch s' = None /\ jwt s' = None /\
      userAddress s' = None /\ zkLoginSignature s' = None)
  /\ (config s' = config s /\ saltDatabase s' = saltDatabase s /\
      decodedJWT s' = decodedJWT s /\ userSalt s' = userSalt s)
  /\ getUserSalt s' = (s', inr (userSalt s))
  /\ (exists snap,
        getState sdk s' = (s', inr snap) /\
        State.hasJWT snap = false /\
        State.jwtClaims snap = None /\
        State.hasDecodedJWT snap = truthy_object (decodedJWT s))
  /\ (forall (token : string) (o : SaltStore.Oracle),
        processJWT sdk token o s' =
          (s', inl "Failed to process JWT: JWT preparation not completed. Call prepareForJWT() first.")).
Proof.
  cbv zeta. unfold reset, getUserSalt. run.
  split; [reflexivity|]. split; [repeat split|]. split; [repeat split|].
  split; [reflexivity|]. split.
  - unfold getState. run. eexists. split; [reflexivity|]. repeat split.
  - intros token o. apply processJWT_unprepared. reflexivity.
Qed.

(** ** Keys and preparation *)

(** X4. With a supported scheme [generateEphemeralKeyPair] records a key
    pair of the matching class and returns the address of its public key,
    which [getEphemeralPublicKey] then reports; it writes no other field,
    so a key pair drawn after [prepareForJWT] leaves the randomness, the
    validity bound and the nonce of the earlier key in place. *)
Theorem generateEphemeralKeyPair_supported
    (sdk : Sdk) (fresh : KeyMaterial) (s : ZkLogin) (c : KeyClass) :
  (Config.keyScheme (config s) = "ED25519" /\ c = Ed25519) \/
  (Config.keyScheme (config s) = "Secp256k1" /\ c = Secp256k1) ->
  let address := toSuiAddress sdk {| pk_class := c; pk_bytes := km_public fresh |} in
  let s' := set_ephemeralKeyPair (Some (new_keypair c fresh)) s in
  generateEphemeralKeyPair sdk fresh s =
    (s', inr {| kp_success := true;
                kp_publicKey := address;
                kp_keyScheme := Config.keyScheme (config s) |})
  /\ getEphemeralPublicKey sdk s' = (s', inr (Some address))
  /\ randomness s' = randomness s
  /\ maxEpoch s' = maxEpoch s
  /\ nonce s' = nonce s.
Proof.
  intros H. cbv zeta. split; [|repeat split].
  assert (E : String.eqb (Config.keyScheme (config s)) "ED25519" = true /\ c = Ed25519
              \/ String.eqb (Config.keyScheme (config s)) "ED25519" = false /\
                 String.eqb (Config.keyScheme (config s)) "Secp256k1" = true /\
                 c = Secp256k1).
  { destruct H as [[H ->]|[H ->]]; rewrite H; [left|right]; repeat split. }
  unfold generateEphemeralKeyPair. run.
  destruct E as [[E ->]|(E1 & E2 & ->)].
  - rewrite E. reflexivity.
  - rewrite E1, E2. reflexivity.
Qed.

Lemma generateEphemeralKeyPair_supported_witness :
  snd (generateEphemeralKeyPair Sample.sdk Sample.material Sample.prepared) =
    inr {| kp_success := true; kp_publicKey := "0xcafe"; kp_keyScheme := "ED25519" |}
  /\ nonce (fst (generateEphemeralKeyPair Sample.sdk Sample.material Sample.prepared))
     = Some "hTPpgF7X".
Proof.
  destruct (generateEphemeralKeyPair_supported
              Sample.sdk Sample.material Sample.prepared Ed25519)
    as (E & _ & _ & _ & N); [left; split; reflexivity|].
  rewrite E. split; [reflexivity | exact N].
Defined.

Lemma prepareForJWT_without_keys (sdk : Sdk)
    (provider clientId redirectUrl : option string) (o : PrepareOracle)
    (s : ZkLogin) :
  ephemeralKeyPair s = None ->
  prepareForJWT sdk provider clientId redirectUrl o s =
    (s, inl "Failed to prepare for JWT: Ephemeral key pair not generated. Call generateEphemeralKeyPair() first.").
Proof. intros H. unfold prepareForJWT. run. rewrite H. reflexivity. Qed.

(** The state in which a stopped [prepareForJWT] leaves an instance that
    holds a key pair: only the configuration has been written. *)
Lemma prepareForJWT_stopped (sdk : Sdk)
    (provider clientId redirectUrl : option string) (o : PrepareOracle)
    (s : ZkLogin) (kp : KeyPair) (m : string) :
  ephemeralKeyPair s = Some kp ->
  prepare_guard provider clientId redirectUrl s = Some m ->
  fst (prepareForJWT sdk provider clientId redirectUrl o s) =
    set_config (merged provider clientId redirectUrl (config s)) s.
Proof.
  unfold prepare_guard, prepareForJWT. intros Hk H. rewrite Hk in H.
  unfold try_catch at 1. unfold bind at 1. unfold this at 1. rewrite Hk.
  unfold bind at 1.
  pose proof (overrides_run provider clientId redirectUrl s) as Ho.
  unfold bind at 1 in Ho.
  destruct (override provider Config.with_provider s) as [s1 [e|[]]] eqn:E1;
    [discriminate|].
  unfold bind at 1. unfold bind at 1 in Ho.
  destruct (override clientId Config.with_clientId s1) as [s2 [e|[]]] eqn:E2;
    [discriminate|].
  unfold bind at 1. rewrite Ho. run.
  destruct (Str.truthy (Config.clientId _)); simpl in *; [|reflexivity].
  destruct (Str.truthy (Config.provider _)); simpl in *; [|reflexivity].
  destruct (Str.truthy (Config.redirectUrl _)); simpl in *;
    [discriminate|reflexivity].
Qed.

(** X5. On an instance that a program can hold, [prepareForJWT] succeeds
    exactly when a key pair has been generated: without one it throws the
    precondition error and writes nothing, not even its arguments; with
    one it returns and leaves the randomness, both epochs and the nonce
    set. *)
Theorem prepareForJWT_needs_keys_only (sdk : Sdk)
    (provider clientId redirectUrl : option string) (o : PrepareOracle)
    (s : ZkLogin) :
  reachable sdk s ->
  (ephemeralKeyPair s = None ->
   prepareForJWT sdk provider clientId redirectUrl o s =
     (s, inl "Failed to prepare for JWT: Ephemeral key pair not generated. Call generateEphemeralKeyPair() first."))
  /\ (ephemeralKeyPair s <> None ->
      exists s' res,
        prepareForJWT sdk provider clientId redirectUrl o s = (s', inr res) /\
        pr_success res = true /\
        randomness s' <> None /\
        currentEpoch s' = Some (pr_currentEpoch res) /\
        maxEpoch s' = Some (pr_maxEpoch res) /\
        nonce s' = Some (pr_nonce res)).
Proof.
  intros Hreach. split.
  - apply prepareForJWT_without_keys.
  - intros Hk. destruct (ephemeralKeyPair s) as [kp|] eqn:E; [|congruence].
    pose proof (prepare_guard_configured provider clientId redirectUrl s kp E
                  (reachable_configured sdk s Hreach)) as G.
    destruct (prepareForJWT_runs sdk provider clientId redirectUrl o s G)
      as (kp' & _ & R).
    cbv zeta in R. eexists. eexists. split; [exact R|].
    simpl. repeat split. discriminate.
Qed.

Lemma reachable_keyed : reachable Sample.sdk Sample.keyed.
Proof.
  apply (reachable_step Sample.sdk Sample.created).
  - apply (reachable_new Sample.sdk Sample.raw_config []). reflexivity.
  - apply (step_generate Sample.sdk Sample.material Sample.created).
Qed.

Lemma reachable_created : reachable Sample.sdk Sample.created.
Proof. apply (reachable_new Sample.sdk Sample.raw_config []). reflexivity. Qed.

Lemma prepareForJWT_needs_keys_only_witness :
  snd (prepareForJWT Sample.sdk None None None Sample.online Sample.created) =
    inl "Failed to prepare for JWT: Ephemeral key pair not generated. Call generateEphemeralKeyPair() first."
  /\ exists s' res,
       prepareForJWT Sample.sdk None None None Sample.online Sample.keyed =
         (s', inr res) /\ nonce s' = Some (pr_nonce res).
Proof.
  split.
  - rewrite (proj1 (prepareForJWT_needs_keys_only Sample.sdk None None None
                      Sample.online Sample.created reachable_created) eq_refl).
    reflexivity.
  - destruct (proj2 (prepareForJWT_needs_keys_only Sample.sdk None None None
                       Sample.online Sample.keyed reachable_keyed))
      as (s' & res & E & _ & _ & _ & _ & N); [discriminate|].
    exists s', res. split; [exact E | exact N].
Defined.

Lemma merged_fields (provider clientId redirectUrl : option string)
    (c : Config.t) :
  let c' := merged provider clientId redirectUrl c in
  Config.provider c' = or_string provider (Config.provider c) /\
  Config.clientId c' = or_string clientId (Config.clientId c) /\
  Config.redirectUrl c' = or_string redirectUrl (Config.redirectUrl c) /\
  Config.suiRpcUrl c' = Config.suiRpcUrl c /\
  Config.keyScheme c' = Config.keyScheme c /\
  Config.oauthFlow c' = Config.oauthFlow c /\
  Config.maxEpoch c' = Config.maxEpoch c /\
  Config.userSalt c' = Config.userSalt c /\
  Config.useDatabase c' = Config.useDatabase c /\
  Config.dbPath c' = Config.dbPath c.
Proof.
  unfold merged.
  destruct provider as [p|]; [destruct (Str.truthy p) eqn:?|];
    (destruct clientId as [x|]; [destruct (Str.truthy x) eqn:?|]);
    (destruct redirectUrl as [r|]; [destruct (Str.truthy r) eqn:?|]);
    simpl; rewrite ?Heqb, ?Heqb0, ?Heqb1; repeat split.
Qed.

(** X6. The arguments of [prepareForJWT] replace the provider, the client
    id and the redirect URL of the configuration when they are given and
    not empty, and nothing checks the provider against [PROVIDERS]: a
    call with an unknown provider name succeeds on an instance that holds
    a key pair, and [buildOAuthUrl] then throws a [TypeError]. *)
Theorem prepareForJWT_overrides (sdk : Sdk)
    (provider clientId redirectUrl : option string) (o : PrepareOracle)
    (s : ZkLogin) (kp : KeyPair) :
  reachable sdk s ->
  ephemeralKeyPair s = Some kp ->
  exists s' res,
    prepareForJWT sdk provider clientId redirectUrl o s = (s', inr res) /\
    Config.provider (config s') = or_string provider (Config.provider (config s)) /\
    Config.clientId (config s') = or_string clientId (Config.clientId (config s)) /\
    Config.redirectUrl (config s') =
      or_string redirectUrl (Config.redirectUrl (config s)) /\
    (PROVIDERS (or_string provider (Config.provider (config s))) = Missing ->
     forall (sessionId : option string) (generated : string),
       buildOAuthUrl sessionId generated s' =
         (s', inl "Cannot read properties of undefined (reading 'authUrl')")).
Proof.
  intros Hreach Hk.
  pose proof (prepare_guard_configured provider clientId redirectUrl s kp Hk
                (reachable_configured sdk s Hreach)) as G.
  destruct (prepareForJWT_runs sdk provider clientId redirectUrl o s G)
    as (kp' & _ & R).
  cbv zeta in R.
  destruct (merged_fields provider clientId redirectUrl (config s))
    as (Fp & Fc & Fr & _).
  eexists. eexists. split; [exact R|]. simpl.
  split; [exact Fp|]. split; [exact Fc|]. split; [exact Fr|].
  intros Hm sessionId generated.
  apply buildOAuthUrl_unknown_provider. simpl. rewrite Fp. exact Hm.
Qed.

Lemma prepareForJWT_overrides_witness :
  exists s' res,
    prepareForJWT Sample.sdk (Some "github") (Some "") None Sample.online
                  Sample.keyed = (s', inr res) /\
    Config.provider (config s') = "github" /\
    Config.clientId (config s') = "test-client" /\
    snd (buildOAuthUrl None "g" s') =
      inl "Cannot read properties of undefined (reading 'authUrl')".
Proof.
  destruct (prepareForJWT_overrides Sample.sdk (Some "github") (Some "") None
              Sample.online Sample.keyed (new_keypair Ed25519 Sample.material)
              reachable_keyed eq_refl)
    as (s' & res & E & P & C & _ & B).
  exists s', res. split; [exact E|]. split; [exact P|]. split; [exact C|].
  rewrite (B eq_refl None "g"). reflexivity.
Defined.

(** X7. Whatever [prepareForJWT] returns or throws, it leaves the key
    pair, the stored token and its decoding, the derived address, the
    salt, the signature and the salt database as they were: preparing
    again does not discard what an earlier token left behind. *)
Theorem prepareForJWT_keeps_token_fields (sdk : Sdk)
    (provider clientId redirectUrl : option string) (o : PrepareOracle)
    (s : ZkLogin) :
  let s' := fst (prepareForJWT sdk provider clientId redirectUrl o s) in
  ephemeralKeyPair s' = ephemeralKeyPair s /\
  jwt s' = jwt s /\
  decodedJWT s' = decodedJWT s /\
  userAddress s' = userAddress s /\
  userSalt s' = userSalt s /\
  zkLoginSignature s' = zkLoginSignature s /\
  saltDatabase s' = saltDatabase s.
Proof.
  cbv zeta.
  destruct (ephemeralKeyPair s) as [kp|] eqn:Hk.
  - destruct (prepare_guard provider clientId redirectUrl s) as [m|] eqn:G.
    + rewrite (prepareForJWT_stopped sdk provider clientId redirectUrl o s kp m Hk G).
      simpl. rewrite Hk. repeat split.
    + destruct (prepareForJWT_runs sdk provider clientId redirectUrl o s G)
        as (kp' & _ & R).
      cbv zeta in R. rewrite R. simpl. rewrite Hk. repeat split.
  - rewrite (prepareForJWT_without_keys sdk provider clientId redirectUrl o s Hk).
    simpl. rewrite Hk. repeat split.
Qed.



(** ** The token codec *)

Lemma split_three (h p sg : string) :
  Str.free_of "." h = true -> Str.free_of "." p = true ->
  Str.free_of "." sg = true ->
  Str.split "." (h ++ "." ++ p ++ "." ++ sg) = [h; p; sg].
Proof.
  intros Hh Hp Hs.
  change (h ++ "." ++ p ++ "." ++ sg) with (Str.join "." [h; p; sg]).
  apply split_join; [discriminate|]. repeat constructor; assumption.
Qed.

(** X9. A decoded token keeps its three segments verbatim: joined with
    dots, the raw header, payload and signature of the result give the
    token back; the [signature] field is the third segment, and the
    header and the payload are what the first two segments parse to. *)
Theorem decodeJWT_raw_segments (sdk : Sdk) (token : string) (d : DecodedJWT) :
  decodeJWT sdk token = inr d ->
  token = raw_header (raw d) ++ "." ++ raw_payload (raw d) ++ "."
          ++ raw_signature (raw d)
  /\ signature d = raw_signature (raw d)
  /\ parse_base64_json sdk (raw_header (raw d)) = inr (header d)
  /\ parse_base64_json sdk (raw_payload (raw d)) = inr (payload d)
  /\ Str.free_of "." (raw_header (raw d)) = true
  /\ Str.free_of "." (raw_payload (raw d)) = true
  /\ Str.free_of "." (raw_signature (raw d)) = true.
Proof.
  unfold decodeJWT. intros Hd.
  pose proof (join_split "." token) as J.
  pose proof (split_segments_free "." token) as F.
  destruct (Str.split "." token) as [|h [|p [|sg [|x rest]]]]; simpl in Hd;
    try discriminate.
  destruct (parse_base64_json sdk h) as [m|hd] eqn:Eh; [discriminate|].
  destruct (parse_base64_json sdk p) as [m|pl] eqn:Ep; [discriminate|].
  injection Hd as <-. simpl.
  inversion F as [|? ? Fh F1]; subst. inversion F1 as [|? ? Fp F2]; subst.
  inversion F2 as [|? ? Fs _]; subst.
  split; [reflexivity|]. repeat split; assumption.
Qed.

Lemma decodeJWT_raw_segments_witness :
  exists d,
    decodeJWT Sample.sdk Sample.good_token = inr d /\
    Sample.good_token =
      raw_header (raw d) ++ "." ++ raw_payload (raw d) ++ "."
      ++ raw_signature (raw d) /\
    signature d = "c2ln".
Proof.
  eexists. split; [reflexivity|].
  destruct (decodeJWT_raw_segments Sample.sdk Sample.good_token _ eq_refl)
    as (J & S & _).
  split; [exact J | exact S].
Defined.

(** X10. [decodeJWT] throws ['Invalid JWT format'] for every token that
    does not have three segments; on three segments it parses the header,
    then the payload, and throws the message of the first that fails.  The
    third segment is returned as it is and never examined: no signature is
    checked. *)
Theorem decodeJWT_outcome (sdk : Sdk) (token : string) :
  (isValidJWT token = false ->
   decodeJWT sdk token = inl "Failed to decode JWT: Invalid JWT format")
  /\ (forall h p sg : string,
        Str.free_of "." h = true -> Str.free_of "." p = true ->
        Str.free_of "." sg = true ->
        token = h ++ "." ++ p ++ "." ++ sg ->
        decodeJWT sdk token =
          match parse_base64_json sdk h with
          | inl m => inl ("Failed to decode JWT: " ++ m)
          | inr header =>
              match parse_base64_json sdk p with
              | inl m => inl ("Failed to decode JWT: " ++ m)
              | inr payload =>
                  inr {| header := header; payload := payload;
                         signature := sg;
                         raw := {| raw_header := h; raw_payload := p;
                                   raw_signature := sg |} |}
              end
          end).
Proof.
  split.
  - unfold isValidJWT, decodeJWT. intros ->. reflexivity.
  - intros h p sg Hh Hp Hs ->. unfold decodeJWT.
    rewrite (split_three h p sg Hh Hp Hs). simpl.
    destruct (parse_base64_json sdk h); [reflexivity|].
    destruct (parse_base64_json sdk p); reflexivity.
Qed.

Lemma decodeJWT_outcome_witness :
  decodeJWT Sample.sdk "eyJh.eyJz" = inl "Failed to decode JWT: Invalid JWT format"
  /\ decodeJWT Sample.sdk (Sample.header_segment ++ "." ++ "" ++ "." ++ "c2ln") =
       inl "Failed to decode JWT: Unexpected end of JSON input"
  /\ (exists d,
        decodeJWT Sample.sdk
          (Sample.header_segment ++ "." ++ Sample.user123_segment ++ "." ++ "forged")
          = inr d /\
        payload d = Sample.claims "user123" "hTPpgF7X").
Proof.
  split; [|split].
  - apply (proj1 (decodeJWT_outcome Sample.sdk "eyJh.eyJz")). reflexivity.
  - rewrite (proj2 (decodeJWT_outcome Sample.sdk _)
               Sample.header_segment "" "c2ln" eq_refl eq_refl eq_refl eq_refl).
    reflexivity.
  - rewrite (proj2 (decodeJWT_outcome Sample.sdk _)
               Sample.header_segment Sample.user123_segment "forged"
               eq_refl eq_refl eq_refl eq_refl).
    eexists. split; reflexivity.
Defined.

(** X11. [extractSubFromJWT] reads the second dot-separated segment and
    nothing else: neither the number of segments nor the other segments
    matter, so that it accepts tokens of two, four or more segments, which
    [isValidJWT] rejects.  It throws when there is no second segment, when
    the segment does not parse, when the payload is [null], and when the
    payload's [sub] is falsy; a payload that is a JSON string always has a
    truthy [sub], the method that strings inherit. *)
Theorem extractSubFromJWT_second_segment
    (sdk : Sdk) (token : string) (segs : list string) :
  segs <> [] ->
  Forall (fun x => Str.free_of "." x = true) segs ->
  token = Str.join "." segs ->
  extractSubFromJWT sdk token =
    match segs with
    | _ :: segment :: _ =>
        match parse_base64_json sdk segment with
        | inl m => inl ("Failed to extract subject from JWT: " ++ m)
        | inr JNull =>
            inl "Failed to extract subject from JWT: Cannot read properties of null (reading 'sub')"
        | inr (JStr _) => inr (VNative "sub")
        | inr (JObj props) =>
            match Js.own props "sub" with
            | Some j =>
                if Js.truthy (VJson j) then inr (VJson j)
                else inl "Failed to extract subject from JWT: JWT token missing subject (sub) claim"
            | None =>
                inl "Failed to extract subject from JWT: JWT token missing subject (sub) claim"
            end
        | inr _ =>
            inl "Failed to extract subject from JWT: JWT token missing subject (sub) claim"
        end
    | _ =>
        inl "Failed to extract subject from JWT: The first argument must be of type string or an instance of Buffer, ArrayBuffer, or Array or an Array-like Object. Received undefined"
    end.
Proof.
  intros Hne Hall ->. unfold extractSubFromJWT.
  rewrite (split_join "." segs Hne Hall).
  destruct segs as [|a [|segment rest]]; [congruence|reflexivity|].
  simpl.
  destruct (parse_base64_json sdk segment) as [m|pl]; [reflexivity|].
  destruct pl as [|b|r|str|items|props]; simpl; try reflexivity.
  destruct (Js.own props "sub") as [j|]; [|reflexivity].
  destruct j as [|[]|r|[|c s]|items|ps]; simpl; try reflexivity.
  destruct (String.eqb r "0"); reflexivity.
Qed.

Lemma extractSubFromJWT_second_segment_witness :
  isValidJWT ("x." ++ Sample.user123_segment) = false
  /\ extractSubFromJWT Sample.sdk ("x." ++ Sample.user123_segment) =
       inr (VJson (JStr "user123"))
  /\ isValidJWT ("a." ++ Sample.user456_segment ++ ".b.c.d") = false
  /\ extractSubFromJWT Sample.sdk ("a." ++ Sample.user456_segment ++ ".b.c.d") =
       inr (VJson (JStr "user456"))
  /\ extractSubFromJWT Sample.sdk "eyJh" =
       inl "Failed to extract subject from JWT: The first argument must be of type string or an instance of Buffer, ArrayBuffer, or Array or an Array-like Object. Received undefined".
Proof.
  split; [reflexivity|]. split; [|split; [reflexivity|split]].
  - rewrite (extractSubFromJWT_second_segment Sample.sdk _
               ["x"; Sample.user123_segment]);
      [reflexivity | discriminate | repeat constructor | reflexivity].
  - rewrite (extractSubFromJWT_second_segment Sample.sdk _
               ["a"; Sample.user456_segment; "b"; "c"; "d"]);
      [reflexivity | discriminate | repeat constructor | reflexivity].
  - rewrite (extractSubFromJWT_second_segment Sample.sdk _ ["eyJh"]);
      [reflexivity | discriminate | repeat constructor | reflexivity].
Defined.

(** ** More on processing a token *)

Lemma resolve_salt_writes_database (sdk : Sdk) (subject : jsval) (o : SaltStore.Oracle)
    (s : ZkLogin) :
  let s' := fst (resolve_salt sdk subject o s) in
  s' = set_saltDatabase (saltDatabase s') s.
Proof.
  unfold resolve_salt. run.
  destruct (Config.useDatabase (config s)); [|destruct s; reflexivity].
  destruct (saltDatabase s) as [db|] eqn:E; [|destruct s; simpl in *; now subst].
  destruct (SaltStore.getOrCreateUserSalt _ _ _ _ _) as [m|[salt db']]; simpl.
  - destruct s; simpl in *; now subst.
  - destruct (Js.to_string subject); reflexivity.
Qed.

(** Every exit of [processJWT] on a prepared session and a token of three
    segments, with the instance it leaves. *)
Lemma processJWT_trace (sdk : Sdk) (token : string) (o : SaltStore.Oracle)
    (s : ZkLogin) :
  truthy_bigint (randomness s) = true ->
  truthy_string (nonce s) = true ->
  isValidJWT token = true ->
  let s1 := set_jwt (Some token) s in
  match decodeJWT sdk token with
  | inl m => processJWT sdk token o s = (s1, inl ("Failed to process JWT: " ++ m))
  | inr d =>
      let s2 := set_decodedJWT (Some d) s1 in
      match Js.get (payload d) c_nonce with
      | inl m => processJWT sdk token o s = (s2, inl ("Failed to process JWT: " ++ m))
      | inr got =>
          if negb (strict_eq_field got (nonce s)) then
            processJWT sdk token o s =
              (s2, inl ("Failed to process JWT: "
                        ++ match Js.to_string got with
                           | inr text =>
                               "Nonce mismatch: expected "
                               ++ render_field (nonce s) ++ ", got " ++ text
                           | inl msg => msg
                           end))
          else
            match extractSubFromJWT sdk token with
            | inl m =>
                processJWT sdk token o s = (s2, inl ("Failed to process JWT: " ++ m))
            | inr subject =>
                let s3 := fst (resolve_salt sdk subject o s2) in
                match snd (resolve_salt sdk subject o s2) with
                | inl m =>
                    processJWT sdk token o s =
                      (s3, inl ("Failed to process JWT: " ++ m))
                | inr salt =>
                    let s4 := set_userSalt (Some salt) s3 in
                    match snd (derive_address sdk token salt s) with
                    | inl m =>
                        processJWT sdk token o s =
                          (s4, inl ("Failed to process JWT: " ++ m))
                    | inr address =>
                        processJWT sdk token o s =
                          (set_userAddress (Some address) s4,
                           inr {| pj_success := true; pj_jwt := token;
                                  pj_userAddress := Some address;
                                  pj_subject := subject; pj_userSalt := salt;
                                  pj_decodedJWT := Some d |})
                    end
                end
            end
      end
  end.
Proof.
  intros Hr Hn Hv. cbv zeta.
  unfold processJWT. run. rewrite Hr, Hn. simpl. rewrite Hv. simpl.
  destruct (decodeJWT sdk token) as [m|d]; simpl; [reflexivity|].
  destruct (Js.get (payload d) c_nonce) as [m|got]; simpl; [reflexivity|].
  destruct (strict_eq_field got (nonce s)); simpl;
    [|destruct (Js.to_string got); reflexivity].
  destruct (extractSubFromJWT sdk token) as [m|subject]; simpl; [reflexivity|].
  set (s2 := set_decodedJWT (Some d) (set_jwt (Some token) s)).
  destruct (resolve_salt_frame sdk subject o s2) as (_ & _ & Fd & _).
  destruct (resolve_salt sdk subject o s2) as [s3 [m|salt]]; simpl in *; [reflexivity|].
  rewrite (derive_address_pure sdk token salt (set_userSalt (Some salt) s3) s).
  destruct (snd (derive_address sdk token salt s)) as [m|address]; simpl;
    [reflexivity|].
  rewrite Fd. reflexivity.
Qed.

Lemma processJWT_malformed (sdk : Sdk) (token : string) (o : SaltStore.Oracle)
    (s : ZkLogin) :
  truthy_bigint (randomness s) = true ->
  truthy_string (nonce s) = true ->
  isValidJWT token = false ->
  processJWT sdk token o s =
    (s, inl "Failed to process JWT: Invalid JWT token format").
Proof.
  intros Hr Hn Hv. unfold processJWT. run. rewrite Hr, Hn. simpl.
  rewrite Hv. reflexivity.
Qed.

(** What [processJWT] can do to an instance: nothing, or store the token
    and then some of the decoding, the salt database, the salt and the
    address, in this order. *)
Lemma processJWT_writes (sdk : Sdk) (token : string) (o : SaltStore.Oracle)
    (s : ZkLogin) :
  let s' := fst (processJWT sdk token o s) in
  s' = s \/
  exists dj db us ua,
    s' = set_userAddress ua (set_userSalt us (set_saltDatabase db
           (set_decodedJWT dj (set_jwt (Some token) s)))) /\
    truthy_bigint (randomness s) = true /\
    truthy_string (nonce s) = true /\
    isValidJWT token = true.
Proof.
  cbv zeta.
  destruct (truthy_bigint (randomness s) && truthy_string (nonce s)) eqn:G.
  2:{ left. now rewrite (processJWT_unprepared sdk token o s G). }
  apply andb_true_iff in G as [Hr Hn].
  destruct (isValidJWT token) eqn:Hv.
  2:{ left. now rewrite (processJWT_malformed sdk token o s Hr Hn Hv). }
  right.
  pose proof (processJWT_trace sdk token o s Hr Hn Hv) as T. cbv zeta in T.
  destruct (decodeJWT sdk token) as [m|d].
  { rewrite T.
    exists (decodedJWT s), (saltDatabase s), (userSalt s), (userAddress s).
    repeat split; assumption. }
  destruct (Js.get (payload d) c_nonce) as [m|got].
  { rewrite T.
    exists (Some d), (saltDatabase s), (userSalt s), (userAddress s).
    repeat split; assumption. }
  destruct (negb (strict_eq_field got (nonce s))).
  { rewrite T.
    exists (Some d), (saltDatabase s), (userSalt s), (userAddress s).
    repeat split; assumption. }
  destruct (extractSubFromJWT sdk token) as [m|subject].
  { rewrite T.
    exists (Some d), (saltDatabase s), (userSalt s), (userAddress s).
    repeat split; assumption. }
  pose proof (resolve_salt_writes_database sdk subject o
                (set_decodedJWT (Some d) (set_jwt (Some token) s))) as W.
  cbv zeta in W.
  set (s3 := fst (resolve_salt sdk subject o
                    (set_decodedJWT (Some d) (set_jwt (Some token) s)))) in *.
  destruct (snd (resolve_salt sdk subject o
                   (set_decodedJWT (Some d) (set_jwt (Some token) s))))
    as [m|salt].
  { rewrite T.
    exists (Some d), (saltDatabase s3), (userSalt s), (userAddress s).
    split; [rewrite W at 1; reflexivity|]. repeat split; assumption. }
  destruct (snd (derive_address sdk token salt s)) as [m|address].
  { rewrite T.
    exists (Some d), (saltDatabase s3), (Some salt), (userAddress s).
    split; [simpl fst; rewrite W at 1; reflexivity|]. repeat split; assumption. }
  rewrite T.
  exists (Some d), (saltDatabase s3), (Some salt), (Some address).
  split; [simpl fst; rewrite W at 1; reflexivity|]. repeat split; assumption.
Qed.

(** X12. On a prepared session [processJWT] stores the token exactly when
    it has three segments: a token of any other shape is refused with
    ['Invalid JWT token format'] and the instance is untouched, and a
    token of three segments is in [jwt] when the call ends, whether it
    returns or throws. *)
Theorem processJWT_stores_wellformed_tokens (sdk : Sdk) (token : string)
    (o : SaltStore.Oracle) (s : ZkLogin) :
  truthy_bigint (randomness s) = true ->
  truthy_string (nonce s) = true ->
  (isValidJWT token = false ->
   processJWT sdk token o s =
     (s, inl "Failed to process JWT: Invalid JWT token format"))
  /\ (isValidJWT token = true ->
      jwt (fst (processJWT sdk token o s)) = Some token).
Proof.
  intros Hr Hn. split.
  - apply processJWT_malformed; assumption.
  - intros Hv.
    pose proof (processJWT_trace sdk token o s Hr Hn Hv) as T. cbv zeta in T.
    destruct (decodeJWT sdk token) as [m|d]; [rewrite T; reflexivity|].
    destruct (Js.get (payload d) c_nonce) as [m|got]; [rewrite T; reflexivity|].
    destruct (negb (strict_eq_field got (nonce s))); [rewrite T; reflexivity|].
    destruct (extractSubFromJWT sdk token) as [m|subject];
      [rewrite T; reflexivity|].
    destruct (resolve_salt_frame sdk subject o
                (set_decodedJWT (Some d) (set_jwt (Some token) s)))
      as (_ & Fj & _).
    destruct (snd (resolve_salt sdk subject o _)) as [m|salt];
      [rewrite T; exact Fj|].
    destruct (snd (derive_address sdk token salt s)); rewrite T; exact Fj.
Qed.

Lemma processJWT_stores_wellformed_tokens_witness :
  processJWT Sample.sdk "eyJh.eyJz" Sample.store Sample.prepared =
    (Sample.prepared, inl "Failed to process JWT: Invalid JWT token format")
  /\ jwt (fst (processJWT Sample.sdk Sample.stale_token Sample.store Sample.prepared))
     = Some Sample.stale_token.
Proof.
  destruct (processJWT_stores_wellformed_tokens Sample.sdk "eyJh.eyJz"
              Sample.store Sample.prepared eq_refl eq_refl) as [A _].
  destruct (processJWT_stores_wellformed_tokens Sample.sdk Sample.stale_token
              Sample.store Sample.prepared eq_refl eq_refl) as [_ B].
  split; [exact (A eq_refl) | exact (B eq_refl)].
Defined.

(** X13. A token of three segments that does not decode is stored all the
    same: [processJWT] throws the decoding error, [jwt] is the bad token
    while [decodedJWT], the salt and the address stay as they were, and
    from then on [getState] and [getJWTClaims] throw that decoding error
    instead of returning. *)
Theorem processJWT_undecodable_token (sdk : Sdk) (token : string)
    (o : SaltStore.Oracle) (s : ZkLogin) (m : string) :
  truthy_bigint (randomness s) = true ->
  truthy_string (nonce s) = true ->
  isValidJWT token = true ->
  decodeJWT sdk token = inl m ->
  let s' := set_jwt (Some token) s in
  processJWT sdk token o s = (s', inl ("Failed to process JWT: " ++ m))
  /\ getState sdk s' = (s', inl m)
  /\ getJWTClaims sdk s' = (s', inl m).
Proof.
  intros Hr Hn Hv Hd. cbv zeta.
  pose proof (processJWT_trace sdk token o s Hr Hn Hv) as T. cbv zeta in T.
  rewrite Hd in T.
  pose proof (isValidJWT_truthy token Hv) as Ht.
  split; [exact T|].
  assert (C : getJWTClaims sdk (set_jwt (Some token) s) =
              (set_jwt (Some token) s, inl m)).
  { unfold getJWTClaims. run. rewrite Ht. simpl. rewrite Hd. reflexivity. }
  split; [|exact C].
  unfold getState. run. rewrite Ht. rewrite C. reflexivity.
Qed.

Lemma processJWT_undecodable_token_witness :
  let token := Sample.header_segment ++ "." ++ "" ++ "." ++ "c2ln" in
  let s' := set_jwt (Some token) Sample.prepared in
  processJWT Sample.sdk token Sample.store Sample.prepared =
    (s', inl "Failed to process JWT: Failed to decode JWT: Unexpected end of JSON input")
  /\ snd (getState Sample.sdk s') =
       inl "Failed to decode JWT: Unexpected end of JSON input".
Proof.
  cbv zeta.
  destruct (processJWT_undecodable_token Sample.sdk
              (Sample.header_segment ++ "." ++ "" ++ "." ++ "c2ln")
              Sample.store Sample.prepared
              "Failed to decode JWT: Unexpected end of JSON input"
              eq_refl eq_refl eq_refl eq_refl) as (P & G & _).
  split; [exact P|]. cbv zeta in G. rewrite G. reflexivity.
Defined.

(** X14. After the token and its decoding are stored, [processJWT] still
    rejects a payload that is [null] (the read of its nonce throws) and a
    payload whose nonce matches but whose [sub] is missing or falsy; in
    both cases the token and the decoding stay on the session and the
    salt, the address and the salt database are not written. *)
Theorem processJWT_rejects_after_storing (sdk : Sdk) (token : string)
    (o : SaltStore.Oracle) (s : ZkLogin) (d : DecodedJWT) :
  truthy_bigint (randomness s) = true ->
  truthy_string (nonce s) = true ->
  decodeJWT sdk token = inr d ->
  let s' := set_decodedJWT (Some d) (set_jwt (Some token) s) in
  (payload d = JNull ->
   processJWT sdk token o s =
     (s', inl "Failed to process JWT: Cannot read properties of null (reading 'nonce')"))
  /\ (forall got sub : jsval,
        Js.get (payload d) c_nonce = inr got ->
        strict_eq_field got (nonce s) = true ->
        Js.get (payload d) c_sub = inr sub ->
        Js.truthy sub = false ->
        processJWT sdk token o s =
          (s', inl "Failed to process JWT: Failed to extract subject from JWT: JWT token missing subject (sub) claim"))
  /\ userSalt s' = userSalt s
  /\ userAddress s' = userAddress s
  /\ saltDatabase s' = saltDatabase s.
Proof.
  intros Hr Hn Hd. cbv zeta.
  pose proof (decodeJWT_valid sdk token d Hd) as Hv.
  pose proof (processJWT_trace sdk token o s Hr Hn Hv) as T. cbv zeta in T.
  rewrite Hd in T.
  split; [|split; [|repeat split]].
  - intros Hp. rewrite Hp in T. exact T.
  - intros got sub Hg He Hs Hf. rewrite Hg, He in T. simpl in T.
    rewrite (extractSubFromJWT_decoded sdk token d sub Hd Hs), Hf in T.
    exact T.
Qed.

Lemma processJWT_rejects_after_storing_witness :
  snd (processJWT Sample.sdk
         (Sample.header_segment ++ "." ++ Sample.null_segment ++ "." ++ "c2ln")
         Sample.store Sample.prepared) =
    inl "Failed to process JWT: Cannot read properties of null (reading 'nonce')".
Proof.
  destruct (processJWT_rejects_after_storing Sample.sdk
              (Sample.header_segment ++ "." ++ Sample.null_segment ++ "." ++ "c2ln")
              Sample.store Sample.prepared
              {| header := JObj [("alg", JStr "RS256"); ("typ", JStr "JWT")];
                 payload := JNull;
                 signature := "c2ln";
                 raw := {| raw_header := Sample.header_segment;
                           raw_payload := Sample.null_segment;
                           raw_signature := "c2ln" |} |}
              eq_refl eq_refl eq_refl) as (N & _).
  rewrite (N eq_refl). reflexivity.
Defined.

(** X15. Whatever the token and the outcome, [processJWT] never writes
    the configuration, the key pair, the randomness, the nonce, the epochs
    or the signature: the fields that bind the session are out of the
    reach of a token. *)
Theorem processJWT_keeps_binding (sdk : Sdk) (token : string)
    (o : SaltStore.Oracle) (s : ZkLogin) :
  let s' := fst (processJWT sdk token o s) in
  config s' = config s /\
  ephemeralKeyPair s' = ephemeralKeyPair s /\
  randomness s' = randomness s /\
  nonce s' = nonce s /\
  currentEpoch s' = currentEpoch s /\
  maxEpoch s' = maxEpoch s /\
  zkLoginSignature s' = zkLoginSignature s.
Proof.
  cbv zeta.
  destruct (processJWT_writes sdk token o s) as [->|(dj & db & us & ua & -> & _)];
    repeat split.
Qed.

Lemma Js_get_defined (v : json) (c : Claim) :
  v <> JNull -> exists x, Js.get v c = inr x.
Proof. destruct v; try congruence; intros _; simpl; eexists; reflexivity. Qed.

Lemma Js_get_not_null (v : json) (c : Claim) (x : jsval) :
  Js.get v c = inr x -> v <> JNull.
Proof. intros H ->. discriminate. Qed.

(** What an accepted token says: its decoding, its nonce, which is the
    nonce of the session, and its subject. *)
Lemma processJWT_accepted (sdk : Sdk) (token : string)
    (o : SaltStore.Oracle) (s s' : ZkLogin) (r : ProcessResult) :
  processJWT sdk token o s = (s', inr r) ->
  exists d n,
    decodeJWT sdk token = inr d /\
    jwt s' = Some token /\
    pj_decodedJWT r = Some d /\
    nonce s' = Some n /\
    Js.get (payload d) c_nonce = inr (VJson (JStr n)) /\
    Js.get (payload d) c_sub = inr (pj_subject r) /\
    Js.truthy (pj_subject r) = true.
Proof.
  intros E.
  destruct (processJWT_returns sdk token o s s' r E)
    as (d & got & subject & salt & address & Hr & Hn & Hd & Hg & He & Hs & Hsalt & Ha).
  destruct (processJWT_success sdk token o s d got subject salt address
              Hr Hn Hd Hg He Hs Hsalt Ha)
    as (s'' & E' & Ua & Us & Uj & Ud & Uc).
  rewrite E in E'. injection E' as -> ->.
  destruct (nonce s) as [n|] eqn:En; [|discriminate].
  assert (Hgot : got = VJson (JStr n)).
  { simpl in He. destruct got as [|[]|]; try discriminate.
    simpl in He. apply String.eqb_eq in He. now subst. }
  destruct (Js_get_defined (payload d) c_sub (Js_get_not_null _ _ _ Hg))
    as (v & Hv).
  pose proof (extractSubFromJWT_decoded sdk token d v Hd Hv) as X.
  rewrite Hs in X.
  destruct (Js.truthy v) eqn:Tv; [|discriminate]. injection X as ->.
  assert (Nn : nonce s'' = nonce s).
  { destruct (processJWT_writes sdk token o s)
      as [W|(dj & db & us & ua & W & _)];
      rewrite E in W; simpl in W; rewrite W; reflexivity. }
  exists d, n. simpl. rewrite Nn, En, <- Hgot.
  repeat split; assumption.
Qed.

(** X16. When [processJWT] returns, the result and the session agree: the
    session holds the token, its decoding, the salt and the address that
    the result reports; the nonce of the payload is the nonce of the
    session, and the subject returned is the payload's [sub]. *)
Theorem processJWT_result_matches_session (sdk : Sdk) (token : string)
    (o : SaltStore.Oracle) (s s' : ZkLogin) (r : ProcessResult) :
  processJWT sdk token o s = (s', inr r) ->
  exists d n address,
    decodeJWT sdk token = inr d /\
    pj_success r = true /\
    pj_jwt r = token /\ jwt s' = Some token /\
    pj_decodedJWT r = Some d /\ decodedJWT s' = Some d /\
    userSalt s' = Some (pj_userSalt r) /\
    pj_userAddress r = Some address /\ userAddress s' = Some address /\
    nonce s' = Some n /\
    Js.get (payload d) c_nonce = inr (VJson (JStr n)) /\
    Js.get (payload d) c_sub = inr (pj_subject r) /\
    Js.truthy (pj_subject r) = true.
Proof.
  intros E.
  destruct (processJWT_accepted sdk token o s s' r E)
    as (d & n & Hd & Hj & Hpd & Hn & Hg & Hs & Ht).
  destruct (processJWT_returns sdk token o s s' r E)
    as (d' & got & subject & salt & address & Hr & Hn' & Hd' & Hg' & He & Hs'
        & Hsalt & Ha).
  destruct (processJWT_success sdk token o s d' got subject salt address
              Hr Hn' Hd' Hg' He Hs' Hsalt Ha)
    as (s'' & E' & Ua & Us & Uj & Ud & Uc).
  rewrite E in E'. injection E' as -> ->.
  rewrite Hd in Hd'. injection Hd' as <-.
  exists d, n, address. simpl in *.
  repeat split; assumption.
Qed.

Lemma processJWT_result_matches_session_witness :
  exists s' r,
    processJWT Sample.sdk Sample.good_token Sample.store Sample.prepared =
      (s', inr r) /\
    jwt s' = Some Sample.good_token /\
    userAddress s' = pj_userAddress r /\
    userSalt s' = Some (pj_userSalt r).
Proof.
  let run := eval vm_compute in
      (processJWT Sample.sdk Sample.good_token Sample.store Sample.prepared) in
  match run with
  | (?s', inr ?r) =>
      assert (E : processJWT Sample.sdk Sample.good_token Sample.store
                    Sample.prepared = (s', inr r))
        by (vm_compute; reflexivity);
      destruct (processJWT_result_matches_session Sample.sdk Sample.good_token
                  Sample.store Sample.prepared s' r E)
        as (d & n & a & _ & _ & _ & J & _ & _ & U & Pa & Ua & _);
      exists s', r
  end.
  split; [exact E|]. split; [exact J|]. split; [|exact U].
  rewrite Pa. exact Ua.
Defined.

Lemma decodeJWT_rejoin (sdk : Sdk) (token : string) (d : DecodedJWT) :
  decodeJWT sdk token = inr d ->
  token = raw_header (raw d) ++ "." ++ raw_payload (raw d) ++ "."
          ++ raw_signature (raw d).
Proof.
  unfold decodeJWT. intros Hd.
  pose proof (join_split "." token) as J.
  destruct (Str.split "." token) as [|h [|p [|sg [|x rest]]]]; simpl in Hd;
    try discriminate.
  destruct (parse_base64_json sdk h) as [m|hd]; [discriminate|].
  destruct (parse_base64_json sdk p) as [m|pl]; [discriminate|].
  injection Hd as <-. simpl. symmetry. exact J.
Qed.

(** X17. After [processJWT] has returned, [getJWTClaims] reads the stored
    token again: when its header did not decode to [null] the claims
    returned carry the subject that [processJWT] returned and the nonce of
    the session, and their raw parts joined with dots are the token; when
    the header decoded to [null], which [processJWT] never looks at,
    [getJWTClaims] throws. *)
Theorem getJWTClaims_after_processJWT (sdk : Sdk) (token : string)
    (o : SaltStore.Oracle) (s s' : ZkLogin) (r : ProcessResult)
    (d : DecodedJWT) :
  processJWT sdk token o s = (s', inr r) ->
  decodeJWT sdk token = inr d ->
  (header d <> JNull ->
   exists c n,
     getJWTClaims sdk s' = (s', inr c) /\
     sub c = pj_subject r /\
     nonce s' = Some n /\
     claim_nonce c = VJson (JStr n) /\
     rawHeader c ++ "." ++ rawPayload c ++ "." ++ rawSignature c = token)
  /\ (header d = JNull ->
      getJWTClaims sdk s' =
        (s', inl "Cannot read properties of null (reading 'alg')")).
Proof.
  intros E Hd.
  destruct (processJWT_accepted sdk token o s s' r E)
    as (d' & n & Hd' & Hj & _ & Hn & Hg & Hs & _).
  rewrite Hd in Hd'. injection Hd' as <-.
  pose proof (isValidJWT_truthy token (decodeJWT_valid sdk token d Hd)) as Ht.
  pose proof (decodeJWT_rejoin sdk token d Hd) as J.
  pose proof (Js_get_not_null _ _ _ Hg) as Hp.
  unfold getJWTClaims. run. rewrite Hj. simpl. rewrite Ht. simpl.
  rewrite Hd. simpl. rewrite Hg, Hs.
  split.
  - intros Hh.
    destruct (header d); try congruence;
      destruct (payload d); try congruence; simpl;
      eexists; exists n;
      (split; [reflexivity|]); simpl;
      (split; [reflexivity|split; [exact Hn|split; [reflexivity|]]]);
      symmetry; exact J.
  - intros ->. reflexivity.
Qed.

Lemma getJWTClaims_after_processJWT_witness :
  exists s' c,
    getJWTClaims Sample.sdk s' = (s', inr c) /\
    rawHeader c ++ "." ++ rawPayload c ++ "." ++ rawSignature c =
      Sample.good_token.
Proof.
  let run := eval vm_compute in
      (processJWT Sample.sdk Sample.good_token Sample.store Sample.prepared) in
  let dec := eval vm_compute in (decodeJWT Sample.sdk Sample.good_token) in
  match run with
  | (?s', inr ?r) =>
    match dec with
    | inr ?d =>
      assert (E : processJWT Sample.sdk Sample.good_token Sample.store
                    Sample.prepared = (s', inr r))
        by (vm_compute; reflexivity);
      assert (D : decodeJWT Sample.sdk Sample.good_token = inr d)
        by (vm_compute; reflexivity);
      destruct (getJWTClaims_after_processJWT Sample.sdk Sample.good_token
                  Sample.store Sample.prepared s' r d E D) as [Ok _];
      destruct Ok as (c & n & G & _ & _ & _ & J); [simpl; discriminate|];
      exists s', c
    end
  end.
  split; [exact G | exact J].
Defined.

(** ** Signing *)

Lemma generateZkLoginSignature_run (sdk : Sdk) (transactionBytes zkProof : string)
    (s : ZkLogin) :
  generateZkLoginSignature sdk transactionBytes zkProof s =
    match ephemeralKeyPair s with
    | Some kp =>
        if truthy_string (jwt s) then
          match signTransaction sdk kp transactionBytes with
          | inl m => (s, inl ("Failed to generate zkLogin signature: " ++ m))
          | inr userSignature =>
              match getZkLoginSignature sdk zkProof (maxEpoch s) userSignature with
              | inl m => (s, inl ("Failed to generate zkLogin signature: " ++ m))
              | inr zk => (set_zkLoginSignature (Some zk) s, inr zk)
              end
          end
        else (s, inl "Failed to generate zkLogin signature: zkLogin setup not completed")
    | None =>
        (s, inl "Failed to generate zkLogin signature: zkLogin setup not completed")
    end.
Proof.
  unfold generateZkLoginSignature. run.
  destruct (ephemeralKeyPair s) as [kp|]; [|reflexivity].
  destruct (truthy_string (jwt s)); simpl; [|reflexivity].
  destruct (signTransaction sdk kp transactionBytes) as [m|us]; simpl;
    [reflexivity|].
  destruct (getZkLoginSignature sdk zkProof (maxEpoch s) us); reflexivity.
Qed.

(** X18. [generateZkLoginSignature] asks for a key pair and a stored token
    and for nothing else: without one of them it throws ['zkLogin setup
    not completed'].  Every failure has the prefix of the method and
    leaves the instance, with the signature of an earlier call, as it
    was.  A signature that is returned is the one stored in
    [zkLoginSignature]; it was assembled from the proof, the session's
    [maxEpoch] and the signature of the ephemeral key over the bytes. *)
Theorem generateZkLoginSignature_outcome (sdk : Sdk)
    (transactionBytes zkProof : string) (s s' : ZkLogin) (out : string + string) :
  generateZkLoginSignature sdk transactionBytes zkProof s = (s', out) ->
  match out with
  | inl m =>
      s' = s /\
      exists why, m = "Failed to generate zkLogin signature: " ++ why
  | inr zk =>
      s' = set_zkLoginSignature (Some zk) s /\
      exists kp userSignature,
        ephemeralKeyPair s = Some kp /\
        truthy_string (jwt s) = true /\
        signTransaction sdk kp transactionBytes = inr userSignature /\
        getZkLoginSignature sdk zkProof (maxEpoch s) userSignature = inr zk
  end
  /\ (ephemeralKeyPair s = None \/ truthy_string (jwt s) = false ->
      out = inl "Failed to generate zkLogin signature: zkLogin setup not completed").
Proof.
  rewrite generateZkLoginSignature_run. intros E.
  destruct (ephemeralKeyPair s) as [kp|].
  2:{ injection E as <- <-. split; [split; [reflexivity|eexists; reflexivity]|].
      reflexivity. }
  destruct (truthy_string (jwt s)) eqn:J.
  2:{ injection E as <- <-. split; [split; [reflexivity|eexists; reflexivity]|].
      reflexivity. }
  assert (G : forall o : string + string,
            None = Some kp \/ true = false -> out = o)
    by (intros o [X|X]; discriminate).
  destruct (signTransaction sdk kp transactionBytes) as [m|us] eqn:Es.
  { injection E as <- <-. split; [split; [reflexivity|eexists; reflexivity]|].
    intros [X|X]; discriminate. }
  destruct (getZkLoginSignature sdk zkProof (maxEpoch s) us) as [m|zk] eqn:Ez.
  { injection E as <- <-. split; [split; [reflexivity|eexists; reflexivity]|].
    intros [X|X]; discriminate. }
  injection E as <- <-. split.
  - split; [reflexivity|]. exists kp, us. repeat split; assumption.
  - intros [X|X]; discriminate.
Qed.

Lemma generateZkLoginSignature_outcome_witness :
  exists s' : ZkLogin,
    generateZkLoginSignature Sample.sdk "bytes" "proof" Sample.prepared =
      (s', inl "Failed to generate zkLogin signature: zkLogin setup not completed")
    /\ s' = Sample.prepared.
Proof.
  exists Sample.prepared.
  assert (E : generateZkLoginSignature Sample.sdk "bytes" "proof" Sample.prepared
              = (Sample.prepared,
                 inl "Failed to generate zkLogin signature: zkLogin setup not completed"))
    by (vm_compute; reflexivity).
  split; [exact E|].
  destruct (generateZkLoginSignature_outcome Sample.sdk "bytes" "proof"
              Sample.prepared Sample.prepared _ E) as [[_ _] _].
  reflexivity.
Defined.

(** X19. A token that [processJWT] rejects for its nonce opens signing:
    before the call, with no token stored, [generateZkLoginSignature]
    refuses with ['zkLogin setup not completed']; after the call has
    thrown at the nonce test (['Nonce mismatch'], or the [TypeError] of
    a nonce that cannot be rendered for that message), the same request
    passes the guard and returns whatever the key and the SDK sign. *)
Theorem processJWT_rejected_token_signs (sdk : Sdk) (token : string)
    (o : SaltStore.Oracle) (s : ZkLogin) (d : DecodedJWT) (got : jsval)
    (kp : KeyPair) (transactionBytes zkProof userSignature zk : string) :
  truthy_bigint (randomness s) = true ->
  truthy_string (nonce s) = true ->
  ephemeralKeyPair s = Some kp ->
  jwt s = None ->
  decodeJWT sdk token = inr d ->
  Js.get (payload d) c_nonce = inr got ->
  strict_eq_field got (nonce s) = false ->
  signTransaction sdk kp transactionBytes = inr userSignature ->
  getZkLoginSignature sdk zkProof (maxEpoch s) userSignature = inr zk ->
  let s' := fst (processJWT sdk token o s) in
  snd (generateZkLoginSignature sdk transactionBytes zkProof s) =
    inl "Failed to generate zkLogin signature: zkLogin setup not completed"
  /\ snd (processJWT sdk token o s) =
       inl ("Failed to process JWT: "
            ++ match Js.to_string got with
               | inr text =>
                   "Nonce mismatch: expected " ++ render_field (nonce s)
                   ++ ", got " ++ text
               | inl msg => msg
               end)
  /\ userAddress s' = userAddress s
  /\ generateZkLoginSignature sdk transactionBytes zkProof s' =
       (set_zkLoginSignature (Some zk) s', inr zk).
Proof.
  intros Hr Hn Hk Hj Hd Hg Hne Hs Hz. cbv zeta.
  rewrite (processJWT_mismatch sdk token o s d got Hr Hn Hd Hg Hne).
  rewrite !generateZkLoginSignature_run. simpl.
  rewrite Hk, Hj. simpl.
  rewrite (isValidJWT_truthy token (decodeJWT_valid sdk token d Hd)).
  rewrite Hs, Hz. repeat split.
Qed.

Lemma processJWT_rejected_token_signs_witness :
  snd (generateZkLoginSignature Sample.sdk "bytes" "proof"
         (fst (processJWT Sample.sdk Sample.stale_token Sample.store
                 Sample.prepared))) = inr "zk".
Proof.
  let dec := eval vm_compute in (decodeJWT Sample.sdk Sample.stale_token) in
  let kpo := eval vm_compute in (ephemeralKeyPair Sample.prepared) in
  match dec with
  | inr ?d =>
    match kpo with
    | Some ?kp =>
      assert (D : decodeJWT Sample.sdk Sample.stale_token = inr d)
        by (vm_compute; reflexivity);
      assert (K : ephemeralKeyPair Sample.prepared = Some kp)
        by (vm_compute; reflexivity);
      assert (R : truthy_bigint (randomness Sample.prepared) = true)
        by (vm_compute; reflexivity);
      assert (N : truthy_string (nonce Sample.prepared) = true)
        by (vm_compute; reflexivity);
      assert (J : jwt Sample.prepared = None) by (vm_compute; reflexivity);
      assert (G : Js.get (payload d) c_nonce = inr (VJson (JStr "other")))
        by (vm_compute; reflexivity);
      assert (Ne : strict_eq_field (VJson (JStr "other")) (nonce Sample.prepared)
                   = false) by (vm_compute; reflexivity);
      assert (Z : getZkLoginSignature Sample.sdk "proof"
                    (maxEpoch Sample.prepared) "sig" = inr "zk")
        by (vm_compute; reflexivity);
      destruct (processJWT_rejected_token_signs Sample.sdk Sample.stale_token
                  Sample.store Sample.prepared d (VJson (JStr "other")) kp
                  "bytes" "proof" "sig" "zk" R N K J D G Ne eq_refl Z)
        as (_ & _ & _ & S)
    end
  end.
  rewrite S. reflexivity.
Defined.

(** ** Building and signing a transaction *)

Section TransactionFacts.

Variables Tx Call Transfer : Type.
Variable sdk : Sdk.
Variable api : Builder Tx Call Transfer.

Lemma createAndSignTransaction_run (data : TransactionData Call Transfer)
    (zkProof : string) (s : ZkLogin) :
  createAndSignTransaction sdk api data zkProof s =
    if truthy_string (userAddress s) then
      match assemble api (render_field (userAddress s)) data with
      | inl m => (s, inl ("Failed to create and sign transaction: " ++ m))
      | inr built =>
          match generateZkLoginSignature sdk (snd built) zkProof s with
          | (s', inl m) => (s', inl ("Failed to create and sign transaction: " ++ m))
          | (s', inr signature) =>
              (s', inr {| st_success := true;
                          st_transaction := fst built;
                          st_transactionBytes := snd built;
                          st_signature := signature |})
          end
      end
    else (s, inl "Failed to create and sign transaction: User address not available. Process JWT first.").
Proof.
  unfold createAndSignTransaction, assemble. run.
  destruct (truthy_string (userAddress s)); simpl; [|reflexivity].
  destruct (Transaction_setSender api _ _) as [m|t1]; simpl; [reflexivity|].
  destruct (moveCall data) as [c|]; simpl.
  - destruct (Transaction_moveCall api c t1) as [m|t2]; simpl; [reflexivity|].
    destruct (transferObjects data) as [x|]; simpl.
    + destruct (Transaction_transferObjects api x t2) as [m|t3]; simpl;
        [reflexivity|].
      destruct (Transaction_build api t3) as [m|b]; simpl; [reflexivity|].
      destruct (generateZkLoginSignature sdk (snd b) zkProof s) as [s' [m|g]];
        reflexivity.
    + destruct (Transaction_build api t2) as [m|b]; simpl; [reflexivity|].
      destruct (generateZkLoginSignature sdk (snd b) zkProof s) as [s' [m|g]];
        reflexivity.
  - destruct (transferObjects data) as [x|]; simpl.
    + destruct (Transaction_transferObjects api x t1) as [m|t3]; simpl;
        [reflexivity|].
      destruct (Transaction_build api t3) as [m|b]; simpl; [reflexivity|].
      destruct (generateZkLoginSignature sdk (snd b) zkProof s) as [s' [m|g]];
        reflexivity.
    + destruct (Transaction_build api t1) as [m|b]; simpl; [reflexivity|].
      destruct (generateZkLoginSignature sdk (snd b) zkProof s) as [s' [m|g]];
        reflexivity.
Qed.

End TransactionFacts.

(** ** Invariants of the instance *)

Lemma constructor_coherent (raw : Config.raw) (disk : SaltStore.t) (s : ZkLogin) :
  constructor raw disk = inr s -> coherent s.
Proof.
  unfold constructor. intros E.
  destruct (negb (Str.truthy _)); [discriminate|].
  destruct (negb (Str.truthy _)); [discriminate|].
  assert (S : s = fst (reset (allocated
                {| Config.suiRpcUrl :=
                     or_string (Config.r_suiRpcUrl raw) "https://fullnode.devnet.sui.io:443";
                   Config.provider := or_string (Config.r_provider raw) "google";
                   Config.clientId := or_string (Config.r_clientId raw) "";
                   Config.redirectUrl := or_string (Config.r_redirectUrl raw) "";
                   Config.keyScheme := or_string (Config.r_keyScheme raw) "ED25519";
                   Config.oauthFlow := or_string (Config.r_oauthFlow raw) "implicit";
                   Config.maxEpoch := or_number (Config.r_maxEpoch raw) (Double.Int 10);
                   Config.userSalt := or_string (Config.r_userSalt raw) "0";
                   Config.useDatabase := or_bool (Config.r_useDatabase raw) false;
                   Config.dbPath := or_string (Config.r_dbPath raw) "./zklogin_salts.db" |}
                (if or_bool (Config.r_useDatabase raw) false then Some disk else None)))).
  { destruct (PROVIDERS _); [| |discriminate]; injection E as <-; reflexivity. }
  rewrite S. unfold coherent. simpl.
  split; [left; repeat split|].
  split; [intros t X; discriminate|].
  split; [congruence|]. split; [congruence|]. split; [congruence|].
  destruct (or_bool (Config.r_useDatabase raw) false); split; congruence.
Qed.

Lemma reset_coherent (s : ZkLogin) : coherent s -> coherent (fst (reset s)).
Proof.
  intros (_ & _ & _ & Hu & _ & Hdb). unfold coherent. simpl.
  split; [left; repeat split|].
  split; [intros t X; discriminate|].
  split; [congruence|]. split; [exact Hu|]. split; [congruence|]. exact Hdb.
Qed.

Lemma generateEphemeralKeyPair_writes (sdk : Sdk) (fresh : KeyMaterial)
    (s : ZkLogin) :
  let s' := fst (generateEphemeralKeyPair sdk fresh s) in
  s' = s \/ exists kp, s' = set_ephemeralKeyPair (Some kp) s.
Proof.
  cbv zeta. unfold generateEphemeralKeyPair. run.
  destruct (String.eqb (Config.keyScheme (config s)) "ED25519").
  - right. eexists. reflexivity.
  - destruct (String.eqb (Config.keyScheme (config s)) "Secp256k1").
    + right. eexists. reflexivity.
    + left. reflexivity.
Qed.

Lemma generateEphemeralKeyPair_coherent (sdk : Sdk) (fresh : KeyMaterial)
    (s : ZkLogin) :
  coherent s -> coherent (fst (generateEphemeralKeyPair sdk fresh s)).
Proof.
  intros H.
  destruct (generateEphemeralKeyPair_writes sdk fresh s) as [->|(kp & ->)];
    [exact H|].
  destruct H as (Hp & Hj & Ha & Hu & Hz & Hdb). unfold coherent. simpl.
  split.
  { destruct Hp as [Hp|(r & n & c & H1 & H2 & H3 & H4 & _)]; [left; exact Hp|].
    right. exists r, n, c. repeat split; try assumption. discriminate. }
  split; [exact Hj|]. split; [exact Ha|]. split; [exact Hu|].
  split; [|exact Hdb].
  intros X. split; [exact (proj1 (Hz X))|discriminate].
Qed.

Lemma prepareForJWT_coherent (sdk : Sdk)
    (provider clientId redirectUrl : option string) (o : PrepareOracle)
    (s : ZkLogin) :
  coherent s ->
  coherent (fst (prepareForJWT sdk provider clientId redirectUrl o s)).
Proof.
  intros H.
  destruct (merged_fields provider clientId redirectUrl (config s))
    as (_ & _ & _ & _ & _ & _ & Fm & _ & Fd & _).
  destruct (ephemeralKeyPair s) as [kp|] eqn:Hk.
  2:{ now rewrite (prepareForJWT_without_keys sdk provider clientId redirectUrl o s Hk). }
  destruct H as (Hp & Hj & Ha & Hu & Hz & Hdb).
  destruct (prepare_guard provider clientId redirectUrl s) as [m|] eqn:G.
  - rewrite (prepareForJWT_stopped sdk provider clientId redirectUrl o s kp m Hk G).
    unfold coherent. simpl. rewrite Fm, Fd.
    split; [exact Hp|]. split; [exact Hj|]. split; [exact Ha|].
    split; [exact Hu|]. split; [exact Hz|exact Hdb].
  - destruct (prepareForJWT_runs sdk provider clientId redirectUrl o s G)
      as (kp' & _ & R).
    cbv zeta in R. rewrite R. unfold coherent. simpl. rewrite Fm, Fd, Hk.
    split.
    { right. eexists. eexists. eexists. repeat split. discriminate. }
    split.
    { intros t X. split; [exact (proj1 (Hj t X))|discriminate]. }
    split; [exact Ha|]. split; [exact Hu|].
    split; [|exact Hdb].
    intros X. split; [exact (proj1 (Hz X))|discriminate].
Qed.

Lemma resolve_salt_database (sdk : Sdk) (subject : jsval) (o : SaltStore.Oracle)
    (s : ZkLogin) :
  saltDatabase (fst (resolve_salt sdk subject o s)) <> None <->
  saltDatabase s <> None.
Proof.
  unfold resolve_salt. run.
  destruct (Config.useDatabase (config s)); [|reflexivity].
  destruct (saltDatabase s) as [db|] eqn:E; [|simpl; rewrite E; reflexivity].
  destruct (SaltStore.getOrCreateUserSalt _ _ _ _ _) as [m|[salt db']]; simpl;
    [rewrite E; split; congruence|].
  destruct (Js.to_string subject); simpl; split; congruence.
Qed.

(** The fields that [processJWT] has written when it ends, with the
    order in which it writes them. *)
Lemma processJWT_order (sdk : Sdk) (token : string) (o : SaltStore.Oracle)
    (s : ZkLogin) :
  let s' := fst (processJWT sdk token o s) in
  s' = s \/
  exists dj db us ua,
    s' = set_userAddress ua (set_userSalt us (set_saltDatabase db
           (set_decodedJWT dj (set_jwt (Some token) s)))) /\
    truthy_string (nonce s) = true /\
    isValidJWT token = true /\
    (db <> None <-> saltDatabase s <> None) /\
    (dj = decodedJWT s \/ dj <> None) /\
    (us = userSalt s \/ us <> None /\ dj <> None) /\
    (ua = userAddress s \/ ua <> None /\ us <> None).
Proof.
  cbv zeta.
  destruct (truthy_bigint (randomness s) && truthy_string (nonce s)) eqn:G.
  2:{ left. now rewrite (processJWT_unprepared sdk token o s G). }
  apply andb_true_iff in G as [Hr Hn].
  destruct (isValidJWT token) eqn:Hv.
  2:{ left. now rewrite (processJWT_malformed sdk token o s Hr Hn Hv). }
  right.
  pose proof (processJWT_trace sdk token o s Hr Hn Hv) as T. cbv zeta in T.
  assert (Some_not_None : forall (A : Type) (a : A), Some a <> None)
    by (intros; discriminate).
  destruct (decodeJWT sdk token) as [m|d].
  { rewrite T.
    exists (decodedJWT s), (saltDatabase s), (userSalt s), (userAddress s).
    repeat split; auto. }
  destruct (Js.get (payload d) c_nonce) as [m|got].
  { rewrite T.
    exists (Some d), (saltDatabase s), (userSalt s), (userAddress s).
    repeat split; auto. }
  destruct (negb (strict_eq_field got (nonce s))).
  { rewrite T.
    exists (Some d), (saltDatabase s), (userSalt s), (userAddress s).
    repeat split; auto. }
  destruct (extractSubFromJWT sdk token) as [m|subject].
  { rewrite T.
    exists (Some d), (saltDatabase s), (userSalt s), (userAddress s).
    repeat split; auto. }
  pose proof (resolve_salt_writes_database sdk subject o
                (set_decodedJWT (Some d) (set_jwt (Some token) s))) as W.
  pose proof (resolve_salt_database sdk subject o
                (set_decodedJWT (Some d) (set_jwt (Some token) s))) as B.
  cbv zeta in W. simpl in B.
  set (s3 := fst (resolve_salt sdk subject o
                    (set_decodedJWT (Some d) (set_jwt (Some token) s)))) in *.
  destruct (snd (resolve_salt sdk subject o
                   (set_decodedJWT (Some d) (set_jwt (Some token) s))))
    as [m|salt].
  { rewrite T.
    exists (Some d), (saltDatabase s3), (userSalt s), (userAddress s).
    split; [rewrite W at 1; reflexivity|]. repeat split; auto; apply B. }
  destruct (snd (derive_address sdk token salt s)) as [m|address].
  { rewrite T.
    exists (Some d), (saltDatabase s3), (Some salt), (userAddress s).
    split; [simpl fst; rewrite W at 1; reflexivity|].
    repeat split; auto; apply B. }
  rewrite T.
  exists (Some d), (saltDatabase s3), (Some salt), (Some address).
  split; [simpl fst; rewrite W at 1; reflexivity|].
  repeat split; auto; apply B.
Qed.

Lemma processJWT_coherent (sdk : Sdk) (token : string) (o : SaltStore.Oracle)
    (s : ZkLogin) :
  coherent s -> coherent (fst (processJWT sdk token o s)).
Proof.
  intros H.
  destruct (processJWT_order sdk token o s)
    as [->|(dj & db & us & ua & -> & Hn & Hv & Hb & Hd & Hus & Hua)];
    [exact H|].
  destruct H as (Hp & Hj & Ha & Hu & Hz & Hdb). unfold coherent. simpl.
  split; [exact Hp|].
  split.
  { intros t X. injection X as <-. split; [exact Hv|].
    destruct (nonce s); [discriminate|discriminate]. }
  split.
  { intros X. split; [discriminate|].
    destruct Hua as [->|[_ Y]]; [|exact Y].
    destruct Hus as [->|[Y _]]; [exact (proj2 (Ha X))|exact Y]. }
  split.
  { intros X. destruct Hus as [->|[_ Y]]; [|exact Y].
    destruct Hd as [->|Y]; [exact (Hu X)|exact Y]. }
  split.
  { intros X. split; [discriminate|exact (proj2 (Hz X))]. }
  rewrite Hb. exact Hdb.
Qed.

Lemma generateZkLoginSignature_coherent (sdk : Sdk)
    (transactionBytes zkProof : string) (s : ZkLogin) :
  coherent s ->
  coherent (fst (generateZkLoginSignature sdk transactionBytes zkProof s)).
Proof.
  intros H. rewrite generateZkLoginSignature_run.
  destruct (ephemeralKeyPair s) as [kp|] eqn:Hk; [|exact H].
  destruct (truthy_string (jwt s)) eqn:J; [|exact H].
  destruct (signTransaction sdk kp transactionBytes) as [m|us]; [exact H|].
  destruct (getZkLoginSignature sdk zkProof (maxEpoch s) us) as [m|zk];
    [exact H|].
  destruct H as (Hp & Hj & Ha & Hu & Hz & Hdb). unfold coherent. simpl.
  split; [exact Hp|]. split; [exact Hj|]. split; [exact Ha|].
  split; [exact Hu|]. split; [|exact Hdb].
  intros _. split; [|rewrite Hk; discriminate].
  destruct (jwt s); [discriminate|discriminate].
Qed.

Lemma updateUserSalt_coherent (userIdentifier provider newSalt : string)
    (o : SaltStore.Oracle) (s : ZkLogin) :
  coherent s ->
  coherent (fst (updateUserSalt userIdentifier provider newSalt o s)).
Proof.
  intros H. unfold updateUserSalt. run.
  destruct (Config.useDatabase (config s)) eqn:U; [|exact H].
  destruct (saltDatabase s) as [db|] eqn:D; [|exact H].
  destruct (SaltStore.updateUserSalt db _ _ _ o) as [m|[c db']]; [exact H|].
  destruct H as (Hp & Hj & Ha & Hu & Hz & Hdb). unfold coherent. simpl.
  rewrite U.
  split; [exact Hp|]. split; [exact Hj|]. split; [exact Ha|].
  split; [exact Hu|]. split; [exact Hz|]. split; [reflexivity|discriminate].
Qed.

Lemma deleteUserSalt_coherent (userIdentifier provider : string)
    (o : SaltStore.Oracle) (s : ZkLogin) :
  coherent s ->
  coherent (fst (deleteUserSalt userIdentifier provider o s)).
Proof.
  intros H. unfold deleteUserSalt. run.
  destruct (Config.useDatabase (config s)) eqn:U; [|exact H].
  destruct (saltDatabase s) as [db|] eqn:D; [|exact H].
  destruct (SaltStore.deleteUserSalt db _ _ o) as [m|[c db']]; [exact H|].
  destruct H as (Hp & Hj & Ha & Hu & Hz & Hdb). unfold coherent. simpl.
  rewrite U.
  split; [exact Hp|]. split; [exact Hj|]. split; [exact Ha|].
  split; [exact Hu|]. split; [exact Hz|]. split; [reflexivity|discriminate].
Qed.

Lemma step_coherent (sdk : Sdk) (s s' : ZkLogin) :
  step sdk s s' -> coherent s -> coherent s'.
Proof.
  intros Hs Hc. destruct Hs.
  - now apply reset_coherent.
  - now apply generateEphemeralKeyPair_coherent.
  - now apply prepareForJWT_coherent.
  - now apply processJWT_coherent.
  - now apply generateZkLoginSignature_coherent.
  - now apply updateUserSalt_coherent.
  - now apply deleteUserSalt_coherent.
Qed.

Lemma reachable_coherent (sdk : Sdk) (s : ZkLogin) :
  reachable sdk s -> coherent s.
Proof.
  induction 1 as [raw disk s E | s s' _ IH Hs].
  - exact (constructor_coherent raw disk s E).
  - exact (step_coherent sdk s s' Hs IH).
Qed.

Lemma reachable_prepared : reachable Sample.sdk Sample.prepared.
Proof.
  apply (reachable_step Sample.sdk Sample.keyed); [exact reachable_keyed|].
  apply (step_prepare Sample.sdk None None None Sample.offline).
Qed.

(** X20. On every instance that a program can hold, the fields tell the
    order of the steps.  A nonce comes with the randomness, both epochs
    and a key pair, and the validity bound is the current epoch plus the
    configured window, as the code adds them: the sum of two doubles,
    which is the sum of the integers whenever that is a safe integer.  A
    stored token comes with a nonce; an address comes with a stored
    token, a salt and a decoding; a signature comes with a stored token
    and a key pair. *)
Theorem reachable_session_order (sdk : Sdk) (s : ZkLogin) :
  reachable sdk s ->
  (nonce s <> None ->
   exists r c,
     randomness s = Some r /\ currentEpoch s = Some c /\
     maxEpoch s = Some (Double.add c (Config.maxEpoch (config s))) /\
     (forall e w : Z,
        c = Double.Int e -> Config.maxEpoch (config s) = Double.Int w ->
        Double.safe (e + w) ->
        maxEpoch s = Some (Double.Int (e + w))) /\
     ephemeralKeyPair s <> None)
  /\ (randomness s = None ->
      nonce s = None /\ currentEpoch s = None /\ maxEpoch s = None)
  /\ (forall t, jwt s = Some t -> isValidJWT t = true /\ nonce s <> None)
  /\ (userAddress s <> None ->
      jwt s <> None /\ userSalt s <> None /\ decodedJWT s <> None)
  /\ (zkLoginSignature s <> None ->
      jwt s <> None /\ ephemeralKeyPair s <> None).
Proof.
  intros R.
  destruct (reachable_coherent sdk s R) as (Hp & Hj & Ha & Hu & Hz & _).
  split.
  { intros N.
    destruct Hp as [(_ & X & _)|(r & n & c & H1 & _ & H3 & H4 & H5)];
      [congruence|].
    exists r, c. split; [assumption|]. split; [assumption|].
    split; [assumption|]. split; [|assumption].
    intros e w Hc Hw S. rewrite H4, Hc, Hw, (Double_add_safe e w S).
    reflexivity. }
  split.
  { intros N.
    destruct Hp as [(_ & X)|(r & n & c & H1 & _)]; [exact X|congruence]. }
  split; [exact Hj|]. split; [|exact Hz].
  intros X. destruct (Ha X) as [J U]. repeat split; auto.
Qed.

Lemma reachable_session_order_witness :
  exists r,
    randomness Sample.prepared = Some r /\
    currentEpoch Sample.prepared = Some (Double.Int 100) /\
    maxEpoch Sample.prepared = Some (Double.Int 110).
Proof.
  destruct (reachable_session_order Sample.sdk Sample.prepared
              reachable_prepared) as (N & _).
  destruct N as (r & c & H1 & H2 & _ & H3 & _); [discriminate|].
  exists r. split; [exact H1|].
  assert (C : c = Double.Int 100).
  { vm_compute in H2. injection H2 as <-. reflexivity. }
  split; [rewrite H2, C; reflexivity|].
  apply (H3 100%Z 10%Z C eq_refl). unfold Double.safe. simpl. lia.
Defined.

(** X21. The salt database is present exactly on the instances that
    were configured with [useDatabase].  Without it [updateUserSalt] and
    [deleteUserSalt] throw ['Database not enabled'] and write nothing;
    with it they hand the request to the database, so that message is
    never the answer of an instance that has one unless the database
    itself gives it. *)
Theorem reachable_database_presence (sdk : Sdk) (s : ZkLogin)
    (userIdentifier provider newSalt : string) (o : SaltStore.Oracle) :
  reachable sdk s ->
  (Config.useDatabase (config s) = false ->
   saltDatabase s = None /\
   updateUserSalt userIdentifier provider newSalt o s =
     (s, inl "Database not enabled") /\
   deleteUserSalt userIdentifier provider o s =
     (s, inl "Database not enabled"))
  /\ (Config.useDatabase (config s) = true ->
      exists db,
        saltDatabase s = Some db /\
        snd (updateUserSalt userIdentifier provider newSalt o s) =
          match SaltStore.updateUserSalt db userIdentifier provider newSalt o with
          | inl m => inl m
          | inr r => inr (fst r)
          end /\
        snd (deleteUserSalt userIdentifier provider o s) =
          match SaltStore.deleteUserSalt db userIdentifier provider o with
          | inl m => inl m
          | inr r => inr (fst r)
          end).
Proof.
  intros R.
  destruct (reachable_coherent sdk s R) as (_ & _ & _ & _ & _ & Hdb).
  split.
  - intros U. split.
    + destruct (saltDatabase s) as [db|]; [|reflexivity].
      assert (X : Config.useDatabase (config s) = true)
        by (apply Hdb; discriminate).
      congruence.
    + unfold updateUserSalt, deleteUserSalt. run. rewrite U. split; reflexivity.
  - intros U.
    destruct (saltDatabase s) as [db|] eqn:D.
    2:{ exfalso. apply Hdb in U. congruence. }
    exists db. split; [reflexivity|].
    unfold updateUserSalt, deleteUserSalt. run. rewrite U, D.
    split.
    + destruct (SaltStore.updateUserSalt db _ _ _ o) as [m|[c db']]; reflexivity.
    + destruct (SaltStore.deleteUserSalt db _ _ o) as [m|[c db']]; reflexivity.
Qed.

Lemma reachable_database_presence_witness :
  updateUserSalt "user123" "google" "beef" Sample.store Sample.prepared =
    (Sample.prepared, inl "Database not enabled").
Proof.
  destruct (reachable_database_presence Sample.sdk Sample.prepared
              "user123" "google" "beef" Sample.store reachable_prepared)
    as (N & _).
  destruct (N eq_refl) as (_ & U & _). exact U.
Defined.

Lemma prepareForJWT_config_fields (sdk : Sdk)
    (provider clientId redirectUrl : option string) (o : PrepareOracle)
    (s : ZkLogin) :
  let c' := config (fst (prepareForJWT sdk provider clientId redirectUrl o s)) in
  c' = config s \/ c' = merged provider clientId redirectUrl (config s).
Proof.
  cbv zeta.
  destruct (ephemeralKeyPair s) as [kp|] eqn:Hk.
  2:{ left.
      now rewrite (prepareForJWT_without_keys sdk provider clientId redirectUrl o s Hk). }
  right.
  destruct (prepare_guard provider clientId redirectUrl s) as [m|] eqn:G.
  - now rewrite (prepareForJWT_stopped sdk provider clientId redirectUrl o s kp m Hk G).
  - destruct (prepareForJWT_runs sdk provider clientId redirectUrl o s G)
      as (kp' & _ & R).
    cbv zeta in R. now rewrite R.
Qed.

(** X22. No call changes the key scheme, the OAuth flow, the epoch
    window, the configured salt, the database settings or the RPC URL of
    an instance: they are what the constructor made of its argument.
    Only the provider, the client id and the redirect URL can change, and
    only [prepareForJWT] changes them. *)
Theorem step_fixed_configuration (sdk : Sdk) (s s' : ZkLogin) :
  step sdk s s' ->
  Config.keyScheme (config s') = Config.keyScheme (config s) /\
  Config.oauthFlow (config s') = Config.oauthFlow (config s) /\
  Config.maxEpoch (config s') = Config.maxEpoch (config s) /\
  Config.userSalt (config s') = Config.userSalt (config s) /\
  Config.useDatabase (config s') = Config.useDatabase (config s) /\
  Config.dbPath (config s') = Config.dbPath (config s) /\
  Config.suiRpcUrl (config s') = Config.suiRpcUrl (config s) /\
  (config s' = config s \/
   exists provider clientId redirectUrl o,
     s' = fst (prepareForJWT sdk provider clientId redirectUrl o s)).
Proof.
  assert (Same : forall a b : ZkLogin, config b = config a ->
            Config.keyScheme (config b) = Config.keyScheme (config a) /\
            Config.oauthFlow (config b) = Config.oauthFlow (config a) /\
            Config.maxEpoch (config b) = Config.maxEpoch (config a) /\
            Config.userSalt (config b) = Config.userSalt (config a) /\
            Config.useDatabase (config b) = Config.useDatabase (config a) /\
            Config.dbPath (config b) = Config.dbPath (config a) /\
            Config.suiRpcUrl (config b) = Config.suiRpcUrl (config a) /\
            (config b = config a \/
             exists provider clientId redirectUrl o,
               b = fst (prepareForJWT sdk provider clientId redirectUrl o a))).
  { intros a b E. rewrite E. repeat split. left. reflexivity. }
  intros Hs. destruct Hs.
  - apply Same. reflexivity.
  - apply Same. apply generateEphemeralKeyPair_config.
  - destruct (prepareForJWT_config_fields sdk provider clientId redirectUrl o s)
      as [E|E]; [apply Same; exact E|].
    rewrite E.
    destruct (merged_fields provider clientId redirectUrl (config s))
      as (_ & _ & _ & F1 & F2 & F3 & F4 & F5 & F6 & F7).
    repeat split; try assumption.
    right. exists provider, clientId, redirectUrl, o. reflexivity.
  - apply Same. apply processJWT_config.
  - apply Same. apply generateZkLoginSignature_config.
  - apply Same. apply updateUserSalt_config.
  - apply Same. apply deleteUserSalt_config.
Qed.

Lemma step_fixed_configuration_witness :
  Config.keyScheme
    (config (fst (prepareForJWT Sample.sdk (Some "twitch") None None
                    Sample.online Sample.keyed))) = "ED25519".
Proof.
  destruct (step_fixed_configuration Sample.sdk Sample.keyed _
              (step_prepare Sample.sdk (Some "twitch") None None
                 Sample.online Sample.keyed)) as (K & _).
  rewrite K. reflexivity.
Defined.

(** ** Transactions *)

(** X23. [createAndSignTransaction] asks for a stored address before it
    touches the builder and throws ['User address not available. Process
    JWT first.'] without one.  Every failure carries the prefix of the
    method, also around the prefix of [generateZkLoginSignature], and
    leaves the instance as it was.  When it returns, the sender given to
    the builder was the stored address, the bytes signed are the bytes
    built, and the signature returned is the one now stored; nothing but
    [zkLoginSignature] has been written. *)
Theorem createAndSignTransaction_outcome (Tx Call Transfer : Type) (sdk : Sdk)
    (api : Builder Tx Call Transfer) (data : TransactionData Call Transfer)
    (zkProof : string) (s s' : ZkLogin)
    (out : string + SignedTransaction Tx) :
  createAndSignTransaction sdk api data zkProof s = (s', out) ->
  match out with
  | inl m =>
      s' = s /\
      exists why, m = "Failed to create and sign transaction: " ++ why
  | inr r =>
      exists address built,
        userAddress s = Some address /\
        assemble api address data = inr built /\
        st_success r = true /\
        st_transaction r = fst built /\
        st_transactionBytes r = snd built /\
        generateZkLoginSignature sdk (snd built) zkProof s =
          (s', inr (st_signature r)) /\
        s' = set_zkLoginSignature (Some (st_signature r)) s
  end
  /\ (truthy_string (userAddress s) = false ->
      out = inl "Failed to create and sign transaction: User address not available. Process JWT first.").
Proof.
  rewrite createAndSignTransaction_run. intros E.
  destruct (truthy_string (userAddress s)) eqn:A.
  2:{ injection E as <- <-. split; [|reflexivity].
      split; [reflexivity|eexists; reflexivity]. }
  split; [|discriminate].
  destruct (userAddress s) as [address|] eqn:Ua; [|discriminate]. simpl in E.
  destruct (assemble api address data) as [m|built] eqn:B.
  { injection E as <- <-. split; [reflexivity|eexists; reflexivity]. }
  pose proof (generateZkLoginSignature_run sdk (snd built) zkProof s) as G.
  destruct (generateZkLoginSignature sdk (snd built) zkProof s)
    as [s1 [m|zk]] eqn:Eg.
  - injection E as <- <-. split; [|eexists; reflexivity].
    destruct (ephemeralKeyPair s) as [kp|]; [|congruence].
    destruct (truthy_string (jwt s)); [|congruence].
    destruct (signTransaction sdk kp (snd built)); [congruence|].
    destruct (getZkLoginSignature sdk zkProof (maxEpoch s) s0); congruence.
  - injection E as <- <-. exists address, built. simpl.
    repeat split; try reflexivity; try assumption.
    destruct (ephemeralKeyPair s) as [kp|]; [|congruence].
    destruct (truthy_string (jwt s)); [|congruence].
    destruct (signTransaction sdk kp (snd built)); [congruence|].
    destruct (getZkLoginSignature sdk zkProof (maxEpoch s) s0); congruence.
Qed.

Lemma createAndSignTransaction_outcome_witness :
  exists s' : ZkLogin,
    snd (createAndSignTransaction Sample.sdk Cases.recorder Cases.mint "proof"
           Sample.prepared) =
      inl "Failed to create and sign transaction: User address not available. Process JWT first."
    /\ fst (createAndSignTransaction Sample.sdk Cases.recorder Cases.mint "proof"
              Sample.prepared) = s'
    /\ s' = Sample.prepared.
Proof.
  destruct (createAndSignTransaction Sample.sdk Cases.recorder Cases.mint "proof"
              Sample.prepared) as [s' out] eqn:E.
  exists s'.
  destruct (createAndSignTransaction_outcome _ _ _ Sample.sdk Cases.recorder
              Cases.mint "proof" Sample.prepared s' out E) as [O G].
  rewrite (G eq_refl) in O. destruct O as [S _].
  simpl. split; [exact (G eq_refl)|]. split; [reflexivity|exact S].
Defined.

(** X24. On an instance that a program can hold, a stored address is
    all that signing a transaction needs: the guard of
    [generateZkLoginSignature] cannot fail after the guard of
    [createAndSignTransaction] has passed.  When the builder gives the
    bytes, the key signs them and the SDK assembles the signature, the
    call returns that signature for the transaction built. *)
Theorem createAndSignTransaction_reachable (Tx Call Transfer : Type) (sdk : Sdk)
    (api : Builder Tx Call Transfer) (data : TransactionData Call Transfer)
    (zkProof : string) (s : ZkLogin) (address : string) (built : Tx * string) :
  reachable sdk s ->
  userAddress s = Some address ->
  Str.truthy address = true ->
  assemble api address data = inr built ->
  exists kp,
    ephemeralKeyPair s = Some kp /\
    truthy_string (jwt s) = true /\
    forall userSignature zk,
      signTransaction sdk kp (snd built) = inr userSignature ->
      getZkLoginSignature sdk zkProof (maxEpoch s) userSignature = inr zk ->
      createAndSignTransaction sdk api data zkProof s =
        (set_zkLoginSignature (Some zk) s,
         inr {| st_success := true;
                st_transaction := fst built;
                st_transactionBytes := snd built;
                st_signature := zk |}).
Proof.
  intros R Ua Ta B.
  destruct (reachable_coherent sdk s R) as (Hp & Hj & Ha & _).
  destruct Ha as [J _]; [congruence|].
  destruct (jwt s) as [t|] eqn:Ej; [|congruence].
  destruct (Hj t eq_refl) as [Hv Hn].
  destruct Hp as [(_ & X & _)|(r & n & c & _ & _ & _ & _ & K)]; [congruence|].
  destruct (ephemeralKeyPair s) as [kp|] eqn:Ek; [|congruence].
  exists kp. split; [reflexivity|].
  split; [exact (isValidJWT_truthy t Hv)|].
  intros us zk Hs Hz.
  rewrite createAndSignTransaction_run, Ua. simpl. rewrite Ta, B.
  rewrite generateZkLoginSignature_run, Ek, Ej. simpl.
  rewrite (isValidJWT_truthy t Hv), Hs, Hz. reflexivity.
Qed.

Lemma createAndSignTransaction_reachable_witness :
  exists r,
    snd (createAndSignTransaction Sample.sdk Cases.recorder Cases.mint "proof"
           (fst (processJWT Sample.sdk Sample.good_token Sample.store
                   Sample.prepared))) = inr r
    /\ st_signature r = "zk"
    /\ st_transactionBytes r = "sender 0x05a17;call pkg::nft::mint".
Proof.
  assert (R : reachable Sample.sdk
                (fst (processJWT Sample.sdk Sample.good_token Sample.store
                        Sample.prepared))).
  { apply (reachable_step Sample.sdk Sample.prepared);
      [exact reachable_prepared|].
    apply (step_process Sample.sdk Sample.good_token Sample.store). }
  assert (A : userAddress
                (fst (processJWT Sample.sdk Sample.good_token Sample.store
                        Sample.prepared)) = Some "0x05a17")
    by (vm_compute; reflexivity).
  assert (B : assemble Cases.recorder "0x05a17" Cases.mint =
              inr (["sender 0x05a17"; "call pkg::nft::mint"],
                   "sender 0x05a17;call pkg::nft::mint"))
    by (vm_compute; reflexivity).
  destruct (createAndSignTransaction_reachable _ _ _ Sample.sdk Cases.recorder
              Cases.mint "proof" _ "0x05a17" _ R A eq_refl B)
    as (kp & _ & _ & F).
  rewrite (F "sig" "zk" eq_refl eq_refl).
  eexists. split; [reflexivity|]. split; reflexivity.
Defined.

(** X25. [processJWT] never reads the key pair.  Its answer and what it
    writes are the same whatever key pair the instance holds, or none: a
    token whose nonce was computed for one key is accepted in the same
    way after [generateEphemeralKeyPair] has replaced that key. *)
Theorem processJWT_ignores_key_pair (sdk : Sdk) (token : string)
    (o : SaltStore.Oracle) (s : ZkLogin) (k : option KeyPair)
    (fresh : KeyMaterial) :
  processJWT sdk token o (set_ephemeralKeyPair k s) =
    (set_ephemeralKeyPair k (fst (processJWT sdk token o s)),
     snd (processJWT sdk token o s))
  /\ snd (processJWT sdk token o (fst (generateEphemeralKeyPair sdk fresh s))) =
     snd (processJWT sdk token o s).
Proof.
  assert (P : forall k,
    processJWT sdk token o (set_ephemeralKeyPair k s) =
      (set_ephemeralKeyPair k (fst (processJWT sdk token o s)),
       snd (processJWT sdk token o s))).
  { intros k0. unfold processJWT, resolve_salt, derive_address. run.
    destruct (truthy_bigint (randomness s)); simpl; [|reflexivity].
    destruct (truthy_string (nonce s)); simpl; [|reflexivity].
    destruct (isValidJWT token); simpl; [|reflexivity].
    destruct (decodeJWT sdk token) as [m|d]; simpl; [reflexivity|].
    destruct (Js.get (payload d) c_nonce) as [m|got]; simpl; [reflexivity|].
    destruct (strict_eq_field got (nonce s)); simpl;
    [|destruct (Js.to_string got); reflexivity].
    destruct (extractSubFromJWT sdk token) as [m|subject]; simpl; [reflexivity|].
    destruct (Config.useDatabase (config s)); simpl.
    - destruct (saltDatabase s) as [db|]; simpl.
      + destruct (SaltStore.getOrCreateUserSalt _ _ _ _ _) as [m|[salt db']]; simpl;
          [reflexivity|].
        destruct (Js.to_string subject); simpl; [reflexivity|].
        destruct (jwtToAddress sdk token salt); simpl; [reflexivity|].
        destruct (Js.get (payload d) c_sub) as [m|sb]; simpl; [reflexivity|].
        destruct (Js.get (payload d) c_aud) as [m|ad]; simpl; [reflexivity|].
        destruct (computeZkLoginAddressFromSeed sdk _ _ _ _); reflexivity.
      + destruct (jwtToAddress sdk token _); simpl; [reflexivity|].
        destruct (Js.get (payload d) c_sub) as [m|sb]; simpl; [reflexivity|].
        destruct (Js.get (payload d) c_aud) as [m|ad]; simpl; [reflexivity|].
        destruct (computeZkLoginAddressFromSeed sdk _ _ _ _); reflexivity.
    - destruct (jwtToAddress sdk token _); simpl; [reflexivity|].
      destruct (Js.get (payload d) c_sub) as [m|sb]; simpl; [reflexivity|].
      destruct (Js.get (payload d) c_aud) as [m|ad]; simpl; [reflexivity|].
      destruct (computeZkLoginAddressFromSeed sdk _ _ _ _); reflexivity. }
  split; [apply P|].
  destruct (generateEphemeralKeyPair_writes sdk fresh s) as [->|(kp & ->)];
    [reflexivity|].
  rewrite P. reflexivity.
Qed.

(** ** The snapshot and the URL *)

Lemma substring_short (n : nat) (s : string) :
  String.length s <= n -> String.substring 0 n s = s.
Proof.
  revert n. induction s as [|c s IH]; intros [|n] H; simpl in *;
    try reflexivity; try lia.
  f_equal. apply IH. lia.
Qed.

Lemma substring_length (n : nat) (s : string) :
  String.length (String.substring 0 n s) = Nat.min n (String.length s).
Proof.
  revert n. induction s as [|c s IH]; intros [|n]; simpl; try reflexivity.
  now rewrite IH.
Qed.

Lemma substring_prefix (n : nat) (s : string) :
  String.prefix (String.substring 0 n s) s = true.
Proof.
  revert n. induction s as [|c s IH]; intros [|n]; simpl; try reflexivity.
  destruct (Ascii.ascii_dec c c) as [_|X]; [apply IH|congruence].
Qed.

(** X26. The client id in the snapshot of [getState] is cut, not hidden:
    on an instance that a program can hold and whose client id is ASCII
    text, it is the first 20 characters of the configured id followed by
    three dots, so an id of at most 20 characters is shown in full. *)
Theorem getState_clientId_prefix (sdk : Sdk) (s : ZkLogin) (snap : State.t) :
  reachable sdk s ->
  Str.is_ascii (Config.clientId (config s)) = true ->
  snd (getState sdk s) = inr snap ->
  exists shown,
    State.clientId (State.config snap) = Some (shown ++ "...") /\
    String.prefix shown (Config.clientId (config s)) = true /\
    String.length shown = Nat.min 20 (String.length (Config.clientId (config s))) /\
    (String.length (Config.clientId (config s)) <= 20 ->
     shown = Config.clientId (config s)).
Proof.
  intros R A E.
  destruct (reachable_configured sdk s R) as (Hc & _).
  exists (String.substring 0 20 (Config.clientId (config s))).
  split.
  - unfold getState, substring in E. run. rewrite A in E.
    destruct (truthy_string (jwt s)); simpl in E.
    + destruct (getJWTClaims sdk s) as [s1 [m|c]]; simpl in E; [discriminate|].
      injection E as <-. simpl. rewrite Hc. reflexivity.
    + injection E as <-. simpl. rewrite Hc. reflexivity.
  - split; [apply substring_prefix|].
    split; [apply substring_length|apply substring_short].
Qed.

Lemma getState_clientId_prefix_witness :
  exists snap,
    snd (getState Sample.sdk Sample.prepared) = inr snap /\
    State.clientId (State.config snap) = Some "test-client...".
Proof.
  let r := eval vm_compute in (snd (getState Sample.sdk Sample.prepared)) in
  match r with
  | inr ?snap =>
      assert (E : snd (getState Sample.sdk Sample.prepared) = inr snap)
        by (vm_compute; reflexivity);
      destruct (getState_clientId_prefix Sample.sdk Sample.prepared snap
                  reachable_prepared eq_refl E) as (shown & C & _ & _ & F);
      exists snap; split; [exact E|]
  end.
  rewrite C, F; [reflexivity|]. vm_compute. lia.
Defined.

(** X27. Only the flow named exactly [code] is the authorization-code
    flow.  With any other configured flow, known or not, and for a
    provider of the table, [buildOAuthUrl] builds the implicit request:
    response type [id_token], response mode [fragment] and a [nonce]
    parameter, which is the text [null] when no nonce has been prepared
    yet.  It reads the instance and writes nothing. *)
Theorem buildOAuthUrl_other_flows (sessionId : option string)
    (generated : string) (s : ZkLogin) (p : Provider) :
  PROVIDERS (Config.provider (config s)) = Own p ->
  Config.oauthFlow (config s) <> "code" ->
  exists query,
    buildOAuthUrl sessionId generated s = (s, inr (authUrl p ++ "?" ++ query))
    /\ URLSearchParams.parse query =
         [ ("client_id", Config.clientId (config s));
           ("redirect_uri", Config.redirectUrl (config s));
           ("response_type", "id_token");
           ("scope", "openid email profile");
           ("state", or_string sessionId generated);
           ("response_mode", "fragment");
           ("nonce", match nonce s with Some n => n | None => "null" end) ].
Proof.
  intros Hp Hf.
  assert (F : String.eqb (or_string (Some (Config.oauthFlow (config s))) "implicit")
                         "code" = false).
  { simpl. destruct (Str.truthy (Config.oauthFlow (config s))); [|reflexivity].
    apply String.eqb_neq. exact Hf. }
  eexists. split.
  - apply (buildOAuthUrl_run sessionId generated s p Hp).
  - rewrite QueryFacts.parse_toString, F. reflexivity.
Qed.

Lemma buildOAuthUrl_other_flows_witness :
  snd (buildOAuthUrl (Some "s1") "g"
         (set_config (Config.with_provider "twitch" Sample.config) Sample.keyed)) =
    inr "https://id.twitch.tv/oauth2/authorize?client_id=test-client&redirect_uri=http%3A%2F%2Flocalhost%3A3000%2Fcallback&response_type=id_token&scope=openid+email+profile&state=s1&response_mode=fragment&nonce=null".
Proof.
  destruct (buildOAuthUrl_other_flows (Some "s1") "g"
              (set_config (Config.with_provider "twitch" Sample.config)
                 Sample.keyed)
              {| name := "Twitch";
                 authUrl := "https://id.twitch.tv/oauth2/authorize";
                 scope := "openid user:read:email";
                 responseType := "id_token" |})
    as (q & E & _); [reflexivity|discriminate|].
  vm_compute in E. injection E as <-. vm_compute. reflexivity.
Defined.

(** X28. [getOAuthUrl] returns [null] as long as the instance has no
    nonce, whatever else is configured.  With a nonce it is
    [buildOAuthUrl()] without a session id: for a provider of the table
    and a flow other than [code] the URL carries the stored nonce and
    the freshly generated state; after [prepareForJWT] has been given a
    provider that the table does not have, it throws. *)
Theorem getOAuthUrl_outcome (generated : string) (s : ZkLogin) :
  (truthy_string (nonce s) = false -> getOAuthUrl generated s = (s, inr None))
  /\ (forall n p,
        nonce s = Some n -> Str.truthy n = true ->
        PROVIDERS (Config.provider (config s)) = Own p ->
        exists query,
          getOAuthUrl generated s = (s, inr (Some (authUrl p ++ "?" ++ query))) /\
          URLSearchParams.get "state" (URLSearchParams.parse query) =
            Some generated /\
          (Config.oauthFlow (config s) <> "code" ->
           URLSearchParams.get "nonce" (URLSearchParams.parse query) = Some n))
  /\ (truthy_string (nonce s) = true ->
      PROVIDERS (Config.provider (config s)) = Missing ->
      getOAuthUrl generated s =
        (s, inl "Cannot read properties of undefined (reading 'authUrl')")).
Proof.
  split; [|split].
  - intros H. unfold getOAuthUrl. run. rewrite H. reflexivity.
  - intros n p Hn Ht Hp.
    pose proof (buildOAuthUrl_run None generated s p Hp) as B. cbv zeta in B.
    destruct (String.eqb (or_string (Some (Config.oauthFlow (config s))) "implicit")
                         "code") eqn:F.
    + eexists. split; [|split].
      * unfold getOAuthUrl. run. rewrite Hn. simpl. rewrite Ht.
        unfold bind. rewrite B. reflexivity.
      * rewrite QueryFacts.parse_toString. reflexivity.
      * intros Hf. exfalso. simpl in F.
        destruct (Str.truthy (Config.oauthFlow (config s))); [|discriminate].
        apply String.eqb_eq in F. contradiction.
    + eexists. split; [|split].
      * unfold getOAuthUrl. run. rewrite Hn. simpl. rewrite Ht.
        unfold bind. rewrite B. reflexivity.
      * rewrite QueryFacts.parse_toString. reflexivity.
      * intros _. rewrite QueryFacts.parse_toString, Hn. reflexivity.
  - intros Ht Hp. unfold getOAuthUrl. run. rewrite Ht.
    unfold bind. rewrite (buildOAuthUrl_unknown_provider None generated s Hp).
    reflexivity.
Qed.

Lemma getOAuthUrl_outcome_witness :
  getOAuthUrl "g" Sample.keyed = (Sample.keyed, inr None).
Proof.
  apply (proj1 (getOAuthUrl_outcome "g" Sample.keyed)).
  reflexivity.
Defined.
